(** * anthropic-proxy-litellm: the translation logic of [proxy.py]

    A shallow embedding of the gateway that rewrites message-centric
    requests into chat-completion requests and rewrites the backend's
    reply (one JSON document, or a stream of delta chunks) back.

    Python values that come out of [json.loads] are modelled by the type
    [json]; a [dict] is an association list in insertion order, as Python
    iterates it.  Python operations that may raise return a sum whose
    left side is the exception. *)

From Stdlib Require Import List String Ascii ZArith Bool.
From Stdlib Require Import SpecFloat.
Import ListNotations.
Local Open Scope string_scope.
Local Open Scope Z_scope.
Local Open Scope list_scope.

(** ** JSON values as Python objects *)

Unset Elimination Schemes.
Inductive json : Type :=
| JNull
| JBool (b : bool)
| JInt (z : Z)
| JFloat (f : spec_float)
| JStr (s : string)
| JArr (items : list json)
| JObj (fields : list (string * json)).
Set Elimination Schemes.

(** Exceptions the translation code can raise. *)
Inductive exn : Type :=
| KeyError (key : string)
| IndexError
| TypeError
| AttributeError
| JSONDecodeError
| HTTPStatusError
| ValueError
| RecursionError.

Definition result (A : Type) : Type := (exn + A)%type.

Definition ok {A} (a : A) : result A := inr a.
Definition throw {A} (e : exn) : result A := inl e.

Definition rbind {A B} (m : result A) (f : A -> result B) : result B :=
  match m with
  | inl e => inl e
  | inr a => f a
  end.

Declare Scope result_scope.
Delimit Scope result_scope with result.
Notation "x <- m ;; k" := (rbind m (fun x => k))
  (at level 61, m at next level, right associativity) : result_scope.

(** [dict.get] on the association list: first binding of the key. *)
Fixpoint dict_get (k : string) (d : list (string * json)) : option json :=
  match d with
  | [] => None
  | (k', v) :: d' => if String.eqb k k' then Some v else dict_get k d'
  end.

Definition dict_has (k : string) (d : list (string * json)) : bool :=
  match dict_get k d with Some _ => true | None => false end.

(** Python truth value of a decoded JSON value ([if x:], [not x], [or]). *)
Definition truthy (v : json) : bool :=
  match v with
  | JNull => false
  | JBool b => b
  | JInt z => negb (z =? 0)
  | JFloat (S754_zero _) => false
  | JFloat _ => true
  | JStr s => negb (String.eqb s "")
  | JArr l => match l with [] => false | _ => true end
  | JObj d => match d with [] => false | _ => true end
  end.

(** [v == s] for a string literal [s]. *)
Definition is_str (s : string) (v : json) : bool :=
  match v with
  | JStr s' => String.eqb s' s
  | _ => false
  end.

(** [o.get(k)]: only a dict has the method. *)
Definition py_get (o : json) (k : string) : result json :=
  match o with
  | JObj d => ok (match dict_get k d with Some v => v | None => JNull end)
  | _ => throw AttributeError
  end.

(** [o.get(k, dflt)]. *)
Definition py_get_default (o : json) (k : string) (dflt : json) : result json :=
  match o with
  | JObj d => ok (match dict_get k d with Some v => v | None => dflt end)
  | _ => throw AttributeError
  end.

(** [o[k]] with a string key. *)
Definition py_getitem (o : json) (k : string) : result json :=
  match o with
  | JObj d => match dict_get k d with
              | Some v => ok v
              | None => throw (KeyError k)
              end
  | _ => throw TypeError
  end.

(** [o[0]]. *)
Definition py_getitem0 (o : json) : result json :=
  match o with
  | JArr (x :: _) => ok x
  | JArr [] => throw IndexError
  | JStr (String c _) => ok (JStr (String c ""))
  | JStr EmptyString => throw IndexError
  | JObj _ => throw (KeyError "0")
  | _ => throw TypeError
  end.

Fixpoint chars (s : string) : list json :=
  match s with
  | EmptyString => []
  | String c s' => JStr (String c "") :: chars s'
  end.

(** [for x in o]: the items a loop or comprehension visits. *)
Definition py_iter (o : json) : result (list json) :=
  match o with
  | JArr l => ok l
  | JStr s => ok (chars s)
  | JObj d => ok (map (fun kv => JStr (fst kv)) d)
  | _ => throw TypeError
  end.

(** ** Helper functions *)

(** [map_stop_reason]: the lookup table raises on an unhashable key. *)
Definition map_stop_reason (finish_reason : json) : result string :=
  if negb (truthy finish_reason) then ok "end_turn"
  else match finish_reason with
       | JArr _ | JObj _ => throw TypeError
       | JStr "tool_calls" => ok "tool_use"
       | JStr "stop" => ok "end_turn"
       | JStr "length" => ok "max_tokens"
       | _ => ok "end_turn"
       end.

(** [' '.join(xs)] needs every item to be a string. *)
Fixpoint join_space (xs : list json) : result string :=
  match xs with
  | [] => ok ""
  | JStr s :: [] => ok s
  | JStr s :: rest =>
      match join_space rest with
      | inr t => ok (s ++ " " ++ t)%string
      | inl e => inl e
      end
  | _ => throw TypeError
  end.

(** The generator inside [normalize_content]:
    [item.get('text', '') for item in content if item.get('type') == 'text']. *)
Fixpoint text_items (content : list json) : result (list json) :=
  match content with
  | [] => ok []
  | item :: rest =>
      (ty <- py_get item "type" ;;
       if is_str "text" ty then
         t <- py_get_default item "text" (JStr "") ;;
         ts <- text_items rest ;;
         ok (t :: ts)
       else text_items rest)%result
  end.

(** [normalize_content]: [None] is [JNull]. *)
Definition normalize_content (content : json) : result json :=
  match content with
  | JStr _ => ok content
  | JArr l =>
      (ts <- text_items l ;;
       s <- join_space ts ;;
       ok (JStr s))%result
  | _ => ok JNull
  end.

Definition not_format (kv : string * json) : bool :=
  negb (String.eqb (fst kv) "format").

(** [remove_uri_format]. *)
Fixpoint remove_uri_format (schema : json) : json :=
  match schema with
  | JObj d =>
      if is_str "string" (match dict_get "type" d with Some v => v | None => JNull end)
         && is_str "uri" (match dict_get "format" d with Some v => v | None => JNull end)
      then JObj (filter not_format d)
      else JObj (map (fun kv => (fst kv, remove_uri_format (snd kv))) d)
  | JArr l => JArr (map remove_uri_format l)
  | _ => schema
  end.

(** ** Configuration *)

(** [a or b] on an optional string read from the environment. *)
Definition str_or (a : option string) (b : string) : string :=
  match a with
  | Some s => if String.eqb s "" then b else s
  | None => b
  end.

(** The module-level constants, resolved once from the environment. *)
Record config : Type := {
  OPENAI_API_BASE : string;
  OPENAI_API_KEY : option string;
  DEFAULT_MODEL : string;
  REASONING_MODEL : string;
  COMPLETION_MODEL : string
}.

(** [os.getenv(...) or ...] for the three model names.  The base URL is
    required at start-up, so a running gateway always has one. *)
Definition load_config (getenv : string -> option string) : config :=
  let default_model := str_or (getenv "MODEL") "my-model" in
  {| OPENAI_API_BASE := str_or (getenv "OPENAI_API_BASE") "";
     OPENAI_API_KEY := getenv "OPENAI_API_KEY";
     DEFAULT_MODEL := default_model;
     REASONING_MODEL := str_or (getenv "REASONING_MODEL") default_model;
     COMPLETION_MODEL := str_or (getenv "COMPLETION_MODEL") default_model |}.

(** The float [1.0] (binary64: mantissa [2^52], exponent [-52]). *)
Definition float_one : spec_float := S754_finite false 4503599627370496 (-52).

(** ** Request translation *)

Section RequestTranslation.

(** [json.dumps] on a decoded value; it never raises there. *)
Variable json_dumps : json -> string.

(** The comprehension that builds [tool_calls] from a block list. *)
Fixpoint tool_use_calls (content : list json) : result (list json) :=
  match content with
  | [] => ok []
  | item :: rest =>
      (ty <- py_get item "type" ;;
       if is_str "tool_use" ty then
         id <- py_getitem item "id" ;;
         name <- py_getitem item "name" ;;
         input <- py_getitem item "input" ;;
         calls <- tool_use_calls rest ;;
         ok (JObj [("type", JStr "function");
                   ("id", id);
                   ("function", JObj [("name", name);
                                      ("arguments", JStr (json_dumps input))])]
             :: calls)
       else tool_use_calls rest)%result
  end.

(** The synthetic message appended for one [tool_result] block. *)
Definition tool_message (item : list (string * json)) : json :=
  JObj [("role", JStr "tool");
        ("content", match dict_get "content" item with Some v => v | None => JStr "" end);
        ("tool_call_id", match dict_get "tool_use_id" item with Some v => v | None => JNull end)].

(** The second loop over the blocks: one tool message per [tool_result]. *)
Fixpoint tool_result_messages (content : list json) : result (list json) :=
  match content with
  | [] => ok []
  | item :: rest =>
      match item with
      | JObj d =>
          if is_str "tool_result" (match dict_get "type" d with Some v => v | None => JNull end)
          then (ms <- tool_result_messages rest ;; ok (tool_message d :: ms))%result
          else tool_result_messages rest
      | _ => throw AttributeError
      end
  end.

(** [new_msg] after the two conditional assignments. *)
Definition new_msg (role normalized_text : json) (tool_calls : list json) : json :=
  JObj ([("role", role)]
        ++ (if truthy normalized_text then [("content", normalized_text)] else [])
        ++ (match tool_calls with [] => [] | _ => [("tool_calls", JArr tool_calls)] end)).

(** The messages one inbound message appends, in order. *)
Definition translate_message (msg : json) : result (list json) :=
  (role <- py_get msg "role" ;;
   content <- py_get msg "content" ;;
   normalized_text <- normalize_content content ;;
   tool_calls <- match content with
                 | JArr l => tool_use_calls l
                 | _ => ok []
                 end ;;
   let derived :=
     if truthy normalized_text || truthy (JArr tool_calls)
     then [new_msg role normalized_text tool_calls] else [] in
   results <- match content with
              | JArr l => tool_result_messages l
              | _ => ok []
              end ;;
   ok (derived ++ results))%result.

(** The loop over [payload.get('messages', [])]. *)
Fixpoint translate_messages (msgs : list json) : result (list json) :=
  match msgs with
  | [] => ok []
  | msg :: rest =>
      (out <- translate_message msg ;;
       outs <- translate_messages rest ;;
       ok (out ++ outs))%result
  end.

(** The optional leading [system] message. *)
Definition system_messages (payload : list (string * json)) : result (list json) :=
  match dict_get "system" payload with
  | Some sys =>
      (system_content <- normalize_content sys ;;
       ok (if truthy system_content
           then [JObj [("role", JStr "system"); ("content", system_content)]]
           else []))%result
  | None => ok []
  end.

(** The comprehension that builds [tools]. *)
Fixpoint translate_tools (tools : list json) : result (list json) :=
  match tools with
  | [] => ok []
  | tool :: rest =>
      (name <- py_getitem tool "name" ;;
       description <- py_getitem tool "description" ;;
       input_schema <- py_getitem tool "input_schema" ;;
       ts <- translate_tools rest ;;
       ok (JObj [("type", JStr "function");
                 ("function", JObj [("name", name);
                                    ("description", description);
                                    ("parameters", remove_uri_format input_schema)])]
           :: ts))%result
  end.

(** Step 1 of [messages_proxy]: the outbound payload (a dict). *)
Definition translate_request (cfg : config) (payload : json)
  : result (list (string * json)) :=
  (is_stream <- py_get_default payload "stream" (JBool false) ;;
   match payload with
   | JObj p =>
       sys <- system_messages p ;;
       msgs <- py_iter (match dict_get "messages" p with Some v => v | None => JArr [] end) ;;
       translated <- translate_messages msgs ;;
       let messages := sys ++ translated in
       tool_defs <- py_iter (match dict_get "tools" p with Some v => v | None => JArr [] end) ;;
       tools <- translate_tools tool_defs ;;
       let thinking := match dict_get "thinking" p with Some v => v | None => JNull end in
       let openai_payload :=
         [("model", JStr (if truthy thinking then REASONING_MODEL cfg
                          else COMPLETION_MODEL cfg));
          ("messages", JArr messages);
          ("max_tokens", match dict_get "max_tokens" p with
                         | Some v => v | None => JInt 4096 end);
          ("temperature", match dict_get "temperature" p with
                          | Some v => v | None => JFloat float_one end);
          ("stream", is_stream)] in
       ok (match tools with
           | [] => openai_payload
           | _ => openai_payload ++ [("tools", JArr tools)]
           end)
   | _ => throw AttributeError
   end)%result.

End RequestTranslation.

(** ** Dictionary keys

    [tool_call_accumulators] is keyed by whatever value the backend sent as
    [index].  Python compares dictionary keys by value across [bool], [int]
    and [float] ([1 == 1.0 == True]); [pykey] is the key up to that
    equality: an integer, or a finite float that is not an integer as its
    sign, odd mantissa and negative binary exponent.  [json.loads] gives
    one shared [NaN] object, which a dict finds again.  Lists and dicts
    are unhashable. *)

Inductive pykey : Type :=
| KNone
| KStr (s : string)
| KInt (z : Z)
| KDyadic (neg : bool) (m : positive) (e : Z)
| KInf (neg : bool)
| KNaN.

(** Strip the trailing zero bits of a mantissa while the exponent is negative. *)
Fixpoint dyadic_norm (m : positive) (e : Z) : positive * Z :=
  match m with
  | xO m' => if e <? 0 then dyadic_norm m' (e + 1) else (m, e)
  | _ => (m, e)
  end.

Definition float_key (f : spec_float) : pykey :=
  match f with
  | S754_zero _ => KInt 0
  | S754_infinity s => KInf s
  | S754_nan => KNaN
  | S754_finite s m e =>
      let (m', e') := dyadic_norm m e in
      if e' <? 0 then KDyadic s m' e'
      else KInt ((if s then -1 else 1) * (Z.pos m' * 2 ^ e'))
  end.

Definition key_of (v : json) : option pykey :=
  match v with
  | JNull => Some KNone
  | JBool b => Some (KInt (if b then 1 else 0))
  | JInt z => Some (KInt z)
  | JFloat f => Some (float_key f)
  | JStr s => Some (KStr s)
  | JArr _ | JObj _ => None
  end.

(** Hashing a value to use it as a key. *)
Definition py_hash (v : json) : result pykey :=
  match key_of v with
  | Some k => ok k
  | None => throw TypeError
  end.

Definition pykey_eqb (a b : pykey) : bool :=
  match a, b with
  | KNone, KNone => true
  | KStr s, KStr t => String.eqb s t
  | KInt x, KInt y => x =? y
  | KDyadic s m e, KDyadic s' m' e' => Bool.eqb s s' && Pos.eqb m m' && (e =? e')
  | KInf s, KInf s' => Bool.eqb s s'
  | KNaN, KNaN => true
  | _, _ => false
  end.

(** Is [v] the key [k]? *)
Definition has_key (k : pykey) (v : json) : bool :=
  match key_of v with
  | Some k' => pykey_eqb k k'
  | None => false
  end.

(** ** Streaming translation *)

(** One line of the backend's event stream, as the loop of
    [stream_generator] takes it apart. *)
Inductive line : Type :=
| OtherLine                 (* does not start with [data:]: skipped *)
| DoneLine                  (* the payload is [[DONE]]: leaves the loop *)
| BadJsonLine               (* [json.loads] raises [JSONDecodeError]: skipped *)
| ChunkLine (chunk : json)  (* [json.loads] returns [chunk] *)
| RaisingLine (e : exn).    (* [json.loads] raises [e]; an exception other than
                               [JSONDecodeError] ([ValueError] on an integer with
                               too many digits, [RecursionError]) is not caught *)

(** [except json.JSONDecodeError]: the exceptions the clause catches. *)
Definition caught (e : exn) : bool :=
  match e with
  | JSONDecodeError => true
  | _ => false
  end.

(** The events the generator yields; [sse_event] gives the name and the
    data dict that the source passes to [sse_pack]. *)
Inductive event : Type :=
| MessageStart (message_id : string) (model : json)
| Ping
| TextBlockStart
| TextDelta (text : json)
| ToolBlockStart (idx id name : json)
| InputJsonDelta (idx : json) (partial_json : string)
| BlockStop (idx : json)
| MessageDelta (stop_reason : string) (output_tokens : json)
| MessageStop.

Definition sse_event (e : event) : string * json :=
  match e with
  | MessageStart message_id model =>
      ("message_start",
       JObj [("type", JStr "message_start");
             ("message",
              JObj [("id", JStr message_id);
                    ("type", JStr "message");
                    ("role", JStr "assistant");
                    ("model", model);
                    ("content", JArr []);
                    ("stop_reason", JNull);
                    ("stop_sequence", JNull);
                    ("usage", JObj [("input_tokens", JInt 0);
                                    ("output_tokens", JInt 0)])])])
  | Ping => ("ping", JObj [("type", JStr "ping")])
  | TextBlockStart =>
      ("content_block_start",
       JObj [("type", JStr "content_block_start");
             ("index", JInt 0);
             ("content_block", JObj [("type", JStr "text"); ("text", JStr "")])])
  | TextDelta text =>
      ("content_block_delta",
       JObj [("type", JStr "content_block_delta");
             ("index", JInt 0);
             ("delta", JObj [("type", JStr "text_delta"); ("text", text)])])
  | ToolBlockStart idx id name =>
      ("content_block_start",
       JObj [("type", JStr "content_block_start");
             ("index", idx);
             ("content_block", JObj [("type", JStr "tool_use");
                                     ("id", id);
                                     ("name", name);
                                     ("input", JObj [])])])
  | InputJsonDelta idx partial_json =>
      ("content_block_delta",
       JObj [("type", JStr "content_block_delta");
             ("index", idx);
             ("delta", JObj [("type", JStr "input_json_delta");
                             ("partial_json", JStr partial_json)])])
  | BlockStop idx =>
      ("content_block_stop",
       JObj [("type", JStr "content_block_stop"); ("index", idx)])
  | MessageDelta stop_reason output_tokens =>
      ("message_delta",
       JObj [("type", JStr "message_delta");
             ("delta", JObj [("stop_reason", JStr stop_reason);
                             ("stop_sequence", JNull)]);
             ("usage", JObj [("output_tokens", output_tokens)])])
  | MessageStop => ("message_stop", JObj [("type", JStr "message_stop")])
  end.

(** A generator run: the events yielded so far, and how the run ended
    (a value, or the exception that cut the stream short). *)
Definition gen (A : Type) : Type := (list event * result A)%type.

Definition gret {A} (a : A) : gen A := ([], inr a).
Definition yield (e : event) : gen unit := ([e], inr tt).
Definition lift {A} (r : result A) : gen A := ([], r).

Definition gbind {A B} (m : gen A) (f : A -> gen B) : gen B :=
  match snd m with
  | inl e => (fst m, inl e)
  | inr a => (fst m ++ fst (f a), snd (f a))
  end.

Declare Scope gen_scope.
Delimit Scope gen_scope with gen.
Notation "x <- m ;; k" := (gbind m (fun x => k))
  (at level 61, m at next level, right associativity) : gen_scope.
Notation "m ;; k" := (gbind m (fun _ => k))
  (at level 61, right associativity) : gen_scope.

(** One entry of [tool_call_accumulators]: [{'id': .., 'name': .., 'args': ..}]. *)
Record accumulator : Type := {
  acc_id : json;
  acc_name : json;
  acc_args : string
}.

(** The dict, in insertion order, with the key object first stored. *)
Definition accumulators : Type := list (json * accumulator).

Definition accs_has (k : pykey) (accs : accumulators) : bool :=
  existsb (fun entry => has_key k (fst entry)) accs.

(** [tool_call_accumulators[idx]['args'] += arg_chunk]. *)
Definition accs_append (k : pykey) (arg_chunk : string) (accs : accumulators)
  : accumulators :=
  map (fun entry =>
         if has_key k (fst entry)
         then (fst entry,
               {| acc_id := acc_id (snd entry);
                  acc_name := acc_name (snd entry);
                  acc_args := (acc_args (snd entry) ++ arg_chunk)%string |})
         else entry) accs.

Record stream_state : Type := {
  text_block_started : bool;
  tool_call_accumulators : accumulators;
  usage : json;
  last_chunk : json
}.

Definition initial_state : stream_state :=
  {| text_block_started := false;
     tool_call_accumulators := [];
     usage := JObj [];
     last_chunk := JObj [] |}.

(** The body of [for tool_call_delta in delta['tool_calls']]. *)
Definition tool_call_step (accs : accumulators) (tool_call_delta : json)
  : gen accumulators :=
  (idx <- lift (py_getitem tool_call_delta "index") ;;
   k <- lift (py_hash idx) ;;
   accs1 <- (if negb (accs_has k accs) then
               func_info <- lift (py_get_default tool_call_delta "function" (JObj [])) ;;
               id <- lift (py_get_default tool_call_delta "id" (JStr "")) ;;
               name <- lift (py_get_default func_info "name" (JStr "")) ;;
               yield (ToolBlockStart idx id name) ;;
               gret (accs ++ [(idx, {| acc_id := id; acc_name := name; acc_args := "" |})])
             else gret accs) ;;
   func <- lift (py_get_default tool_call_delta "function" (JObj [])) ;;
   arg_chunk <- lift (py_get_default func "arguments" (JStr "")) ;;
   if truthy arg_chunk then
     match arg_chunk with
     | JStr s => yield (InputJsonDelta idx s) ;; gret (accs_append k s accs1)
     | _ => lift (throw TypeError)
     end
   else gret accs1)%gen.

Fixpoint tool_calls_loop (accs : accumulators) (tool_calls : list json)
  : gen accumulators :=
  match tool_calls with
  | [] => gret accs
  | tool_call_delta :: rest =>
      (accs' <- tool_call_step accs tool_call_delta ;;
       tool_calls_loop accs' rest)%gen
  end.

(** The loop body for a line that decoded to [chunk] ([last_chunk] is
    already set when this runs). *)
Definition chunk_step (st : stream_state) (chunk : json) : gen stream_state :=
  (u <- lift (py_get chunk "usage") ;;
   let usage' := if truthy u then u else usage st in
   choices <- lift (py_get_default chunk "choices" (JArr [JObj []])) ;;
   choice <- lift (py_getitem0 choices) ;;
   delta <- lift (py_get_default choice "delta" (JObj [])) ;;
   if negb (truthy delta) then
     gret {| text_block_started := text_block_started st;
             tool_call_accumulators := tool_call_accumulators st;
             usage := usage';
             last_chunk := last_chunk st |}
   else
     content <- lift (py_get delta "content") ;;
     started <- (if truthy content then
                   (if negb (text_block_started st) then yield TextBlockStart
                    else gret tt) ;;
                   yield (TextDelta content) ;;
                   gret true
                 else gret (text_block_started st)) ;;
     tool_calls <- lift (py_get delta "tool_calls") ;;
     accs <- (if truthy tool_calls then
                items <- lift (py_iter tool_calls) ;;
                tool_calls_loop (tool_call_accumulators st) items
              else gret (tool_call_accumulators st)) ;;
     gret {| text_block_started := started;
             tool_call_accumulators := accs;
             usage := usage';
             last_chunk := last_chunk st |})%gen.

Definition set_last_chunk (chunk : json) (st : stream_state) : stream_state :=
  {| text_block_started := text_block_started st;
     tool_call_accumulators := tool_call_accumulators st;
     usage := usage st;
     last_chunk := chunk |}.

(** [async for line in response.aiter_lines()]. *)
Fixpoint stream_loop (st : stream_state) (lines : list line) : gen stream_state :=
  match lines with
  | [] => gret st
  | OtherLine :: rest => stream_loop st rest
  | DoneLine :: _ => gret st
  | BadJsonLine :: rest => stream_loop st rest
  | ChunkLine chunk :: rest =>
      (st' <- chunk_step (set_last_chunk chunk st) chunk ;;
       stream_loop st' rest)%gen
  | RaisingLine e :: rest => if caught e then stream_loop st rest else lift (throw e)
  end.

Fixpoint yield_all (evs : list event) : gen unit :=
  match evs with
  | [] => gret tt
  | e :: rest => (yield e ;; yield_all rest)%gen
  end.

(** The stops yielded after the loop. *)
Definition close_blocks (st : stream_state) : gen unit :=
  match tool_call_accumulators st with
  | _ :: _ => yield_all (map (fun entry => BlockStop (fst entry)) (tool_call_accumulators st))
  | [] => if text_block_started st then yield (BlockStop (JInt 0)) else gret tt
  end.

(** What follows the loop. *)
Definition stream_finish (st : stream_state) : gen unit :=
  (choices <- lift (py_get_default (last_chunk st) "choices" (JArr [JObj []])) ;;
   choice <- lift (py_getitem0 choices) ;;
   finish_reason <- lift (py_get choice "finish_reason") ;;
   stop_reason <- lift (map_stop_reason finish_reason) ;;
   close_blocks st ;;
   output_tokens <- lift (py_get_default (usage st) "completion_tokens" (JInt 0)) ;;
   yield (MessageDelta stop_reason output_tokens) ;;
   yield MessageStop)%gen.

(** The backend's answer to the streaming POST. *)
Record stream_reply : Type := {
  stream_ok : bool;          (* [raise_for_status] passes *)
  stream_lines : list line
}.

(** [generate_message_id()], given the 24 characters drawn. *)
Definition generate_message_id (random_part : string) : string :=
  ("msg" ++ "_" ++ random_part)%string.

(** [stream_generator]: [random_part] is the draw of [generate_message_id]. *)
Definition stream_generator (random_part : string) (payload : list (string * json))
  (reply : stream_reply) : gen unit :=
  (let message_id := generate_message_id random_part in
   model <- lift (py_getitem (JObj payload) "model") ;;
   yield (MessageStart message_id model) ;;
   yield Ping ;;
   (if stream_ok reply then gret tt else lift (throw HTTPStatusError)) ;;
   st <- stream_loop initial_state (stream_lines reply) ;;
   stream_finish st)%gen.

(** ** Non-streaming translation and the handler *)

(** [s.replace(old, new)] for a non-empty [old]: occurrences are replaced
    left to right without overlap; [skip] counts the characters of a
    match that are still to be dropped. *)
Fixpoint str_replace_from (old new : string) (skip : nat) (s : string) : string :=
  match s with
  | EmptyString => EmptyString
  | String c s' =>
      match skip with
      | S n => str_replace_from old new n s'
      | O =>
          if String.prefix old s
          then (new ++ str_replace_from old new (Nat.pred (String.length old)) s')%string
          else String c (str_replace_from old new O s')
      end
  end.

Definition str_replace (old new s : string) : string :=
  str_replace_from old new O s.

(** The request sent to the backend. *)
Record http_request : Type := {
  req_url : string;
  req_json : list (string * json);
  req_headers : list (string * string)
}.

(** What comes back: whether the status passes [raise_for_status], the
    body decoded by [response.json()] (non-streaming), the lines of the
    body (streaming). *)
Record http_reply : Type := {
  reply_ok : bool;
  reply_json : option json;
  reply_lines : list line
}.

(** [Response(content=..., status_code=..., media_type=...)]. *)
Record response : Type := {
  content : string;
  status_code : Z;
  media_type : string
}.

(** What [messages_proxy] returns: a plain response, or a streaming
    response whose body is the packed events of the generator run. *)
Inductive proxy_reply : Type :=
| Plain (r : response)
| Streaming (body : list string) (outcome : result unit).

Section Gateway.

Variable json_dumps : json -> string.

(** [json.loads] on a string: [None] when it raises [JSONDecodeError]. *)
Variable json_loads : string -> option json.

(** [str(e)]. *)
Variable str_exn : exn -> string.

(** [json.loads(x)] on an arbitrary value. *)
Definition py_json_loads (x : json) : result json :=
  match x with
  | JStr s => match json_loads s with
              | Some v => ok v
              | None => throw JSONDecodeError
              end
  | _ => throw TypeError
  end.

Definition sse_pack (e : event) : string :=
  ("event: " ++ fst (sse_event e) ++ String "010" "data: "
     ++ json_dumps (snd (sse_event e)) ++ String "010" (String "010" ""))%string.

(** The loop over [openai_message.get('tool_calls', []) or []]. *)
Fixpoint tool_use_blocks (tool_calls : list json) : result (list json) :=
  match tool_calls with
  | [] => ok []
  | tool_call :: rest =>
      (id <- py_getitem tool_call "id" ;;
       func <- py_getitem tool_call "function" ;;
       name <- py_getitem func "name" ;;
       func' <- py_getitem tool_call "function" ;;
       arguments <- py_getitem func' "arguments" ;;
       input <- py_json_loads arguments ;;
       blocks <- tool_use_blocks rest ;;
       ok (JObj [("type", JStr "tool_use");
                 ("id", id);
                 ("name", name);
                 ("input", input)] :: blocks))%result
  end.

(** [anthropic_response], built from the decoded backend document. *)
Definition anthropic_response (random_part : string)
  (payload : list (string * json)) (data : json) : result json :=
  (choices <- py_getitem data "choices" ;;
   choice <- py_getitem0 choices ;;
   openai_message <- py_getitem choice "message" ;;
   text <- py_get openai_message "content" ;;
   let text_parts :=
     if truthy text then [JObj [("type", JStr "text"); ("text", text)]] else [] in
   listed <- py_get_default openai_message "tool_calls" (JArr []) ;;
   tool_calls <- py_iter (if truthy listed then listed else JArr []) ;;
   tool_parts <- tool_use_blocks tool_calls ;;
   let content_parts := text_parts ++ tool_parts in
   backend_id <- py_get_default data "id" (JStr "") ;;
   id <- match backend_id with
         | JStr s =>
             let replaced := str_replace "chatcmpl" "msg" s in
             ok (if String.eqb replaced "" then generate_message_id random_part
                 else replaced)
         | _ => throw AttributeError
         end ;;
   role <- py_get_default openai_message "role" (JStr "assistant") ;;
   model <- py_getitem (JObj payload) "model" ;;
   finish_reason <- py_get choice "finish_reason" ;;
   stop_reason <- map_stop_reason finish_reason ;;
   usage1 <- py_getitem data "usage" ;;
   prompt_tokens <- py_getitem usage1 "prompt_tokens" ;;
   usage2 <- py_getitem data "usage" ;;
   completion_tokens <- py_getitem usage2 "completion_tokens" ;;
   ok (JObj [("id", JStr id);
             ("type", JStr "message");
             ("role", role);
             ("model", model);
             ("content", JArr content_parts);
             ("stop_reason", JStr stop_reason);
             ("stop_sequence", JNull);
             ("usage", JObj [("input_tokens", prompt_tokens);
                             ("output_tokens", completion_tokens)])]))%result.

(** [handle_non_stream]. *)
Definition handle_non_stream (random_part : string)
  (payload : list (string * json)) (reply : http_reply) : result response :=
  (_ <- (if reply_ok reply then ok tt else throw HTTPStatusError) ;;
   data <- match reply_json reply with
           | Some d => ok d
           | None => throw JSONDecodeError
           end ;;
   msg <- anthropic_response random_part payload data ;;
   ok {| content := json_dumps msg;
         status_code := 200;
         media_type := "application/json" |})%result.

(** The response of the [except] clause. *)
Definition error_response (e : exn) : response :=
  {| content := json_dumps (JObj [("error", JStr (str_exn e))]);
     status_code := 500;
     media_type := "application/json" |}.

Definition request_headers (cfg : config) : list (string * string) :=
  ("Content-Type", "application/json")
    :: match OPENAI_API_KEY cfg with
       | Some key => if String.eqb key "" then []
                     else [("Authorization", ("Bearer " ++ key)%string)]
       | None => []
       end.

(** [messages_proxy]: [request_body] is what [request.json()] gives
    ([None] when it raises), [backend] answers the POST, [random_part]
    is the draw used if a message id has to be generated. *)
Definition messages_proxy (cfg : config) (backend : http_request -> http_reply)
  (random_part : string) (request_body : option json) : proxy_reply :=
  let attempt : result proxy_reply :=
    (payload <- match request_body with
                | Some p => ok p
                | None => throw JSONDecodeError
                end ;;
     is_stream <- py_get_default payload "stream" (JBool false) ;;
     openai_payload <- translate_request json_dumps cfg payload ;;
     let request :=
       {| req_url := (OPENAI_API_BASE cfg ++ "/chat/completions")%string;
          req_json := openai_payload;
          req_headers := request_headers cfg |} in
     let reply := backend request in
     if negb (truthy is_stream) then
       r <- handle_non_stream random_part openai_payload reply ;;
       ok (Plain r)
     else
       let run := stream_generator random_part openai_payload
                    {| stream_ok := reply_ok reply;
                       stream_lines := reply_lines reply |} in
       ok (Streaming (map sse_pack (fst run)) (snd run)))%result in
  match attempt with
  | inr r => r
  | inl e => Plain (error_response e)
  end.

End Gateway.

(** * Vocabulary of the statements

    Observations on requests, on the backend stream and on the events,
    and the sample inputs used below. *)

(** ** Schemas *)

(** A mapping node with [type == "string"] and [format == "uri"]. *)
Definition uri_node (d : list (string * json)) : bool :=
  is_str "string" (match dict_get "type" d with Some v => v | None => JNull end)
  && is_str "uri" (match dict_get "format" d with Some v => v | None => JNull end).

(** Does some mapping node of the tree, at any depth, still match? *)
Fixpoint has_uri_node (t : json) : bool :=
  match t with
  | JObj d => uri_node d || existsb (fun kv => has_uri_node (snd kv)) d
  | JArr l => existsb has_uri_node l
  | _ => false
  end.

(** A string-typed uri node that carries a nested schema of the same kind. *)
Definition nested_uri_schema : json :=
  JObj [("type", JStr "string"); ("format", JStr "uri");
        ("items", JObj [("type", JStr "string"); ("format", JStr "uri")])].

(** ** Requests *)

(** Did the computation return? *)
Definition succeeds {A} (r : result A) : bool :=
  match r with
  | inr _ => true
  | inl _ => false
  end.

(** An environment with no variable set, and a serialiser that is right
    on the empty object, for running the translation on sample requests
    whose only structured tool input is [{}]. *)
Definition empty_env : string -> option string := fun _ => None.
Definition dumps_empty_object : json -> string := fun _ => "{}".

Definition sample_request : list (string * json) :=
  [("messages", JArr [JObj [("role", JStr "user"); ("content", JStr "hi")]])].

(** A block that [normalize_content] can take: a dict whose [text], when
    the block is of type [text], is a string or is missing. *)
Definition text_block_ok (item : json) : bool :=
  match item with
  | JObj d =>
      if is_str "text" (match dict_get "type" d with Some v => v | None => JNull end)
      then match dict_get "text" d with
           | None | Some (JStr _) => true
           | Some _ => false
           end
      else true
  | _ => false
  end.

Definition content_text_ok (content : json) : bool :=
  match content with
  | JArr l => forallb text_block_ok l
  | _ => true
  end.

(** A block that the [tool_calls] comprehension can take: a [tool_use]
    block has all of [id], [name] and [input]. *)
Definition tool_use_ok (item : json) : bool :=
  match item with
  | JObj d =>
      if is_str "tool_use" (match dict_get "type" d with Some v => v | None => JNull end)
      then dict_has "id" d && dict_has "name" d && dict_has "input" d
      else true
  | _ => false
  end.

Definition message_ok (msg : json) : bool :=
  match msg with
  | JObj m =>
      let content := match dict_get "content" m with Some v => v | None => JNull end in
      content_text_ok content
      && match content with
         | JArr l => forallb tool_use_ok l
         | _ => true
         end
  | _ => false
  end.

Definition tool_ok (tool : json) : bool :=
  match tool with
  | JObj d => dict_has "name" d && dict_has "description" d && dict_has "input_schema" d
  | _ => false
  end.

(** Every item that a loop over [v] visits passes [f]. *)
Definition all_items (f : json -> bool) (v : json) : bool :=
  match py_iter v with
  | inr l => forallb f l
  | inl _ => false
  end.

(** The inbound requests on which translation does not raise. *)
Definition request_ok (payload : json) : bool :=
  match payload with
  | JObj p =>
      match dict_get "system" p with
      | Some sys => content_text_ok sys
      | None => true
      end
      && all_items message_ok
           (match dict_get "messages" p with Some v => v | None => JArr [] end)
      && all_items tool_ok
           (match dict_get "tools" p with Some v => v | None => JArr [] end)
  | _ => false
  end.

(** A request whose [tool_use] block has no [id], and one whose tool
    definition has no [name]. *)
Definition request_tool_use_without_id : json :=
  JObj [("messages",
         JArr [JObj [("role", JStr "assistant");
                     ("content", JArr [JObj [("type", JStr "tool_use");
                                             ("name", JStr "lookup");
                                             ("input", JObj [])]])]])].


(** The [tool_result] blocks of a block list, in order. *)
Definition tool_result_blocks (blocks : list json) : list (list (string * json)) :=
  flat_map (fun item =>
              match item with
              | JObj d =>
                  if is_str "tool_result"
                       (match dict_get "type" d with Some v => v | None => JNull end)
                  then [d] else []
              | _ => []
              end) blocks.

Definition request_with_tool_result : list (string * json) :=
  [("messages",
    JArr [JObj [("role", JStr "assistant"); ("content", JStr "calling")];
          JObj [("role", JStr "user");
                ("content", JArr [JObj [("type", JStr "text"); ("text", JStr "done")];
                                  JObj [("type", JStr "tool_result");
                                        ("tool_use_id", JStr "abc");
                                        ("content", JStr "42")]])]])].

(** ** Backend documents *)

(** The tool calls that the loop of [handle_non_stream] visits (none when
    the document has no first-choice message). *)
Definition response_tool_calls (data : json) : list json :=
  match (choices <- py_getitem data "choices" ;;
         choice <- py_getitem0 choices ;;
         openai_message <- py_getitem choice "message" ;;
         listed <- py_get_default openai_message "tool_calls" (JArr []) ;;
         py_iter (if truthy listed then listed else JArr []))%result
  with
  | inr l => l
  | inl _ => []
  end.

(** [tool_call['function']['arguments']]. *)
Definition tool_call_arguments (tool_call : json) : result json :=
  (func <- py_getitem tool_call "function" ;;
   py_getitem func "arguments")%result.

(** The block built from a tool call whose arguments decode. *)
Definition decoded_block (json_loads : string -> option json)
  (tool_call block : json) : Prop :=
  exists s v id name,
    tool_call_arguments tool_call = inr (JStr s)
    /\ json_loads s = Some v
    /\ block = JObj [("type", JStr "tool_use"); ("id", id); ("name", name); ("input", v)].

(** A decoder that knows the empty object only, and a backend whose one
    tool call carries an argument string that is not JSON. *)
Definition loads_empty_object : string -> option json :=
  fun s => if String.eqb s "{}" then Some (JObj []) else None.

Definition reply_with_bad_arguments : http_reply :=
  {| reply_ok := true;
     reply_json :=
       Some (JObj [("id", JStr "chatcmpl-1");
                   ("choices",
                    JArr [JObj [("message",
                                 JObj [("role", JStr "assistant");
                                       ("tool_calls",
                                        JArr [JObj [("id", JStr "call_1");
                                                    ("function",
                                                     JObj [("name", JStr "lookup");
                                                           ("arguments", JStr "{oops")])]])]);
                                ("finish_reason", JStr "tool_calls")]]);
                   ("usage", JObj [("prompt_tokens", JInt 3);
                                   ("completion_tokens", JInt 5)])]);
     reply_lines := [] |}.

(** ** Events *)

Definition event_name (e : event) : string := fst (sse_event e).

(** The [index] field of an event's data, if it has one. *)
Definition event_index (e : event) : option json :=
  match snd (sse_event e) with
  | JObj d => dict_get "index" d
  | _ => None
  end.

Definition is_start (e : event) : bool := String.eqb (event_name e) "content_block_start".
Definition is_delta (e : event) : bool := String.eqb (event_name e) "content_block_delta".
Definition is_stop (e : event) : bool := String.eqb (event_name e) "content_block_stop".

(** Does the event carry an index equal, as a dictionary key, to [k]? *)
Definition for_index (k : pykey) (e : event) : bool :=
  match event_index e with
  | Some i => has_key k i
  | None => false
  end.

(** A [content_block_start] whose block is of type [tool_use], or a
    [content_block_delta] whose delta is an [input_json_delta]. *)
Definition is_tool_event (e : event) : bool :=
  match snd (sse_event e) with
  | JObj d =>
      match dict_get "content_block" d, dict_get "delta" d with
      | Some (JObj b), _ =>
          is_str "tool_use" (match dict_get "type" b with Some v => v | None => JNull end)
      | _, Some (JObj b) =>
          is_str "input_json_delta"
            (match dict_get "type" b with Some v => v | None => JNull end)
      | _, _ => false
      end
  | _ => false
  end.

(** The indices of the tool-use block starts, in emission order. *)
Definition tool_start_indices (evs : list event) : list json :=
  flat_map (fun e => match e with
                     | ToolBlockStart idx _ _ => [idx]
                     | _ => []
                     end) evs.

(** The indices of the [content_block_stop] events, in emission order. *)
Definition stop_indices (evs : list event) : list json :=
  flat_map (fun e => match e with
                     | BlockStop idx => [idx]
                     | _ => []
                     end) evs.

(** ** Backend streams *)

(** The chunks the loop gets to: those before the first [[DONE]] line
    and before the first line on which [json.loads] raises an exception
    that is not caught. *)
Fixpoint consumed (lines : list line) : list json :=
  match lines with
  | [] => []
  | DoneLine :: _ => []
  | RaisingLine e :: rest => if caught e then consumed rest else []
  | ChunkLine chunk :: rest => chunk :: consumed rest
  | _ :: rest => consumed rest
  end.

(** The tool-call fragments of a chunk's first-choice delta. *)
Definition chunk_tool_calls (chunk : json) : list json :=
  match (choices <- py_get_default chunk "choices" (JArr [JObj []]) ;;
         choice <- py_getitem0 choices ;;
         delta <- py_get_default choice "delta" (JObj []) ;;
         if truthy delta then
           tool_calls <- py_get delta "tool_calls" ;;
           if truthy tool_calls then py_iter tool_calls else ok []
         else ok [])%result
  with
  | inr l => l
  | inl _ => []
  end.

(** The [index] values the fragments are tagged with. *)
Definition fragment_indices (fragments : list json) : list json :=
  flat_map (fun fragment =>
              match py_getitem fragment "index" with
              | inr idx => [idx]
              | inl _ => []
              end) fragments.

Definition stream_tool_indices (lines : list line) : list json :=
  flat_map (fun chunk => fragment_indices (chunk_tool_calls chunk)) (consumed lines).

(** The finish reason of a chunk's first choice ([None] when there is none). *)
Definition chunk_finish_reason (chunk : json) : json :=
  match (choices <- py_get_default chunk "choices" (JArr [JObj []]) ;;
         choice <- py_getitem0 choices ;;
         py_get choice "finish_reason")%result
  with
  | inr v => v
  | inl _ => JNull
  end.

(** The last chunk the loop decoded ([{}] when there is none). *)
Definition last_parsed_chunk (lines : list line) : json :=
  last (consumed lines) (JObj []).

(** Spec wording: the last finish reason that is not absent, over all
    decoded chunks. *)
Definition last_present_finish_reason (lines : list line) : json :=
  fold_left (fun kept chunk =>
               match chunk_finish_reason chunk with
               | JNull => kept
               | v => v
               end) (consumed lines) JNull.

(** ** Sample streams *)

Definition text_chunk (text : string) (extra : list (string * json)) : line :=
  ChunkLine (JObj [("choices", JArr [JObj ([("delta", JObj [("content", JStr text)])]
                                            ++ extra)])]).

Definition tool_chunk (idx : Z) (id name arguments : string) : line :=
  ChunkLine
    (JObj [("choices",
            JArr [JObj [("delta",
                         JObj [("tool_calls",
                                JArr [JObj [("index", JInt idx);
                                            ("id", JStr id);
                                            ("function",
                                             JObj [("name", JStr name);
                                                   ("arguments", JStr arguments)])]])])]])]).

Definition sample_payload : list (string * json) :=
  [("model", JStr "my-model"); ("messages", JArr []); ("stream", JBool true)].

(** Text, then a tool call that the backend tags with index 0. *)
Definition text_then_tool_zero : stream_reply :=
  {| stream_ok := true;
     stream_lines := [text_chunk "Hi" []; tool_chunk 0 "call_1" "lookup" "{}"; DoneLine] |}.

(** Two tool calls, the higher index first; and a stream with no content. *)
Definition tools_two_then_one : stream_reply :=
  {| stream_ok := true;
     stream_lines := [tool_chunk 2 "call_b" "second" "{}";
                      tool_chunk 1 "call_a" "first" "{}"; DoneLine] |}.

Definition empty_stream : stream_reply :=
  {| stream_ok := true; stream_lines := [DoneLine] |}.

(** A single tool call tagged with index 0. *)
Definition tool_zero_only : stream_reply :=
  {| stream_ok := true;
     stream_lines := [tool_chunk 0 "call_1" "lookup" "{}"; DoneLine] |}.

(** A chunk that ends the text with finish reason [length], followed by
    a chunk that only reports usage. *)
Definition length_then_usage : stream_reply :=
  {| stream_ok := true;
     stream_lines :=
       [text_chunk "Hi" [("finish_reason", JStr "length")];
        ChunkLine (JObj [("choices", JArr [JObj [("delta", JObj []);
                                                 ("finish_reason", JNull)]]);
                         ("usage", JObj [("prompt_tokens", JInt 3);
                                         ("completion_tokens", JInt 7)])]);
        DoneLine] |}.

(** A tool call is opened, then a fragment arrives without [index]. *)
Definition tool_then_fragment_without_index : stream_reply :=
  {| stream_ok := true;
     stream_lines :=
       [tool_chunk 1 "call_a" "first" "{";
        ChunkLine
          (JObj [("choices",
                  JArr [JObj [("delta",
                               JObj [("tool_calls",
                                      JArr [JObj [("id", JStr "call_b")]])])]])]);
        DoneLine] |}.

(** Text whose last chunk carries a list as finish reason. *)
Definition text_with_list_finish_reason : stream_reply :=
  {| stream_ok := true;
     stream_lines := [text_chunk "Hi" [("finish_reason", JArr [JStr "stop"])];
                      DoneLine] |}.

(** ** Runs of the loop *)

(** The keys of a list of index values. *)
Definition keys_of (indices : list json) : list pykey :=
  flat_map (fun i => match key_of i with
                     | Some k => [k]
                     | None => []
                     end) indices.

(** [body_ok started opened evs]: read from a state where the text block
    is open iff [started] and the tool blocks with keys [opened] are open,
    [evs] opens the text block at most once and before any text delta,
    opens each tool block at most once and before its deltas, and holds
    no other kind of event. *)
Fixpoint body_ok (started : bool) (opened : list pykey) (evs : list event) : Prop :=
  match evs with
  | [] => True
  | TextBlockStart :: rest => started = false /\ body_ok true opened rest
  | TextDelta _ :: rest => started = true /\ body_ok started opened rest
  | ToolBlockStart idx _ _ :: rest =>
      exists k, key_of idx = Some k /\ ~ In k opened /\ body_ok started (opened ++ [k]) rest
  | InputJsonDelta idx _ :: rest =>
      exists k, key_of idx = Some k /\ In k opened /\ body_ok started opened rest
  | _ :: _ => False
  end.

Definition is_text_start (e : event) : bool :=
  match e with
  | TextBlockStart => true
  | _ => false
  end.

Definition started_after (started : bool) (evs : list event) : bool :=
  started || existsb is_text_start evs.

Definition opened_after (opened : list pykey) (evs : list event) : list pykey :=
  opened ++ keys_of (tool_start_indices evs).

(** The stops yielded after the loop, from the final state. *)
Definition closing (st : stream_state) : list event :=
  match tool_call_accumulators st with
  | _ :: _ => map BlockStop (map fst (tool_call_accumulators st))
  | [] => if text_block_started st then [BlockStop (JInt 0)] else []
  end.

(** The events of the loop are block starts and deltas only. *)
Definition body_event (e : event) : bool :=
  match e with
  | TextBlockStart | TextDelta _ | ToolBlockStart _ _ _ | InputJsonDelta _ _ => true
  | _ => false
  end.

(** The stops that follow a loop that yielded [body]: one per tool-use
    start of [body], in the order of those starts; if there is none, one
    for index 0 when the text block was started, and nothing otherwise. *)
Definition closing_for (body : list event) : list event :=
  match tool_start_indices body with
  | [] => if existsb is_text_start body then [BlockStop (JInt 0)] else []
  | indices => map BlockStop indices
  end.

Definition is_message_delta (e : event) : bool :=
  String.eqb (event_name e) "message_delta".

Definition text_event (e : event) : bool :=
  match e with
  | TextBlockStart | TextDelta _ => true
  | _ => false
  end.

(** Two tool calls and some text: index 1 does not collide with the text. *)
Definition text_and_two_tools : stream_reply :=
  {| stream_ok := true;
     stream_lines := [text_chunk "Hi" [];
                      tool_chunk 1 "call_a" "first" "{";
                      tool_chunk 2 "call_b" "second" "{}";
                      tool_chunk 1 "" "" "}";
                      DoneLine] |}.

(** The index of a tool event is one of [indices]. *)
Definition index_among (indices : list json) (e : event) : Prop :=
  is_tool_event e = true -> exists i, event_index e = Some i /\ In i indices.

(** ** Further observations *)

(** No string/uri node of the schema lies below another one. *)
Fixpoint uri_nodes_outermost (t : json) : bool :=
  match t with
  | JObj d =>
      if uri_node d
      then forallb (fun kv => negb (has_uri_node (snd kv))) d
      else forallb (fun kv => uri_nodes_outermost (snd kv)) d
  | JArr l => forallb uri_nodes_outermost l
  | _ => true
  end.

(** The [text] of the [text] blocks of a block list, in order (the empty
    string where a block has none). *)
Fixpoint block_texts (content : list json) : list string :=
  match content with
  | [] => []
  | JObj d :: rest =>
      if is_str "text" (match dict_get "type" d with Some v => v | None => JNull end)
      then match dict_get "text" d with
           | Some (JStr s) => s :: block_texts rest
           | _ => "" :: block_texts rest
           end
      else block_texts rest
  | _ :: rest => block_texts rest
  end.

(** An object schema with one string/uri property. *)
Definition schema_with_uri_property : json :=
  JObj [("type", JStr "object");
        ("properties",
         JObj [("link", JObj [("type", JStr "string"); ("format", JStr "uri")])])].

(** The [input] values of the [tool_use] blocks of a block list. *)
Definition tool_inputs (content : list json) : list json :=
  flat_map (fun item =>
              match item with
              | JObj d =>
                  if is_str "tool_use"
                       (match dict_get "type" d with Some v => v | None => JNull end)
                  then match dict_get "input" d with
                       | Some input => [input]
                       | None => []
                       end
                  else []
              | _ => []
              end) content.

(** The [tool_use] blocks of a block list, reduced to the four fields
    that the gateway carries. *)
Definition tool_use_fields (content : list json) : list json :=
  flat_map (fun item =>
              match item with
              | JObj d =>
                  if is_str "tool_use"
                       (match dict_get "type" d with Some v => v | None => JNull end)
                  then match dict_get "id" d, dict_get "name" d, dict_get "input" d with
                       | Some id, Some name, Some input =>
                           [JObj [("type", JStr "tool_use"); ("id", id);
                                  ("name", name); ("input", input)]]
                       | _, _, _ => []
                       end
                  else []
              | _ => []
              end) content.

(** The function tool that the gateway forwards for a tool definition. *)
Definition forwarded_tool (tool forwarded : json) : Prop :=
  exists name description input_schema,
    py_getitem tool "name" = inr name
    /\ py_getitem tool "description" = inr description
    /\ py_getitem tool "input_schema" = inr input_schema
    /\ forwarded
       = JObj [("type", JStr "function");
               ("function", JObj [("name", name);
                                  ("description", description);
                                  ("parameters", remove_uri_format input_schema)])]
    /\ (uri_nodes_outermost input_schema = true ->
        has_uri_node (remove_uri_format input_schema) = false).

(** A request with one tool whose schema has a string/uri property, and a
    request that is a list. *)
Definition request_with_tool : list (string * json) :=
  [("messages", JArr [JObj [("role", JStr "user"); ("content", JStr "hi")]]);
   ("tools", JArr [JObj [("name", JStr "fetch");
                         ("description", JStr "fetches a page");
                         ("input_schema", schema_with_uri_property)]])].

Definition tool_use_content : list json :=
  [JObj [("type", JStr "text"); ("text", JStr "calling")];
   JObj [("type", JStr "tool_use"); ("id", JStr "call_1");
         ("name", JStr "lookup"); ("input", JObj [])]].

(** The text that a chunk's first-choice delta carries, if any. *)
Definition chunk_text (chunk : json) : list json :=
  match (choices <- py_get_default chunk "choices" (JArr [JObj []]) ;;
         choice <- py_getitem0 choices ;;
         delta <- py_get_default choice "delta" (JObj []) ;;
         if truthy delta then
           text <- py_get delta "content" ;;
           ok (if truthy text then [text] else [])
         else ok [])%result
  with
  | inr l => l
  | inl _ => []
  end.

(** The index and the argument string of the fragments that carry a
    non-empty argument string. *)
Definition fragment_arguments (fragments : list json) : list (json * string) :=
  flat_map (fun fragment =>
              match py_getitem fragment "index",
                    (func <- py_get_default fragment "function" (JObj []) ;;
                     py_get_default func "arguments" (JStr ""))%result
              with
              | inr idx, inr (JStr s) => if String.eqb s "" then [] else [(idx, s)]
              | _, _ => []
              end) fragments.

(** The texts of the text deltas, and the index and partial JSON of the
    input-JSON deltas, in emission order. *)
Definition text_deltas (evs : list event) : list json :=
  flat_map (fun e => match e with
                     | TextDelta text => [text]
                     | _ => []
                     end) evs.

Definition json_deltas (evs : list event) : list (json * string) :=
  flat_map (fun e => match e with
                     | InputJsonDelta idx partial_json => [(idx, partial_json)]
                     | _ => []
                     end) evs.

(** The last truthy [usage] among the chunks, starting from [kept]. *)
Definition last_usage_from (kept : json) (chunks : list json) : json :=
  fold_left (fun kept chunk =>
               match py_get chunk "usage" with
               | inr u => if truthy u then u else kept
               | inl _ => kept
               end) chunks kept.

(** A [message_delta] or a [message_stop]. *)
Definition is_closing_event (e : event) : bool :=
  String.eqb (event_name e) "message_delta" || String.eqb (event_name e) "message_stop".

(** A backend that answers the streaming request with a failing status. *)
Definition failing_stream : stream_reply :=
  {| stream_ok := false; stream_lines := [text_chunk "Hi" []; DoneLine] |}.

(** A stream with lines that the loop skips and lines after the terminator. *)
Definition noisy_stream : stream_reply :=
  {| stream_ok := true;
     stream_lines := [OtherLine; text_chunk "He" []; BadJsonLine; text_chunk "llo" [];
                      DoneLine; text_chunk "ignored" []] |}.

Definition streaming_request : list (string * json) :=
  [("messages", JArr [JObj [("role", JStr "user"); ("content", JStr "hi")]]);
   ("stream", JBool true)].

(** A backend document without [usage], and a backend that answers with
    a failing status. *)
Definition reply_without_usage : http_reply :=
  {| reply_ok := true;
     reply_json :=
       Some (JObj [("id", JStr "chatcmpl-1");
                   ("choices",
                    JArr [JObj [("message", JObj [("role", JStr "assistant");
                                                  ("content", JStr "Hello")]);
                                ("finish_reason", JStr "stop")]])]);
     reply_lines := [] |}.

(** What makes the reply to a non-streaming request unusable: a failing
    status, a body that does not decode, or a document that is not an
    object or lacks [choices] or [usage]. *)
Definition unusable_reply (reply : http_reply) : Prop :=
  reply_ok reply = false
  \/ match reply_json reply with
     | None => True
     | Some (JObj d) => dict_get "choices" d = None \/ dict_get "usage" d = None
     | Some _ => True
     end.

(** The lines that [stream_generator] acts on: the decoded chunks up to
    the first [[DONE]] line, and the first line on which [json.loads]
    raises an exception other than [JSONDecodeError], where the run
    ends.  Lines without the [data:] prefix and lines on which
    [json.loads] raises [JSONDecodeError] are dropped. *)
Fixpoint effective (lines : list line) : list line :=
  match lines with
  | [] => []
  | OtherLine :: rest => effective rest
  | DoneLine :: _ => []
  | BadJsonLine :: rest => effective rest
  | ChunkLine chunk :: rest => ChunkLine chunk :: effective rest
  | RaisingLine e :: rest => if caught e then effective rest else [RaisingLine e]
  end.

(** A stream with a data line whose integer literal has more digits
    than [json.loads] converts: [ValueError], not [JSONDecodeError]. *)
Definition stream_with_huge_integer : stream_reply :=
  {| stream_ok := true;
     stream_lines := [OtherLine; text_chunk "He" []; BadJsonLine;
                      RaisingLine ValueError; text_chunk "llo" []; DoneLine] |}.

(** Tool-call fragments with a new index and neither id nor name: one
    whose [function] is [null], one whose [arguments] are a number; and a
    stream that delivers the first. *)
Definition fragment_with_null_function : list (string * json) :=
  [("index", JInt 1); ("function", JNull)].

Definition fragment_with_integer_arguments : list (string * json) :=
  [("index", JInt 1); ("function", JObj [("arguments", JInt 5)])].

Definition stream_with_null_function : stream_reply :=
  {| stream_ok := true;
     stream_lines :=
       [ChunkLine
          (JObj [("choices",
                  JArr [JObj [("delta",
                               JObj [("tool_calls",
                                      JArr [JObj fragment_with_null_function])])]])]);
        DoneLine] |}.

(** A tool call that the loop of [handle_non_stream] translates to
    [block]: a dict with an [id] and a [function] dict that holds a
    [name] and an argument string that [json.loads] decodes; the block
    carries the id, the name and the decoded value. *)
Definition translated_tool_call (json_loads : string -> option json)
  (tool_call block : json) : Prop :=
  exists t f id name s v,
    tool_call = JObj t
    /\ dict_get "id" t = Some id
    /\ dict_get "function" t = Some (JObj f)
    /\ dict_get "name" f = Some name
    /\ dict_get "arguments" f = Some (JStr s)
    /\ json_loads s = Some v
    /\ block = JObj [("type", JStr "tool_use"); ("id", id); ("name", name); ("input", v)].

(** A backend document with what [handle_non_stream] reads besides the
    tool calls: a first choice with a [message] dict, whose [tool_calls]
    are the list [tool_calls] (missing or [null] for none), an [id] that
    is a string or missing, a [finish_reason] that is a string, [null] or
    missing, and a [usage] dict with both token counts. *)
Definition reply_frame (data : json) (tool_calls : list json) : Prop :=
  exists d choice other_choices message usage prompt_tokens completion_tokens,
    data = JObj d
    /\ dict_get "choices" d = Some (JArr (JObj choice :: other_choices))
    /\ dict_get "message" choice = Some (JObj message)
    /\ match dict_get "tool_calls" message with
       | Some (JArr l) => tool_calls = l
       | Some JNull | None => tool_calls = []
       | Some _ => False
       end
    /\ match dict_get "id" d with
       | Some (JStr _) | None => True
       | Some _ => False
       end
    /\ match dict_get "finish_reason" choice with
       | Some (JStr _) | Some JNull | None => True
       | Some _ => False
       end
    /\ dict_get "usage" d = Some (JObj usage)
    /\ dict_get "prompt_tokens" usage = Some prompt_tokens
    /\ dict_get "completion_tokens" usage = Some completion_tokens.

(** A backend whose one tool call carries an argument string that
    decodes. *)
Definition sample_tool_call : json :=
  JObj [("id", JStr "call_1");
        ("function", JObj [("name", JStr "lookup"); ("arguments", JStr "{}")])].

Definition reply_with_tool_call : http_reply :=
  {| reply_ok := true;
     reply_json :=
       Some (JObj [("id", JStr "chatcmpl-1");
                   ("choices",
                    JArr [JObj [("message",
                                 JObj [("role", JStr "assistant");
                                       ("tool_calls", JArr [sample_tool_call])]);
                                ("finish_reason", JStr "tool_calls")]]);
                   ("usage", JObj [("prompt_tokens", JInt 3);
                                   ("completion_tokens", JInt 5)])]);
     reply_lines := [] |}.

(** The tool-call fragments the loop gets to, in order. *)
Definition stream_fragments (lines : list line) : list json :=
  flat_map chunk_tool_calls (consumed lines).

(** The tool events of a run, in emission order, each as its kind
    ([true] for a [tool_use] start, [false] for an [input_json_delta])
    and the index it carries. *)
Definition tool_event_tags (evs : list event) : list (bool * json) :=
  flat_map (fun e => if is_tool_event e
                     then match event_index e with
                          | Some i => [(is_start e, i)]
                          | None => []
                          end
                     else []) evs.

(** The tool events that the fragments call for, in order, each with the
    index of its own fragment, [opened] being the indices of the tool
    blocks already open: a fragment whose index equals none of them calls
    for a start with that index, and a fragment with a non-empty argument
    string calls for a delta with that index.  (A fragment without a
    hashable index, on which the translator raises, calls for nothing.) *)
Fixpoint expected_tool_tags (opened : list json) (fragments : list json)
  : list (bool * json) :=
  match fragments with
  | [] => []
  | fragment :: rest =>
      match py_getitem fragment "index" with
      | inr idx =>
          match key_of idx with
          | Some k =>
              let is_new := negb (existsb (has_key k) opened) in
              (if is_new then [(true, idx)] else [])
                ++ map (fun d => (false, fst d)) (fragment_arguments [fragment])
                ++ expected_tool_tags (if is_new then opened ++ [idx] else opened) rest
          | None => expected_tool_tags opened rest
          end
      | inl _ => expected_tool_tags opened rest
      end
  end.

(** [tags_follow r opened_of opened fragments]: the tool events of the
    run [r], entered with the blocks [opened] open, are those that
    [fragments] call for: all of them when [r] returns, leaving the
    blocks [opened_of a] open, and an initial segment of them when [r]
    raises. *)
Definition tags_follow {A} (r : gen A) (opened_of : A -> list json)
  (opened : list json) (fragments : list json) : Prop :=
  forall rest : list json,
    match snd r with
    | inr a =>
        expected_tool_tags opened (fragments ++ rest)
        = tool_event_tags (fst r) ++ expected_tool_tags (opened_of a) rest
    | inl _ =>
        exists tail,
          expected_tool_tags opened (fragments ++ rest) = tool_event_tags (fst r) ++ tail
    end.

(** The indices of the tool blocks open in a state, in opening order. *)
Definition opened_in (st : stream_state) : list json :=
  map fst (tool_call_accumulators st).

(** * Properties *)

(** ** The schema sanitizer (C1) *)

(** C1: on a schema whose matching node has a matching child, one pass of
    [remove_uri_format] strips only the outer [format]; the child keeps
    [format: uri], and a second pass changes the tree again.  So the
    sanitizer neither clears every nested node nor is idempotent there. *)
Theorem remove_uri_format_skips_children_of_match :
  remove_uri_format nested_uri_schema
    = JObj [("type", JStr "string");
            ("items", JObj [("type", JStr "string"); ("format", JStr "uri")])]
  /\ has_uri_node (remove_uri_format nested_uri_schema) = true
  /\ remove_uri_format (remove_uri_format nested_uri_schema)
       = JObj [("type", JStr "string"); ("items", JObj [("type", JStr "string")])]
  /\ remove_uri_format (remove_uri_format nested_uri_schema)
       <> remove_uri_format nested_uri_schema.
Proof.
  repeat split; try reflexivity.
  vm_compute. discriminate.
Qed.

(** ** Reasoning about results *)

Lemma rbind_inr {A B} (m : result A) (f : A -> result B) (b : B) :
  rbind m f = inr b -> exists a, m = inr a /\ f a = inr b.
Proof.
  destruct m as [e | a]; simpl; intros H.
  - discriminate.
  - exists a. split; [reflexivity | exact H].
Qed.

Lemma succeeds_rbind {A B} (m : result A) (f : A -> result B) :
  succeeds (rbind m f) = match m with
                         | inr a => succeeds (f a)
                         | inl _ => false
                         end.
Proof. destruct m; reflexivity. Qed.

Lemma succeeds_true {A} (r : result A) :
  succeeds r = true <-> exists a, r = inr a.
Proof.
  destruct r as [e | a]; simpl; split; intros H.
  - discriminate.
  - destruct H as [a H]. discriminate.
  - exists a. reflexivity.
  - reflexivity.
Qed.

(** Take apart a hypothesis [rbind m f = inr b]. *)
Tactic Notation "rinv" hyp(H) "as" ident(a) ident(Ha) :=
  apply rbind_inr in H; destruct H as (a & Ha & H); cbv beta in H.

(** ** The outbound request: model, defaults, tools (C6) *)



(** ** When request translation raises (C7) *)

Lemma join_space_cons (t : json) (ts : list json) :
  succeeds (join_space (t :: ts))
  = match t with JStr _ => succeeds (join_space ts) | _ => false end.
Proof.
  destruct t; try reflexivity.
  simpl. destruct ts as [| t' ts']; [reflexivity |].
  destruct (join_space (t' :: ts')); reflexivity.
Qed.

Lemma text_join_succeeds (l : list json) :
  succeeds (rbind (text_items l) (fun ts => rbind (join_space ts) (fun s => ok (JStr s))))
  = forallb text_block_ok l.
Proof.
  assert (Hjoin : forall ts, succeeds (rbind (join_space ts) (fun s => ok (JStr s)))
                             = succeeds (join_space ts)).
  { intros ts. destruct (join_space ts); reflexivity. }
  induction l as [| item l IH].
  - reflexivity.
  - rewrite succeeds_rbind in *.
    cbn [text_items forallb].
    destruct item as [| | | | | |d]; try reflexivity.
    cbn [py_get rbind ok text_block_ok].
    destruct (is_str "text" _).
    + cbn [py_get_default rbind ok].
      destruct (text_items l) as [e | ts]; cbn [rbind ok].
      * rewrite <- IH. destruct (dict_get "text" d) as [[]|]; reflexivity.
      * rewrite Hjoin, join_space_cons. rewrite Hjoin in IH. rewrite <- IH.
        destruct (dict_get "text" d) as [[]|]; reflexivity.
    + exact IH.
Qed.

Lemma normalize_content_succeeds (c : json) :
  succeeds (normalize_content c) = content_text_ok c.
Proof.
  destruct c; try reflexivity.
  apply text_join_succeeds.
Qed.

Lemma tool_use_calls_succeeds (dumps : json -> string) (l : list json) :
  succeeds (tool_use_calls dumps l) = forallb tool_use_ok l.
Proof.
  induction l as [| item l IH].
  - reflexivity.
  - cbn [tool_use_calls forallb].
    destruct item as [| | | | | |d]; try reflexivity.
    cbn [py_get rbind ok tool_use_ok].
    destruct (is_str "tool_use" _); [| exact IH].
    unfold py_getitem, dict_has.
    destruct (dict_get "id" d); [| reflexivity].
    destruct (dict_get "name" d); [| reflexivity].
    destruct (dict_get "input" d); [| reflexivity].
    cbn [rbind ok andb]. rewrite succeeds_rbind.
    rewrite <- IH. destruct (tool_use_calls dumps l); reflexivity.
Qed.

Lemma tool_result_messages_succeeds (l : list json) :
  forallb tool_use_ok l = true -> succeeds (tool_result_messages l) = true.
Proof.
  induction l as [| item l IH]; [reflexivity |].
  cbn [forallb tool_result_messages]. intros H.
  apply andb_true_iff in H. destruct H as [Hitem Hl].
  destruct item as [| | | | | |d]; try discriminate.
  destruct (is_str "tool_result" _); [| exact (IH Hl)].
  rewrite succeeds_rbind. specialize (IH Hl).
  destruct (tool_result_messages l); [discriminate | reflexivity].
Qed.

Lemma translate_message_succeeds (dumps : json -> string) (msg : json) :
  succeeds (translate_message dumps msg) = message_ok msg.
Proof.
  destruct msg as [| | | | | |m]; try reflexivity.
  unfold translate_message, message_ok.
  cbn [py_get rbind ok].
  set (c := match dict_get "content" m with Some v => v | None => JNull end).
  rewrite succeeds_rbind.
  pose proof (normalize_content_succeeds c) as Hn.
  destruct (normalize_content c) as [e | text]; cbn [succeeds] in Hn; rewrite <- Hn;
    [reflexivity |].
  cbn [andb]. rewrite succeeds_rbind.
  destruct c as [| | | | |l|]; try reflexivity.
  pose proof (tool_use_calls_succeeds dumps l) as Ht.
  destruct (tool_use_calls dumps l) as [e | calls]; cbn [succeeds] in Ht; rewrite <- Ht;
    [reflexivity |].
  rewrite succeeds_rbind.
  assert (Hr : succeeds (tool_result_messages l) = true).
  { apply tool_result_messages_succeeds. symmetry. exact Ht. }
  destruct (tool_result_messages l); [discriminate Hr | reflexivity].
Qed.

Lemma translate_messages_succeeds (dumps : json -> string) (msgs : list json) :
  succeeds (translate_messages dumps msgs) = forallb message_ok msgs.
Proof.
  induction msgs as [| msg msgs IH]; [reflexivity |].
  cbn [translate_messages forallb].
  rewrite succeeds_rbind, <- translate_message_succeeds with (dumps := dumps).
  destruct (translate_message dumps msg); [reflexivity |].
  rewrite succeeds_rbind, <- IH.
  destruct (translate_messages dumps msgs); reflexivity.
Qed.

Lemma translate_tools_succeeds (tools : list json) :
  succeeds (translate_tools tools) = forallb tool_ok tools.
Proof.
  induction tools as [| tool tools IH]; [reflexivity |].
  cbn [translate_tools forallb].
  destruct tool as [| | | | | |d]; try reflexivity.
  cbn [tool_ok]. unfold py_getitem, dict_has.
  destruct (dict_get "name" d); [| reflexivity].
  destruct (dict_get "description" d); [| reflexivity].
  destruct (dict_get "input_schema" d); [| reflexivity].
  cbn [rbind ok andb]. rewrite succeeds_rbind, <- IH.
  destruct (translate_tools tools); reflexivity.
Qed.

Lemma system_messages_succeeds (p : list (string * json)) :
  succeeds (system_messages p)
  = match dict_get "system" p with
    | Some sys => content_text_ok sys
    | None => true
    end.
Proof.
  unfold system_messages.
  destruct (dict_get "system" p) as [sys |]; [| reflexivity].
  rewrite succeeds_rbind, <- normalize_content_succeeds.
  destruct (normalize_content sys); reflexivity.
Qed.

Lemma translate_request_succeeds (dumps : json -> string) (cfg : config) (payload : json) :
  succeeds (translate_request dumps cfg payload) = request_ok payload.
Proof.
  destruct payload as [| | | | | |p]; try reflexivity.
  unfold translate_request, request_ok, all_items.
  cbn [py_get_default rbind ok].
  rewrite succeeds_rbind, <- system_messages_succeeds.
  destruct (system_messages p) as [e | sys]; [reflexivity |].
  cbn [succeeds andb]. rewrite succeeds_rbind.
  destruct (py_iter (match dict_get "messages" p with Some v => v | None => JArr [] end))
    as [e | msgs]; [reflexivity |].
  rewrite succeeds_rbind, <- translate_messages_succeeds with (dumps := dumps).
  destruct (translate_messages dumps msgs) as [e | translated]; [reflexivity |].
  cbn [succeeds andb]. rewrite succeeds_rbind.
  destruct (py_iter (match dict_get "tools" p with Some v => v | None => JArr [] end))
    as [e | defs]; [reflexivity |].
  rewrite succeeds_rbind, <- translate_tools_succeeds.
  destruct (translate_tools defs); reflexivity.
Qed.



(** ** Tool results follow the message they came in (C8) *)

Lemma tool_result_messages_inr (l out : list json) :
  tool_result_messages l = inr out ->
  out = map tool_message (tool_result_blocks l).
Proof.
  revert out. induction l as [| item l IH]; intros out H.
  - inversion H. reflexivity.
  - cbn [tool_result_messages] in H.
    destruct item as [| | | | | |d]; try discriminate.
    cbn [tool_result_blocks flat_map].
    destruct (is_str "tool_result" _).
    + rinv H as ms Hms. inversion H; subst out.
      cbn [app map]. f_equal. apply IH. exact Hms.
    + apply IH. exact H.
Qed.

Lemma translate_messages_app (dumps : json -> string) (a b out : list json) :
  translate_messages dumps (a ++ b) = inr out ->
  exists oa ob,
    translate_messages dumps a = inr oa
    /\ translate_messages dumps b = inr ob
    /\ out = oa ++ ob.
Proof.
  revert out. induction a as [| x a IH]; intros out H.
  - exists [], out. repeat split. exact H.
  - cbn [app translate_messages] in H.
    rinv H as first Hfirst. rinv H as others Hothers. inversion H; subst out.
    destruct (IH _ Hothers) as (oa & ob & Ha & Hb & ->).
    exists (first ++ oa), ob. repeat split.
    + cbn [translate_messages]. rewrite Hfirst, Ha. reflexivity.
    + exact Hb.
    + apply app_assoc.
Qed.

(** C8: when translation returns, the outbound messages contain, for an
    inbound message with a block list, first the message derived from it
    (if one is emitted: it carries that message's role), then directly one
    [tool] message per [tool_result] block, in block order, each with the
    block's [tool_use_id] as [tool_call_id] and the block's content; before
    this run come the messages of the earlier inbound messages, after it
    those of the later ones. *)
Theorem tool_results_follow_their_message :
  forall (json_dumps : json -> string) (cfg : config)
         (p out : list (string * json)) (before after : list json)
         (m : list (string * json)) (blocks : list json),
    translate_request json_dumps cfg (JObj p) = inr out ->
    dict_get "messages" p = Some (JArr (before ++ JObj m :: after)) ->
    dict_get "content" m = Some (JArr blocks) ->
    exists sys earlier derived later,
      dict_get "messages" out
        = Some (JArr ((sys ++ earlier)
                        ++ derived
                        ++ map tool_message (tool_result_blocks blocks)
                        ++ later))
      /\ system_messages p = inr sys
      /\ translate_messages json_dumps before = inr earlier
      /\ translate_messages json_dumps after = inr later
      /\ (derived = []
          \/ exists text calls,
               derived = [new_msg (match dict_get "role" m with
                                   | Some r => r | None => JNull end) text calls])
      /\ Forall (fun d =>
                   tool_message d
                   = JObj [("role", JStr "tool");
                           ("content", match dict_get "content" d with
                                       | Some v => v | None => JStr "" end);
                           ("tool_call_id", match dict_get "tool_use_id" d with
                                            | Some v => v | None => JNull end)])
                (tool_result_blocks blocks).
Proof.
  intros json_dumps cfg p out before after m blocks H Hmsgs Hcontent.
  unfold translate_request in H.
  rinv H as is_stream His_stream. rinv H as sys Hsys. rinv H as msgs Hiter.
  rinv H as translated Htranslated. rinv H as defs Hdefs. rinv H as tools Htools.
  rewrite Hmsgs in Hiter. cbn [py_iter ok] in Hiter. inversion Hiter; subst msgs.
  apply translate_messages_app in Htranslated.
  destruct Htranslated as (earlier & rest & Hearlier & Hrest & ->).
  cbn [translate_messages] in Hrest.
  rinv Hrest as mine Hmine. rinv Hrest as later Hlater. inversion Hrest; subst rest.
  unfold translate_message in Hmine.
  cbn [py_get rbind ok] in Hmine. rewrite Hcontent in Hmine.
  rinv Hmine as text Htext. rinv Hmine as calls Hcalls. rinv Hmine as results Hresults.
  apply tool_result_messages_inr in Hresults. subst results.
  inversion Hmine; subst mine.
  set (role := match dict_get "role" m with Some r => r | None => JNull end) in *.
  set (derived := if truthy text || truthy (JArr calls)
                  then [new_msg role text calls] else []) in *.
  exists sys, earlier, derived, later.
  repeat split.
  - assert (Hm : forall extra,
               dict_get "messages"
                 ([("model", JStr (if truthy (match dict_get "thinking" p with
                                              | Some x => x | None => JNull end)
                                   then REASONING_MODEL cfg
                                   else COMPLETION_MODEL cfg));
                   ("messages",
                    JArr (sys ++ earlier
                            ++ (derived ++ map tool_message (tool_result_blocks blocks))
                            ++ later));
                   ("max_tokens", match dict_get "max_tokens" p with
                                  | Some x => x | None => JInt 4096 end);
                   ("temperature", match dict_get "temperature" p with
                                   | Some x => x | None => JFloat float_one end);
                   ("stream", is_stream)] ++ extra)
               = Some (JArr ((sys ++ earlier)
                               ++ derived
                               ++ map tool_message (tool_result_blocks blocks)
                               ++ later))).
    { intros extra. cbn [app dict_get String.eqb Ascii.eqb Bool.eqb].
      rewrite <- !app_assoc. reflexivity. }
    destruct tools; inversion H; subst out.
    + rewrite <- (app_nil_r (_ :: _)). apply Hm.
    + apply Hm.
  - exact Hsys.
  - exact Hearlier.
  - exact Hlater.
  - subst derived. destruct (truthy text || truthy (JArr calls)); [right | left; reflexivity].
    eexists; eexists; reflexivity.
  - apply Forall_forall. intros d _. reflexivity.
Qed.

Lemma tool_results_follow_their_message_witness :
  translate_request dumps_empty_object (load_config empty_env)
    (JObj request_with_tool_result)
  = inr [("model", JStr "my-model");
         ("messages",
          JArr [JObj [("role", JStr "assistant"); ("content", JStr "calling")];
                JObj [("role", JStr "user"); ("content", JStr "done")];
                JObj [("role", JStr "tool"); ("content", JStr "42");
                      ("tool_call_id", JStr "abc")]]);
         ("max_tokens", JInt 4096);
         ("temperature", JFloat float_one);
         ("stream", JBool false)]
  /\ exists sys earlier derived later,
       dict_get "messages"
         [("model", JStr "my-model");
          ("messages",
           JArr [JObj [("role", JStr "assistant"); ("content", JStr "calling")];
                 JObj [("role", JStr "user"); ("content", JStr "done")];
                 JObj [("role", JStr "tool"); ("content", JStr "42");
                       ("tool_call_id", JStr "abc")]]);
          ("max_tokens", JInt 4096);
          ("temperature", JFloat float_one);
          ("stream", JBool false)]
       = Some (JArr ((sys ++ earlier)
                       ++ derived
                       ++ [JObj [("role", JStr "tool"); ("content", JStr "42");
                                 ("tool_call_id", JStr "abc")]]
                       ++ later))
       /\ sys = [] /\ later = [].
Proof.
  split; [reflexivity |].
  destruct (tool_results_follow_their_message dumps_empty_object (load_config empty_env)
              request_with_tool_result _
              [JObj [("role", JStr "assistant"); ("content", JStr "calling")]] []
              [("role", JStr "user");
               ("content", JArr [JObj [("type", JStr "text"); ("text", JStr "done")];
                                 JObj [("type", JStr "tool_result");
                                       ("tool_use_id", JStr "abc");
                                       ("content", JStr "42")]])]
              _ eq_refl eq_refl eq_refl)
    as (sys & earlier & derived & later & Hout & Hsys & _ & Hlater & _).
  exists sys, earlier, derived, later.
  split; [exact Hout |].
  split.
  - inversion Hsys. reflexivity.
  - inversion Hlater. reflexivity.
Defined.

(** ** Tool-call arguments in the non-streaming path (C9) *)

Lemma succeeds_false {A} (r : result A) :
  succeeds r = false <-> exists e, r = inl e.
Proof.
  destruct r as [e | a]; simpl; split; intros H.
  - exists e. reflexivity.
  - reflexivity.
  - discriminate.
  - destruct H as [e H]. discriminate.
Qed.

Lemma translate_request_model (json_dumps : json -> string) (cfg : config)
  (p out : list (string * json)) :
  translate_request json_dumps cfg (JObj p) = inr out ->
  dict_get "model" out
  = Some (JStr (if truthy (match dict_get "thinking" p with
                           | Some v => v | None => JNull end)
                then REASONING_MODEL cfg else COMPLETION_MODEL cfg)).
Proof.
  intros H. unfold translate_request in H.
  rinv H as is_stream His_stream. rinv H as sys Hsys. rinv H as msgs Hmsgs.
  rinv H as translated Htranslated. rinv H as defs Hdefs. rinv H as tools Htools.
  destruct tools; inversion H; subst out; reflexivity.
Qed.

Lemma map_stop_reason_str (s : string) :
  succeeds (map_stop_reason (JStr s)) = true.
Proof.
  do 11 (try (destruct s as [| [[|] [|] [|] [|] [|] [|] [|] [|]] s];
              try reflexivity)).
Qed.

Section NonStreamFacts.

Variable json_dumps : json -> string.
Variable json_loads : string -> option json.
Variable str_exn : exn -> string.

Lemma tool_use_blocks_raises (l : list json) (tc : json) (s : string) :
  In tc l ->
  tool_call_arguments tc = inr (JStr s) ->
  json_loads s = None ->
  succeeds (tool_use_blocks json_loads l) = false.
Proof.
  intros Hin Hargs Hloads.
  induction l as [| x l IH]; [contradiction |].
  cbn [tool_use_blocks].
  destruct Hin as [-> | Hin].
  - unfold tool_call_arguments in Hargs.
    rinv Hargs as func Hfunc.
    destruct (py_getitem tc "id"); [reflexivity |].
    cbn [rbind]. rewrite Hfunc. cbn [rbind].
    destruct (py_getitem func "name"); [reflexivity |].
    cbn [rbind]. rewrite Hargs. cbn [rbind py_json_loads].
    rewrite Hloads. reflexivity.
  - specialize (IH Hin).
    destruct (py_getitem x "id"); [reflexivity |].
    cbn [rbind].
    destruct (py_getitem x "function") as [e | func]; [reflexivity |].
    cbn [rbind].
    destruct (py_getitem func "name"); [reflexivity |].
    cbn [rbind].
    destruct (py_getitem func "arguments") as [e | arguments]; [reflexivity |].
    cbn [rbind].
    destruct (py_json_loads json_loads arguments); [reflexivity |].
    cbn [rbind].
    destruct (tool_use_blocks json_loads l); [reflexivity | discriminate].
Qed.

Lemma tool_use_blocks_inr (l blocks : list json) :
  tool_use_blocks json_loads l = inr blocks ->
  Forall2 (decoded_block json_loads) l blocks.
Proof.
  revert blocks. induction l as [| tc l IH]; intros blocks H.
  - inversion H. constructor.
  - cbn [tool_use_blocks] in H.
    rinv H as id Hid. rinv H as func Hfunc. rinv H as name Hname.
    rinv H as func' Hfunc'. rinv H as arguments Harguments.
    rinv H as input Hinput. rinv H as rest Hrest.
    inversion H; subst blocks.
    constructor; [| apply IH; exact Hrest].
    unfold py_json_loads in Hinput.
    destruct arguments as [| | | |s| |]; try discriminate.
    destruct (json_loads s) as [v |] eqn:Hloads; [| discriminate].
    inversion Hinput; subst input.
    exists s, v, id, name. repeat split.
    + unfold tool_call_arguments. rewrite Hfunc'. exact Harguments.
    + exact Hloads.
Qed.

Lemma anthropic_response_tool_calls (rnd : string) (payload : list (string * json))
  (data resp : json) :
  anthropic_response json_loads rnd payload data = inr resp ->
  exists text_parts tool_parts,
    py_getitem resp "content" = inr (JArr (text_parts ++ tool_parts))
    /\ Forall2 (decoded_block json_loads) (response_tool_calls data) tool_parts.
Proof.
  intros H. unfold anthropic_response in H. unfold response_tool_calls.
  rinv H as choices Hchoices. rinv H as choice Hchoice.
  rinv H as openai_message Hmessage. rinv H as text Htext.
  rinv H as listed Hlisted. rinv H as tool_calls Hiter.
  rinv H as tool_parts Hparts. rinv H as backend_id Hid. rinv H as id Hid'.
  rinv H as role Hrole. rinv H as model Hmodel. rinv H as finish Hfinish.
  rinv H as stop Hstop. rinv H as usage1 Husage1. rinv H as prompt Hprompt.
  rinv H as usage2 Husage2. rinv H as completion Hcompletion.
  inversion H; subst resp.
  rewrite Hchoices. cbn [rbind]. rewrite Hchoice. cbn [rbind].
  rewrite Hmessage. cbn [rbind]. rewrite Hlisted. cbn [rbind]. rewrite Hiter.
  eexists; exists tool_parts. split; [reflexivity |].
  apply tool_use_blocks_inr. exact Hparts.
Qed.

Lemma anthropic_response_raises (rnd : string) (payload : list (string * json))
  (data tc : json) (s : string) :
  In tc (response_tool_calls data) ->
  tool_call_arguments tc = inr (JStr s) ->
  json_loads s = None ->
  succeeds (anthropic_response json_loads rnd payload data) = false.
Proof.
  intros Hin Hargs Hloads.
  unfold response_tool_calls in Hin. unfold anthropic_response.
  destruct (py_getitem data "choices") as [e | choices]; [reflexivity |].
  cbn [rbind] in *.
  destruct (py_getitem0 choices) as [e | choice]; [reflexivity |].
  cbn [rbind] in *.
  destruct (py_getitem choice "message") as [e | openai_message]; [reflexivity |].
  cbn [rbind] in *.
  destruct (py_get openai_message "content") as [e | text]; [reflexivity |].
  cbn [rbind].
  destruct (py_get_default openai_message "tool_calls" (JArr [])) as [e | listed];
    [reflexivity |].
  cbn [rbind] in *.
  destruct (py_iter (if truthy listed then listed else JArr [])) as [e | tool_calls];
    [reflexivity |].
  cbn [rbind].
  pose proof (tool_use_blocks_raises tool_calls tc s Hin Hargs Hloads) as Hfail.
  destruct (tool_use_blocks json_loads tool_calls); [reflexivity | discriminate].
Qed.

Lemma tool_use_blocks_returns (l blocks : list json) :
  Forall2 (translated_tool_call json_loads) l blocks ->
  tool_use_blocks json_loads l = inr blocks.
Proof.
  induction 1 as [| tc block l blocks Htc _ IH]; [reflexivity |].
  destruct Htc as (t & f & id & name & s & v & -> & Hid & Hf & Hname & Hargs & Hv & ->).
  cbn [tool_use_blocks py_getitem]. rewrite Hid, Hf. cbn [rbind ok py_getitem].
  rewrite Hname, Hargs. cbn [rbind ok py_json_loads]. rewrite Hv. cbn [rbind ok].
  rewrite IH. reflexivity.
Qed.

Lemma anthropic_response_returns (rnd : string) (payload : list (string * json))
  (data model : json) (tool_calls blocks : list json) :
  reply_frame data tool_calls ->
  Forall2 (translated_tool_call json_loads) tool_calls blocks ->
  dict_get "model" payload = Some model ->
  response_tool_calls data = tool_calls
  /\ exists resp text_parts,
       anthropic_response json_loads rnd payload data = inr resp
       /\ py_getitem resp "content" = inr (JArr (text_parts ++ blocks)).
Proof.
  intros (d & choice & others & message & usage & prompt & completion & -> & Hchoices
          & Hmessage & Hcalls & Hid & Hfinish & Husage & Hprompt & Hcompletion)
    Hblocks Hmodel.
  apply tool_use_blocks_returns in Hblocks.
  assert (Hiter : (listed <- py_get_default (JObj message) "tool_calls" (JArr []) ;;
                   py_iter (if truthy listed then listed else JArr []))%result
                  = inr tool_calls).
  { cbn [py_get_default rbind ok].
    destruct (dict_get "tool_calls" message) as [[| | | | | l |] |];
      try contradiction; subst tool_calls; try reflexivity.
    destruct l; reflexivity. }
  split.
  - unfold response_tool_calls. cbn [py_getitem]. rewrite Hchoices.
    cbn [rbind ok py_getitem0 py_getitem]. rewrite Hmessage. cbn [rbind ok].
    rewrite Hiter. reflexivity.
  - unfold anthropic_response. cbn [py_getitem]. rewrite Hchoices.
    cbn [rbind ok py_getitem0 py_getitem]. rewrite Hmessage. cbn [rbind ok py_get].
    apply rbind_inr in Hiter. destruct Hiter as (listed & -> & Hiter).
    cbn [rbind]. rewrite Hiter. cbn [rbind]. rewrite Hblocks. cbn [rbind].
    rewrite Hmodel, Husage. cbn [rbind ok py_get_default py_getitem].
    rewrite Hprompt, Hcompletion. cbn [rbind ok].
    assert (Hstop : exists stop,
               map_stop_reason (match dict_get "finish_reason" choice with
                                | Some v => v | None => JNull end) = inr stop).
    { apply succeeds_true.
      destruct (dict_get "finish_reason" choice) as [[| | | | s | |] |];
        try contradiction; try reflexivity.
      apply map_stop_reason_str. }
    destruct Hstop as (stop & ->). cbn [rbind].
    destruct (dict_get "id" d) as [[| | | | s | |] |]; try contradiction;
      cbn [rbind ok]; eexists; eexists; (split; [reflexivity |]); reflexivity.
Qed.

End NonStreamFacts.

(** C9: in the non-streaming path, with the backend's document decoded
    to [data]: if some tool call of [data] has an argument string that
    [json.loads] rejects, the handler returns the status-500 JSON error
    response (and so no translated message at all); and whenever the
    response translation returns a message, its content ends with one
    [tool_use] block per tool call, in order, whose [input] is the decoded
    value of that call's argument string, and that message is what the
    handler sends when the backend's status is a success.  Such messages
    exist: when the backend's status is a success, the document has the
    fields the handler reads ([reply_frame]) and every tool call is a dict
    with an [id], a [name] and an argument string that [json.loads]
    decodes, the handler sends, with status 200, a message whose content
    ends with the [tool_use] blocks of these tool calls, in order, each
    with the call's id and name and the decoded value as its [input]. *)
Theorem non_stream_tool_arguments :
  forall (json_dumps : json -> string) (json_loads : string -> option json)
         (str_exn : exn -> string) (cfg : config)
         (backend : http_request -> http_reply) (random_part : string)
         (p out : list (string * json)) (data : json),
    translate_request json_dumps cfg (JObj p) = inr out ->
    truthy (match dict_get "stream" p with Some v => v | None => JBool false end) = false ->
    reply_json (backend {| req_url := (OPENAI_API_BASE cfg ++ "/chat/completions")%string;
                           req_json := out;
                           req_headers := request_headers cfg |}) = Some data ->
    (forall tc s,
        In tc (response_tool_calls data) ->
        tool_call_arguments tc = inr (JStr s) ->
        json_loads s = None ->
        exists e,
          messages_proxy json_dumps json_loads str_exn cfg backend random_part
            (Some (JObj p))
          = Plain (error_response json_dumps str_exn e))
    /\ (forall resp,
           anthropic_response json_loads random_part out data = inr resp ->
           (exists text_parts tool_parts,
               py_getitem resp "content" = inr (JArr (text_parts ++ tool_parts))
               /\ Forall2 (decoded_block json_loads) (response_tool_calls data) tool_parts)
           /\ (reply_ok (backend {| req_url := (OPENAI_API_BASE cfg ++ "/chat/completions")%string;
                                    req_json := out;
                                    req_headers := request_headers cfg |}) = true ->
               messages_proxy json_dumps json_loads str_exn cfg backend random_part
                 (Some (JObj p))
               = Plain {| content := json_dumps resp;
                          status_code := 200;
                          media_type := "application/json" |}))
    /\ (forall tool_calls blocks,
           reply_frame data tool_calls ->
           Forall2 (translated_tool_call json_loads) tool_calls blocks ->
           reply_ok (backend {| req_url := (OPENAI_API_BASE cfg ++ "/chat/completions")%string;
                                req_json := out;
                                req_headers := request_headers cfg |}) = true ->
           response_tool_calls data = tool_calls
           /\ exists resp text_parts,
                py_getitem resp "content" = inr (JArr (text_parts ++ blocks))
                /\ messages_proxy json_dumps json_loads str_exn cfg backend random_part
                     (Some (JObj p))
                   = Plain {| content := json_dumps resp;
                              status_code := 200;
                              media_type := "application/json" |}).
Proof.
  intros json_dumps json_loads str_exn cfg backend random_part p out data
    Hout Hflag Hdata.
  split; [| split].
  - intros tc s Hin Hargs Hloads.
    pose proof (anthropic_response_raises json_loads random_part out data tc s
                  Hin Hargs Hloads) as Hfail.
    apply succeeds_false in Hfail. destruct Hfail as [e He].
    unfold messages_proxy. cbn [rbind py_get_default ok].
    rewrite Hout. cbn [rbind]. rewrite Hflag. cbn [negb].
    unfold handle_non_stream. rewrite Hdata.
    destruct (reply_ok _).
    + cbn [rbind ok]. rewrite He. cbn [rbind]. exists e. reflexivity.
    + cbn [rbind throw]. exists HTTPStatusError. reflexivity.
  - intros resp Hresp. split.
    + apply anthropic_response_tool_calls with (rnd := random_part) (payload := out).
      exact Hresp.
    + intros Hok.
      unfold messages_proxy. cbn [rbind py_get_default ok].
      rewrite Hout. cbn [rbind]. rewrite Hflag. cbn [negb].
      unfold handle_non_stream. rewrite Hdata, Hok.
      cbn [rbind ok]. rewrite Hresp. reflexivity.
  - intros tool_calls blocks Hframe Hblocks Hok.
    destruct (anthropic_response_returns json_loads random_part out data _
                tool_calls blocks Hframe Hblocks
                (translate_request_model json_dumps cfg p out Hout))
      as (Hcalls & resp & text_parts & Hresp & Hcontent).
    split; [exact Hcalls |].
    exists resp, text_parts. split; [exact Hcontent |].
    unfold messages_proxy. cbn [rbind py_get_default ok].
    rewrite Hout. cbn [rbind]. rewrite Hflag. cbn [negb].
    unfold handle_non_stream. rewrite Hdata, Hok.
    cbn [rbind ok]. rewrite Hresp. reflexivity.
Qed.

Lemma non_stream_tool_arguments_witness :
  (exists e,
      messages_proxy dumps_empty_object loads_empty_object (fun _ => "error")
        (load_config empty_env) (fun _ => reply_with_bad_arguments) "r"
        (Some (JObj sample_request))
      = Plain (error_response dumps_empty_object (fun _ => "error") e))
  /\ exists resp text_parts,
       py_getitem resp "content"
       = inr (JArr (text_parts
                      ++ [JObj [("type", JStr "tool_use"); ("id", JStr "call_1");
                                ("name", JStr "lookup"); ("input", JObj [])]]))
       /\ messages_proxy dumps_empty_object loads_empty_object (fun _ => "error")
            (load_config empty_env) (fun _ => reply_with_tool_call) "r"
            (Some (JObj sample_request))
          = Plain {| content := dumps_empty_object resp;
                     status_code := 200;
                     media_type := "application/json" |}.
Proof.
  split; [| refine (proj2 (proj2 (proj2 (non_stream_tool_arguments dumps_empty_object
                                    loads_empty_object (fun _ => "error")
                                    (load_config empty_env)
                                    (fun _ => reply_with_tool_call) "r" sample_request
                                    _ _ eq_refl eq_refl eq_refl))
                             [sample_tool_call] _ _ _ eq_refl));
            [do 7 eexists; repeat split; reflexivity
            | constructor; [| constructor];
              do 6 eexists; repeat split; reflexivity]].
  refine (proj1 (non_stream_tool_arguments dumps_empty_object loads_empty_object
                   (fun _ => "error") (load_config empty_env)
                   (fun _ => reply_with_bad_arguments) "r" sample_request _ _
                   eq_refl eq_refl eq_refl)
            (JObj [("id", JStr "call_1");
                   ("function", JObj [("name", JStr "lookup");
                                      ("arguments", JStr "{oops")])])
            "{oops" _ eq_refl eq_refl).
  left. reflexivity.
Defined.

(** ** Streams on which the specification's wording fails *)

(** C2, as stated, fails where a tool call shares index 0 with the text
    block: the stream completes, index 0 is a tool-call index of the input,
    yet two [content_block_start] events carry index 0, the second after a
    [content_block_delta] for index 0.  It also fails on a run that an
    exception cuts short: the block of index 1 is started and never
    stopped. *)
Lemma two_starts_for_index_zero :
  stream_generator "r" sample_payload text_then_tool_zero
  = ([MessageStart "msg_r" (JStr "my-model"); Ping;
      TextBlockStart; TextDelta (JStr "Hi");
      ToolBlockStart (JInt 0) (JStr "call_1") (JStr "lookup");
      InputJsonDelta (JInt 0) "{}";
      BlockStop (JInt 0);
      MessageDelta "end_turn" (JInt 0); MessageStop], inr tt)
  /\ stream_tool_indices (stream_lines text_then_tool_zero) = [JInt 0]
  /\ List.length (filter (fun e => is_start e && for_index (KInt 0) e)
               (fst (stream_generator "r" sample_payload text_then_tool_zero))) = 2%nat
  /\ map (fun e => (is_start e, is_delta e, for_index (KInt 0) e))
       [TextDelta (JStr "Hi"); ToolBlockStart (JInt 0) (JStr "call_1") (JStr "lookup")]
     = [(false, true, true); (true, false, true)]
  /\ stream_generator "r" sample_payload tool_then_fragment_without_index
     = ([MessageStart "msg_r" (JStr "my-model"); Ping;
         ToolBlockStart (JInt 1) (JStr "call_a") (JStr "first");
         InputJsonDelta (JInt 1) "{"], inl (KeyError "index")).
Proof. repeat split. Qed.

(** C3, as stated, fails: the stops come in the order the indices were
    first seen (2 before 1), not in ascending order; on a stream that
    opened no block neither branch emits anything; and when the mapping of
    the finish reason raises after the loop, the started text block gets
    no stop. *)
Lemma stops_follow_first_appearance_not_index_order :
  stream_generator "r" sample_payload tools_two_then_one
  = ([MessageStart "msg_r" (JStr "my-model"); Ping;
      ToolBlockStart (JInt 2) (JStr "call_b") (JStr "second");
      InputJsonDelta (JInt 2) "{}";
      ToolBlockStart (JInt 1) (JStr "call_a") (JStr "first");
      InputJsonDelta (JInt 1) "{}";
      BlockStop (JInt 2); BlockStop (JInt 1);
      MessageDelta "end_turn" (JInt 0); MessageStop], inr tt)
  /\ stop_indices (fst (stream_generator "r" sample_payload tools_two_then_one))
     = [JInt 2; JInt 1]
  /\ stop_indices (fst (stream_generator "r" sample_payload empty_stream)) = []
  /\ stream_generator "r" sample_payload text_with_list_finish_reason
     = ([MessageStart "msg_r" (JStr "my-model"); Ping;
         TextBlockStart; TextDelta (JStr "Hi")], inl TypeError).
Proof. repeat split. Qed.

(** C4, as stated, fails: the tool call tagged 0 is emitted with index 0,
    both its [tool_use] start and its [input_json_delta]. *)
Lemma tool_call_emitted_with_index_zero :
  stream_generator "r" sample_payload tool_zero_only
  = ([MessageStart "msg_r" (JStr "my-model"); Ping;
      ToolBlockStart (JInt 0) (JStr "call_1") (JStr "lookup");
      InputJsonDelta (JInt 0) "{}";
      BlockStop (JInt 0);
      MessageDelta "end_turn" (JInt 0); MessageStop], inr tt)
  /\ sse_event (ToolBlockStart (JInt 0) (JStr "call_1") (JStr "lookup"))
     = ("content_block_start",
        JObj [("type", JStr "content_block_start");
              ("index", JInt 0);
              ("content_block", JObj [("type", JStr "tool_use");
                                      ("id", JStr "call_1");
                                      ("name", JStr "lookup");
                                      ("input", JObj [])])])
  /\ sse_event (InputJsonDelta (JInt 0) "{}")
     = ("content_block_delta",
        JObj [("type", JStr "content_block_delta");
              ("index", JInt 0);
              ("delta", JObj [("type", JStr "input_json_delta");
                              ("partial_json", JStr "{}")])])
  /\ existsb (fun e => is_tool_event e && for_index (KInt 0) e)
       (fst (stream_generator "r" sample_payload tool_zero_only)) = true.
Proof. repeat split. Qed.

(** C5, as stated, fails: the last finish reason that is present is
    [length], which maps to [max_tokens], but the final [message_delta]
    carries [end_turn], the mapping of the last chunk's absent reason. *)
Lemma later_chunk_erases_finish_reason :
  stream_generator "r" sample_payload length_then_usage
  = ([MessageStart "msg_r" (JStr "my-model"); Ping;
      TextBlockStart; TextDelta (JStr "Hi");
      BlockStop (JInt 0);
      MessageDelta "end_turn" (JInt 7); MessageStop], inr tt)
  /\ last_present_finish_reason (stream_lines length_then_usage) = JStr "length"
  /\ map_stop_reason (last_present_finish_reason (stream_lines length_then_usage))
     = inr "max_tokens".
Proof. repeat split. Qed.

(** ** Reasoning about generator runs *)

Lemma gbind_ret {A B} (a : A) (f : A -> gen B) : gbind (gret a) f = f a.
Proof. unfold gbind, gret. simpl. destruct (f a). reflexivity. Qed.

Lemma gbind_lift_ok {A B} (a : A) (f : A -> gen B) : gbind (lift (inr a)) f = f a.
Proof. unfold gbind, lift. simpl. destruct (f a). reflexivity. Qed.

Lemma gbind_lift_throw {A B} (e : exn) (f : A -> gen B) :
  gbind (lift (inl e)) f = ([], inl e).
Proof. reflexivity. Qed.

Lemma gbind_yield {B} (e : event) (f : unit -> gen B) :
  gbind (yield e) f = (e :: fst (f tt), snd (f tt)).
Proof. reflexivity. Qed.

Lemma gbind_run {A B} (evs : list event) (a : A) (f : A -> gen B) :
  gbind (evs, inr a) f = (evs ++ fst (f a), snd (f a)).
Proof. reflexivity. Qed.

Lemma gbind_fst {A B} (m : gen A) (f : A -> gen B) :
  fst (gbind m f)
  = fst m ++ match snd m with
             | inr a => fst (f a)
             | inl _ => []
             end.
Proof.
  unfold gbind. destruct (snd m); simpl; [rewrite app_nil_r |]; reflexivity.
Qed.

Lemma gbind_inr {A B} (m : gen A) (f : A -> gen B) (evs : list event) (b : B) :
  gbind m f = (evs, inr b) ->
  exists e1 a e2, m = (e1, inr a) /\ f a = (e2, inr b) /\ evs = e1 ++ e2.
Proof.
  unfold gbind. destruct m as [e1 [e | a]]; simpl; intros H.
  - inversion H.
  - destruct (f a) as [e2 r] eqn:Hf. simpl in H. inversion H; subst.
    exists e1, a, e2. repeat split. exact Hf.
Qed.

Lemma gbind_lift_inr {A B} (r : result A) (f : A -> gen B) (evs : list event) (b : B) :
  gbind (lift r) f = (evs, inr b) ->
  exists a, r = inr a /\ f a = (evs, inr b).
Proof.
  destruct r as [e | a]; intros H.
  - inversion H.
  - rewrite gbind_lift_ok in H. exists a. split; [reflexivity | exact H].
Qed.

Tactic Notation "ginv" hyp(H) "as" ident(e1) ident(a) ident(Ha) ident(e2) :=
  let Heq := fresh "Heq" in
  apply gbind_inr in H; destruct H as (e1 & a & e2 & Ha & H & Heq); cbv beta in H;
  try subst.

Tactic Notation "linv" hyp(H) "as" ident(a) ident(Ha) :=
  apply gbind_lift_inr in H; destruct H as (a & Ha & H); cbv beta in H.

(** ** Dictionary keys and the accumulators *)

Lemma pykey_eqb_eq (a b : pykey) : pykey_eqb a b = true <-> a = b.
Proof.
  destruct a, b; simpl; split; intros H; try discriminate; try reflexivity.
  - apply String.eqb_eq in H. subst. reflexivity.
  - inversion H. apply String.eqb_refl.
  - apply Z.eqb_eq in H. subst. reflexivity.
  - inversion H. apply Z.eqb_refl.
  - apply andb_true_iff in H. destruct H as [H He].
    apply andb_true_iff in H. destruct H as [Hs Hm].
    apply Bool.eqb_prop in Hs. apply Pos.eqb_eq in Hm. apply Z.eqb_eq in He.
    subst. reflexivity.
  - inversion H. rewrite Bool.eqb_reflx, Pos.eqb_refl, Z.eqb_refl. reflexivity.
  - apply Bool.eqb_prop in H. subst. reflexivity.
  - inversion H. rewrite Bool.eqb_reflx. reflexivity.
Qed.

Lemma has_key_iff (k : pykey) (v : json) : has_key k v = true <-> key_of v = Some k.
Proof.
  unfold has_key. destruct (key_of v) as [k' |]; split; intros H.
  - apply pykey_eqb_eq in H. subst. reflexivity.
  - inversion H. apply pykey_eqb_eq. reflexivity.
  - discriminate.
  - discriminate.
Qed.

Lemma keys_of_app (a b : list json) : keys_of (a ++ b) = keys_of a ++ keys_of b.
Proof. apply flat_map_app. Qed.

Lemma in_keys_of (k : pykey) (l : list json) :
  In k (keys_of l) <-> exists i, In i l /\ key_of i = Some k.
Proof.
  unfold keys_of. rewrite in_flat_map. split.
  - intros (i & Hi & Hk). exists i. split; [exact Hi |].
    destruct (key_of i) as [k' |]; [| contradiction].
    destruct Hk as [-> | []]. reflexivity.
  - intros (i & Hi & Hk). exists i. split; [exact Hi |].
    rewrite Hk. left. reflexivity.
Qed.

Lemma accs_has_iff (k : pykey) (accs : accumulators) :
  accs_has k accs = true <-> In k (keys_of (map fst accs)).
Proof.
  unfold accs_has. rewrite existsb_exists, in_keys_of. split.
  - intros (entry & Hin & Hk). exists (fst entry). split.
    + apply in_map. exact Hin.
    + apply has_key_iff. exact Hk.
  - intros (i & Hin & Hk). apply in_map_iff in Hin.
    destruct Hin as (entry & <- & Hin). exists entry. split; [exact Hin |].
    apply has_key_iff. exact Hk.
Qed.

Lemma accs_append_indices (k : pykey) (s : string) (accs : accumulators) :
  map fst (accs_append k s accs) = map fst accs.
Proof.
  unfold accs_append. rewrite map_map. apply map_ext.
  intros entry. destruct (has_key k (fst entry)); reflexivity.
Qed.

Lemma accs_append_absent (k : pykey) (s : string) (accs : accumulators) :
  accs_has k accs = false -> accs_append k s accs = accs.
Proof.
  unfold accs_has, accs_append. induction accs as [| entry accs IH]; [reflexivity |].
  cbn [existsb map]. intros H. apply orb_false_iff in H. destruct H as [Hk Hrest].
  rewrite Hk, (IH Hrest). reflexivity.
Qed.

(** ** A tool call seen for the first time (C10) *)

(** C10 (as the code has it): a tool-call fragment (a dict) whose index is
    hashable and not yet in the accumulators, whose [function] is missing
    or a dict and whose [arguments], if any and non-empty, is a string:
    the step yields first
    the [content_block_start] for that index, with the fragment's [id] and
    function [name], each replaced by the empty string when missing, adds
    the accumulator for the index at the end of the dict, and returns
    without raising (so the loop goes on); the only other event is the
    delta for a non-empty argument string. *)
Theorem first_fragment_opens_tool_block :
  forall (accs : accumulators) (d : list (string * json)) (idx : json) (k : pykey),
    dict_get "index" d = Some idx ->
    key_of idx = Some k ->
    accs_has k accs = false ->
    (dict_get "function" d = None \/ exists f, dict_get "function" d = Some (JObj f)) ->
    (forall f a, dict_get "function" d = Some (JObj f) ->
                 dict_get "arguments" f = Some a ->
                 truthy a = true -> exists s, a = JStr s) ->
    let id := match dict_get "id" d with Some v => v | None => JStr "" end in
    let name := match dict_get "function" d with
                | Some (JObj f) => match dict_get "name" f with
                                   | Some v => v | None => JStr "" end
                | _ => JStr ""
                end in
    exists deltas args,
      tool_call_step accs (JObj d)
      = (ToolBlockStart idx id name :: deltas,
         inr (accs ++ [(idx, {| acc_id := id; acc_name := name; acc_args := args |})]))
      /\ (deltas = [] /\ args = ""
          \/ deltas = [InputJsonDelta idx args] /\ args <> "")
      /\ sse_event (ToolBlockStart idx id name)
         = ("content_block_start",
            JObj [("type", JStr "content_block_start");
                  ("index", idx);
                  ("content_block", JObj [("type", JStr "tool_use");
                                          ("id", id);
                                          ("name", name);
                                          ("input", JObj [])])]).
Proof.
  intros accs d idx k Hidx Hkey Hfresh Hfunc Hargs id name.
  assert (Hnew : forall i n a,
             accs_append k a (accs ++ [(idx, {| acc_id := i; acc_name := n;
                                                acc_args := "" |})])
             = accs ++ [(idx, {| acc_id := i; acc_name := n; acc_args := a |})]).
  { intros i n a. assert (Hk : has_key k idx = true) by (apply has_key_iff; exact Hkey).
    unfold accs_append. rewrite map_app. cbn [map fst snd acc_id acc_name acc_args].
    rewrite Hk. f_equal. apply accs_append_absent. exact Hfresh. }
  unfold tool_call_step, py_getitem, py_hash, py_get_default, ok.
  rewrite Hidx, gbind_lift_ok, Hkey, gbind_lift_ok, Hfresh. cbn [negb].
  rewrite !gbind_lift_ok.
  destruct Hfunc as [Hnone | [f Hsome]].
  - subst name. rewrite Hnone. cbn [dict_get]. rewrite ?gbind_lift_ok.
    unfold gbind, yield, gret, lift. cbn [fst snd app truthy String.eqb negb].
    exists [], "". split; [| split; [left; split; reflexivity | reflexivity]].
    reflexivity.
  - subst name. rewrite Hsome. rewrite ?gbind_lift_ok.
    unfold gbind, yield, gret, lift. cbn [fst snd app].
    specialize (Hargs f).
    destruct (dict_get "arguments" f) as [a |] eqn:Ha; cbv beta iota.
    + destruct (truthy a) eqn:Ht.
      * destruct (Hargs a Hsome eq_refl Ht) as [s ->].
        exists [InputJsonDelta idx s], s.
        split; [| split; [right; split; [reflexivity |] | reflexivity]].
        -- cbn [fst snd app]. rewrite Hnew. reflexivity.
        -- intros ->. discriminate Ht.
      * exists [], "". split; [| split; [left; split; reflexivity | reflexivity]].
        reflexivity.
    + exists [], "". split; [| split; [left; split; reflexivity | reflexivity]].
      reflexivity.
Qed.

Lemma first_fragment_opens_tool_block_witness :
  exists deltas args,
    tool_call_step [] (JObj [("index", JInt 1); ("function", JObj [("arguments", JStr "{")])])
    = (ToolBlockStart (JInt 1) (JStr "") (JStr "") :: deltas,
       inr ([] ++ [(JInt 1, {| acc_id := JStr ""; acc_name := JStr "";
                               acc_args := args |})]))
    /\ (deltas = [] /\ args = ""
        \/ deltas = [InputJsonDelta (JInt 1) args] /\ args <> "")
    /\ sse_event (ToolBlockStart (JInt 1) (JStr "") (JStr ""))
       = ("content_block_start",
          JObj [("type", JStr "content_block_start");
                ("index", JInt 1);
                ("content_block", JObj [("type", JStr "tool_use");
                                        ("id", JStr "");
                                        ("name", JStr "");
                                        ("input", JObj [])])]).
Proof.
  refine (first_fragment_opens_tool_block []
            [("index", JInt 1); ("function", JObj [("arguments", JStr "{")])]
            (JInt 1) (KInt 1) eq_refl eq_refl eq_refl _ _).
  - right. exists [("arguments", JStr "{")]. reflexivity.
  - intros f a Hf Ha _. inversion Hf; subst f. inversion Ha; subst a.
    exists "{". reflexivity.
Defined.

(** ** What one tool-call fragment does *)

(** A run of [tool_call_step] that returns: the fragment has a hashable
    index; a start is yielded exactly when the key is new, and then the
    accumulator is appended; a delta is yielded exactly for a non-empty
    argument string. *)
Lemma tool_call_step_inr (accs accs' : accumulators) (fragment : json)
  (evs : list event) :
  tool_call_step accs fragment = (evs, inr accs') ->
  exists idx k starts deltas base,
    py_getitem fragment "index" = inr idx
    /\ key_of idx = Some k
    /\ evs = starts ++ deltas
    /\ (accs_has k accs = true /\ starts = [] /\ base = accs
        \/ accs_has k accs = false
           /\ exists id name,
               starts = [ToolBlockStart idx id name]
               /\ base = accs ++ [(idx, {| acc_id := id; acc_name := name;
                                           acc_args := "" |})])
    /\ (deltas = [] /\ accs' = base
        \/ exists s, deltas = [InputJsonDelta idx s] /\ accs' = accs_append k s base).
Proof.
  intros H. unfold tool_call_step in H.
  linv H as idx Hidx. linv H as k Hk.
  unfold py_hash in Hk. destruct (key_of idx) as [k' |] eqn:Hkey; [| discriminate].
  inversion Hk; subst k'.
  ginv H as starts base Hstarts rest.
  linv H as func Hfunc. linv H as arg_chunk Harg.
  exists idx, k, starts, rest, base.
  split; [exact Hidx |]. split; [exact Hkey |]. split; [reflexivity |].
  split.
  - destruct (accs_has k accs) eqn:Hhas; cbn [negb] in Hstarts.
    + left. inversion Hstarts. repeat split.
    + right. split; [reflexivity |].
      linv Hstarts as func_info Hinfo. linv Hstarts as id Hid. linv Hstarts as name Hname.
      exists id, name. rewrite gbind_yield in Hstarts. cbn [gret fst snd] in Hstarts.
      inversion Hstarts. split; reflexivity.
  - destruct (truthy arg_chunk).
    + destruct arg_chunk; try discriminate H.
      right. exists s. rewrite gbind_yield in H. cbn [gret fst snd] in H.
      inversion H. split; reflexivity.
    + left. inversion H. split; reflexivity.
Qed.

(** ** The shape of the events of the loop *)

Lemma tool_start_indices_app (a b : list event) :
  tool_start_indices (a ++ b) = tool_start_indices a ++ tool_start_indices b.
Proof. apply flat_map_app. Qed.

Lemma started_after_app (started : bool) (a b : list event) :
  started_after started (a ++ b) = started_after (started_after started a) b.
Proof. unfold started_after. rewrite existsb_app, orb_assoc. reflexivity. Qed.

Lemma opened_after_app (opened : list pykey) (a b : list event) :
  opened_after opened (a ++ b) = opened_after (opened_after opened a) b.
Proof.
  unfold opened_after. rewrite tool_start_indices_app, keys_of_app, app_assoc.
  reflexivity.
Qed.

Lemma body_ok_app (a b : list event) :
  forall started opened,
    body_ok started opened a ->
    body_ok (started_after started a) (opened_after opened a) b ->
    body_ok started opened (a ++ b).
Proof.
  induction a as [| e a IH]; intros started opened Ha Hb.
  - unfold started_after, opened_after in Hb. cbn in Hb.
    rewrite orb_false_r, app_nil_r in Hb. exact Hb.
  - destruct e; cbn [app body_ok] in *; try contradiction.
    + destruct Ha as [-> Ha]. split; [reflexivity |].
      apply IH; [exact Ha |]. exact Hb.
    + destruct Ha as [-> Ha]. split; [reflexivity |].
      apply IH; [exact Ha |]. exact Hb.
    + destruct Ha as (k & Hk & Hnew & Ha). exists k. repeat split; try assumption.
      apply IH; [exact Ha |].
      unfold opened_after in *.
      change (tool_start_indices (ToolBlockStart idx id name :: a))
        with (idx :: tool_start_indices a) in Hb.
      change (keys_of (idx :: tool_start_indices a))
        with (match key_of idx with Some k' => [k'] | None => [] end
                ++ keys_of (tool_start_indices a)) in Hb.
      rewrite Hk in Hb. rewrite <- app_assoc. exact Hb.
    + destruct Ha as (k & Hk & Hold & Ha). exists k. repeat split; try assumption.
      apply IH; [exact Ha |]. exact Hb.
Qed.

(** One fragment: the events fit the accumulators, and the accumulators
    afterwards hold the old indices followed by the index just opened. *)
Lemma tool_call_step_body (accs accs' : accumulators) (fragment : json)
  (evs : list event) (started : bool) :
  tool_call_step accs fragment = (evs, inr accs') ->
  body_ok started (keys_of (map fst accs)) evs
  /\ map fst accs' = map fst accs ++ tool_start_indices evs
  /\ existsb is_text_start evs = false
  /\ exists idx k, py_getitem fragment "index" = inr idx
                   /\ key_of idx = Some k
                   /\ In k (keys_of (map fst accs')).
Proof.
  intros H. apply tool_call_step_inr in H.
  destruct H as (idx & k & starts & deltas & base & Hidx & Hkey & -> & Hstarts & Hdeltas).
  assert (Hbase : body_ok started (keys_of (map fst accs)) starts
                  /\ map fst base = map fst accs ++ tool_start_indices starts
                  /\ existsb is_text_start starts = false
                  /\ In k (keys_of (map fst base))).
  { destruct Hstarts as [(Hhas & -> & ->) | (Hhas & id & name & -> & ->)].
    - cbn. rewrite app_nil_r. repeat split. apply accs_has_iff. exact Hhas.
    - cbn [body_ok tool_start_indices flat_map app existsb is_text_start orb].
      repeat split.
      + exists k. repeat split; [exact Hkey |].
        intros Hin. apply accs_has_iff in Hin. rewrite Hin in Hhas. discriminate.
      + rewrite map_app. reflexivity.
      + rewrite map_app, keys_of_app. apply in_or_app. right.
        cbn. rewrite Hkey. left. reflexivity. }
  destruct Hbase as (Hok & Hfst & Htext & Hin).
  assert (Hdel : body_ok (started_after started starts)
                   (opened_after (keys_of (map fst accs)) starts) deltas
                 /\ map fst accs' = map fst base
                 /\ tool_start_indices deltas = []
                 /\ existsb is_text_start deltas = false).
  { unfold opened_after. rewrite <- keys_of_app, <- Hfst.
    destruct Hdeltas as [(-> & ->) | (s & -> & ->)].
    - repeat split.
    - cbn [body_ok]. repeat split.
      + exists k. repeat split; assumption.
      + apply accs_append_indices. }
  destruct Hdel as (Hok' & Hfst' & Hnone & Htext').
  repeat split.
  - apply body_ok_app; assumption.
  - rewrite Hfst', Hfst, tool_start_indices_app, Hnone, app_nil_r. reflexivity.
  - rewrite existsb_app, Htext, Htext'. reflexivity.
  - exists idx, k. rewrite Hfst'. repeat split; assumption.
Qed.

Lemma keys_of_incl_app (a b : list json) (k : pykey) :
  In k (keys_of a) -> In k (keys_of (a ++ b)).
Proof. intros H. rewrite keys_of_app. apply in_or_app. left. exact H. Qed.

(** The loop over the fragments of one delta. *)
Lemma tool_calls_loop_body (fragments : list json) :
  forall (accs accs' : accumulators) (evs : list event) (started : bool),
    tool_calls_loop accs fragments = (evs, inr accs') ->
    body_ok started (keys_of (map fst accs)) evs
    /\ map fst accs' = map fst accs ++ tool_start_indices evs
    /\ existsb is_text_start evs = false
    /\ forall idx, In idx (fragment_indices fragments) ->
                   exists k, key_of idx = Some k /\ In k (keys_of (map fst accs')).
Proof.
  induction fragments as [| fragment fragments IH]; intros accs accs' evs started H.
  - inversion H; subst. cbn. rewrite app_nil_r. repeat split. intros idx [].
  - cbn [tool_calls_loop] in H.
    ginv H as evs1 accs1 Hstep evs2.
    apply tool_call_step_body with (started := started) in Hstep.
    destruct Hstep as (Hok1 & Hfst1 & Htext1 & idx1 & k1 & Hidx1 & Hkey1 & Hin1).
    apply IH with (started := started) in H.
    destruct H as (Hok2 & Hfst2 & Htext2 & Hall).
    repeat split.
    + apply body_ok_app; [exact Hok1 |].
      unfold started_after, opened_after. rewrite Htext1, orb_false_r.
      rewrite <- keys_of_app, <- Hfst1. exact Hok2.
    + rewrite Hfst2, Hfst1, tool_start_indices_app, app_assoc. reflexivity.
    + rewrite existsb_app, Htext1, Htext2. reflexivity.
    + intros idx Hin. cbn [fragment_indices flat_map] in Hin.
      apply in_app_or in Hin. destruct Hin as [Hin | Hin].
      * rewrite Hidx1 in Hin. destruct Hin as [<- | []].
        exists k1. split; [exact Hkey1 |].
        rewrite Hfst2. apply keys_of_incl_app. exact Hin1.
      * apply Hall. exact Hin.
Qed.

(** The tool-call fragments of a chunk, once the reads of the loop body
    have gone through. *)
Lemma chunk_tool_calls_read (chunk choices choice delta : json) :
  py_get_default chunk "choices" (JArr [JObj []]) = inr choices ->
  py_getitem0 choices = inr choice ->
  py_get_default choice "delta" (JObj []) = inr delta ->
  chunk_tool_calls chunk
  = if truthy delta then
      match py_get delta "tool_calls" with
      | inr tool_calls =>
          if truthy tool_calls then
            match py_iter tool_calls with
            | inr l => l
            | inl _ => []
            end
          else []
      | inl _ => []
      end
    else [].
Proof.
  intros Hchoices Hchoice Hdelta. unfold chunk_tool_calls.
  rewrite Hchoices. cbn [rbind]. rewrite Hchoice. cbn [rbind].
  rewrite Hdelta. cbn [rbind].
  destruct (truthy delta); [| reflexivity].
  destruct (py_get delta "tool_calls") as [e | tool_calls]; [reflexivity |].
  cbn [rbind]. destruct (truthy tool_calls); reflexivity.
Qed.

(** One decoded chunk. *)
Lemma chunk_step_body (st st' : stream_state) (chunk : json) (evs : list event) :
  chunk_step st chunk = (evs, inr st') ->
  body_ok (text_block_started st) (keys_of (map fst (tool_call_accumulators st))) evs
  /\ map fst (tool_call_accumulators st')
     = map fst (tool_call_accumulators st) ++ tool_start_indices evs
  /\ text_block_started st' = started_after (text_block_started st) evs
  /\ last_chunk st' = last_chunk st
  /\ forall idx, In idx (fragment_indices (chunk_tool_calls chunk)) ->
                 exists k, key_of idx = Some k
                           /\ In k (keys_of (map fst (tool_call_accumulators st'))).
Proof.
  intros H. unfold chunk_step in H.
  linv H as u Hu. linv H as choices Hchoices. linv H as choice Hchoice.
  linv H as delta Hdelta.
  rewrite (chunk_tool_calls_read chunk choices choice delta Hchoices Hchoice Hdelta).
  destruct (truthy delta); cbn [negb] in H.
  - linv H as text Htext.
    ginv H as text_evs started' Hstarted rest.
    linv H as tool_calls Htools.
    ginv H as tool_evs accs Haccs tail.
    inversion H; subst tail st'. clear H.
    cbn [text_block_started tool_call_accumulators last_chunk].
    rewrite app_nil_r. rewrite Htools.
    assert (Htextpart : body_ok (text_block_started st)
                          (keys_of (map fst (tool_call_accumulators st))) text_evs
                        /\ started' = started_after (text_block_started st) text_evs
                        /\ tool_start_indices text_evs = []).
    { unfold started_after.
      destruct (truthy text).
      - destruct (text_block_started st) eqn:Hst; cbn [negb] in Hstarted;
          rewrite ?gbind_ret, ?gbind_yield in Hstarted;
          cbn [fst snd gret yield gbind app] in Hstarted; inversion Hstarted;
          cbn; repeat split.
      - inversion Hstarted. cbn. rewrite orb_false_r. repeat split. }
    destruct Htextpart as (Hok1 & Hst1 & Hnone1).
    assert (Htoolpart : body_ok started'
                          (keys_of (map fst (tool_call_accumulators st))) tool_evs
                        /\ map fst accs
                           = map fst (tool_call_accumulators st) ++ tool_start_indices tool_evs
                        /\ existsb is_text_start tool_evs = false
                        /\ forall idx,
                            In idx (fragment_indices
                                      (if truthy tool_calls
                                       then match py_iter tool_calls with
                                            | inr l => l
                                            | inl _ => []
                                            end
                                       else [])) ->
                            exists k, key_of idx = Some k /\ In k (keys_of (map fst accs))).
    { destruct (truthy tool_calls).
      - linv Haccs as items Hitems. rewrite Hitems.
        apply tool_calls_loop_body with (started := started'). exact Haccs.
      - inversion Haccs. cbn. rewrite app_nil_r. repeat split. intros idx []. }
    destruct Htoolpart as (Hok2 & Hfst2 & Htext2 & Hall).
    repeat split.
    + apply body_ok_app; [exact Hok1 |].
      unfold opened_after. rewrite Hnone1. cbn [keys_of flat_map].
      rewrite app_nil_r, <- Hst1. exact Hok2.
    + rewrite tool_start_indices_app, Hnone1. exact Hfst2.
    + rewrite started_after_app, <- Hst1. unfold started_after.
      rewrite Htext2, orb_false_r. reflexivity.
    + exact Hall.
  - inversion H; subst evs st'. cbn. unfold started_after. cbn.
    rewrite app_nil_r, orb_false_r.
    repeat split. intros idx [].
Qed.

Lemma last_cons {A} (a d : A) (l : list A) : last (a :: l) d = last l a.
Proof.
  revert a d. induction l as [| b l IH]; intros a d; [reflexivity |].
  change (last (a :: b :: l) d) with (last (b :: l) d).
  rewrite (IH b d), (IH b a). reflexivity.
Qed.

(** The whole loop. *)
Lemma stream_loop_body (lines : list line) :
  forall (st st' : stream_state) (evs : list event),
    stream_loop st lines = (evs, inr st') ->
    body_ok (text_block_started st) (keys_of (map fst (tool_call_accumulators st))) evs
    /\ map fst (tool_call_accumulators st')
       = map fst (tool_call_accumulators st) ++ tool_start_indices evs
    /\ text_block_started st' = started_after (text_block_started st) evs
    /\ last_chunk st' = last (consumed lines) (last_chunk st)
    /\ forall idx, In idx (stream_tool_indices lines) ->
                   exists k, key_of idx = Some k
                             /\ In k (keys_of (map fst (tool_call_accumulators st'))).
Proof.
  assert (Hstop : forall st : stream_state,
             body_ok (text_block_started st)
               (keys_of (map fst (tool_call_accumulators st))) []
             /\ map fst (tool_call_accumulators st)
                = map fst (tool_call_accumulators st) ++ tool_start_indices []
             /\ text_block_started st = started_after (text_block_started st) []).
  { intros st. unfold started_after. cbn. rewrite app_nil_r, orb_false_r.
    repeat split. }
  induction lines as [| l lines IH]; intros st st' evs H.
  - inversion H; subst. destruct (Hstop st') as (H1 & H2 & H3).
    repeat split; try assumption. intros idx [].
  - destruct l as [| | | chunk | raised]; cbn [stream_loop] in H.
    + apply IH in H. exact H.
    + inversion H; subst. destruct (Hstop st') as (H1 & H2 & H3).
      repeat split; try assumption. intros idx [].
    + apply IH in H. exact H.
    + ginv H as evs1 st1 Hstep evs2.
      apply chunk_step_body in Hstep.
      destruct Hstep as (Hok1 & Hfst1 & Hst1 & Hlast1 & Hall1).
      cbn [set_last_chunk text_block_started tool_call_accumulators last_chunk] in *.
      apply IH in H. destruct H as (Hok2 & Hfst2 & Hst2 & Hlast2 & Hall2).
      repeat split.
      * apply body_ok_app; [exact Hok1 |].
        unfold opened_after. rewrite <- keys_of_app, <- Hfst1, <- Hst1. exact Hok2.
      * rewrite Hfst2, Hfst1, tool_start_indices_app, app_assoc. reflexivity.
      * rewrite started_after_app, <- Hst1. exact Hst2.
      * cbn [consumed]. rewrite last_cons, Hlast2, Hlast1. reflexivity.
      * intros idx Hin. unfold stream_tool_indices in Hin.
        cbn [consumed flat_map] in Hin. apply in_app_or in Hin.
        destruct Hin as [Hin | Hin].
        -- destruct (Hall1 idx Hin) as (k & Hk & Hink).
           exists k. split; [exact Hk |].
           rewrite Hfst2. apply keys_of_incl_app. exact Hink.
        -- apply Hall2. exact Hin.
    + destruct raised; cbn [caught] in H; try discriminate H.
      apply IH in H. exact H.
Qed.

(** ** The end of the stream *)

Lemma yield_all_run (evs : list event) : yield_all evs = (evs, inr tt).
Proof.
  induction evs as [| e evs IH]; [reflexivity |].
  cbn [yield_all]. rewrite gbind_yield, IH. reflexivity.
Qed.

Lemma close_blocks_run (st : stream_state) : close_blocks st = (closing st, inr tt).
Proof.
  unfold close_blocks, closing.
  destruct (tool_call_accumulators st) as [| entry rest].
  - destruct (text_block_started st); reflexivity.
  - rewrite yield_all_run. rewrite map_map. reflexivity.
Qed.

(** A completed run: the two opening events, the events of the loop, the
    stops, and the two closing events. *)
Lemma stream_generator_inr (random_part : string) (payload : list (string * json))
  (reply : stream_reply) (evs : list event) (u : unit) :
  stream_generator random_part payload reply = (evs, inr u) ->
  exists model body st stop_reason output_tokens,
    evs = MessageStart (generate_message_id random_part) model :: Ping
            :: body ++ closing st ++ [MessageDelta stop_reason output_tokens; MessageStop]
    /\ stream_loop initial_state (stream_lines reply) = (body, inr st)
    /\ map_stop_reason (chunk_finish_reason (last_chunk st)) = inr stop_reason.
Proof.
  intros H. unfold stream_generator in H. cbv zeta in H.
  linv H as model Hmodel.
  ginv H as e1 u1 Hstart e2. inversion Hstart; subst e1.
  ginv H as e3 u3 Hping e4. inversion Hping; subst e3.
  ginv H as e5 u5 Hstatus e6.
  assert (e5 = []) as -> by (destruct (stream_ok reply); inversion Hstatus; reflexivity).
  ginv H as body st Hloop e7.
  unfold stream_finish in H.
  linv H as choices Hchoices. linv H as choice Hchoice.
  linv H as finish_reason Hfinish. linv H as stop_reason Hstop.
  ginv H as e8 u8 Hclose e9. rewrite close_blocks_run in Hclose.
  inversion Hclose; subst e8.
  linv H as output_tokens Htokens.
  rewrite gbind_yield in H. cbn [yield fst snd] in H. inversion H; subst e9.
  exists model, body, st, stop_reason, output_tokens.
  repeat split.
  - exact Hloop.
  - unfold chunk_finish_reason. rewrite Hchoices. cbn [rbind]. rewrite Hchoice.
    cbn [rbind]. rewrite Hfinish. exact Hstop.
Qed.

Lemma body_ok_events (evs : list event) :
  forall started opened, body_ok started opened evs -> Forall (fun e => body_event e = true) evs.
Proof.
  induction evs as [| e evs IH]; intros started opened H; [constructor |].
  destruct e; cbn [body_ok] in H; try contradiction.
  - destruct H as [_ H]. constructor; [reflexivity | exact (IH _ _ H)].
  - destruct H as [_ H]. constructor; [reflexivity | exact (IH _ _ H)].
  - destruct H as (k & _ & _ & H). constructor; [reflexivity | exact (IH _ _ H)].
  - destruct H as (k & _ & _ & H). constructor; [reflexivity | exact (IH _ _ H)].
Qed.

Lemma body_events_no_stop (evs : list event) :
  Forall (fun e => body_event e = true) evs -> stop_indices evs = [].
Proof.
  induction 1 as [| e evs He _ IH]; [reflexivity |].
  cbn [stop_indices flat_map]. destruct e; try discriminate He; exact IH.
Qed.

(** ** Closing the blocks (C3) *)

(** C3 (as the code has it): a run that completes yields [message_start],
    [ping], the starts and deltas of the loop (no stop among them), then
    the stops, then [message_delta] and [message_stop].  If a tool-use
    block was started, the stops are exactly one per started tool-use
    block, in the order in which the blocks were started, and the text
    block gets no stop of its own; otherwise there is a single stop for
    index 0 if the text block was started, and no stop at all if it was
    not.  So at most one of the two branches emits. *)
Theorem stops_close_started_blocks :
  forall (random_part : string) (payload : list (string * json))
         (reply : stream_reply) (evs : list event),
    stream_generator random_part payload reply = (evs, inr tt) ->
    exists model body stop_reason output_tokens,
      evs = MessageStart (generate_message_id random_part) model :: Ping
              :: body ++ closing_for body
                   ++ [MessageDelta stop_reason output_tokens; MessageStop]
      /\ stop_indices body = []
      /\ stop_indices evs
         = match tool_start_indices evs with
           | [] => if existsb is_text_start evs then [JInt 0] else []
           | indices => indices
           end.
Proof.
  intros random_part payload reply evs H.
  apply stream_generator_inr in H.
  destruct H as (model & body & st & stop_reason & output_tokens & -> & Hloop & _).
  apply stream_loop_body in Hloop.
  destruct Hloop as (Hok & Hfst & Hst & _ & _).
  cbn [initial_state text_block_started tool_call_accumulators map app] in Hok, Hfst, Hst.
  unfold started_after in Hst. cbn [orb] in Hst.
  assert (Hclosing : closing st = closing_for body).
  { unfold closing, closing_for. rewrite <- Hfst, Hst.
    destruct (tool_call_accumulators st); reflexivity. }
  assert (Hnostop : stop_indices body = []).
  { apply body_events_no_stop. apply body_ok_events in Hok. exact Hok. }
  exists model, body, stop_reason, output_tokens.
  rewrite Hclosing. repeat split; [exact Hnostop |].
  assert (Hstops : forall l, stop_indices (map BlockStop l) = l).
  { induction l as [| i l IHl]; [reflexivity |]. cbn. f_equal. exact IHl. }
  assert (Hstarts : forall l, tool_start_indices (map BlockStop l) = []).
  { induction l as [| i l IHl]; [reflexivity |]. exact IHl. }
  assert (Htexts : forall l, existsb is_text_start (map BlockStop l) = false).
  { induction l as [| i l IHl]; [reflexivity |]. exact IHl. }
  set (tail := [MessageDelta stop_reason output_tokens; MessageStop]).
  change (stop_indices (MessageStart (generate_message_id random_part) model :: Ping
                          :: body ++ closing_for body ++ tail))
    with (stop_indices (body ++ closing_for body ++ tail)).
  change (tool_start_indices (MessageStart (generate_message_id random_part) model :: Ping
                                :: body ++ closing_for body ++ tail))
    with (tool_start_indices (body ++ closing_for body ++ tail)).
  change (existsb is_text_start (MessageStart (generate_message_id random_part) model
                                   :: Ping :: body ++ closing_for body ++ tail))
    with (existsb is_text_start (body ++ closing_for body ++ tail)).
  unfold stop_indices at 1. rewrite !flat_map_app.
  fold (stop_indices body). fold (stop_indices (closing_for body)).
  rewrite Hnostop, !tool_start_indices_app, !existsb_app.
  unfold closing_for.
  destruct (tool_start_indices body) as [| i l] eqn:Hidx.
  - destruct (existsb is_text_start body); reflexivity.
  - rewrite Hstops, Hstarts. cbn. rewrite app_nil_r. reflexivity.
Qed.

Lemma stops_close_started_blocks_witness :
  exists model body stop_reason output_tokens,
    [MessageStart "msg_r" (JStr "my-model"); Ping;
     ToolBlockStart (JInt 2) (JStr "call_b") (JStr "second");
     InputJsonDelta (JInt 2) "{}";
     ToolBlockStart (JInt 1) (JStr "call_a") (JStr "first");
     InputJsonDelta (JInt 1) "{}";
     BlockStop (JInt 2); BlockStop (JInt 1);
     MessageDelta "end_turn" (JInt 0); MessageStop]
    = MessageStart (generate_message_id "r") model :: Ping
        :: body ++ closing_for body
             ++ [MessageDelta stop_reason output_tokens; MessageStop]
    /\ stop_indices body = []
    /\ [JInt 2; JInt 1]
       = match tool_start_indices
                 [MessageStart "msg_r" (JStr "my-model"); Ping;
                  ToolBlockStart (JInt 2) (JStr "call_b") (JStr "second");
                  InputJsonDelta (JInt 2) "{}";
                  ToolBlockStart (JInt 1) (JStr "call_a") (JStr "first");
                  InputJsonDelta (JInt 1) "{}";
                  BlockStop (JInt 2); BlockStop (JInt 1);
                  MessageDelta "end_turn" (JInt 0); MessageStop] with
         | [] => []
         | indices => indices
         end.
Proof.
  exact (stops_close_started_blocks "r" sample_payload tools_two_then_one _ eq_refl).
Defined.

(** ** The stop reason (C5) *)

(** C5 (as the code has it): a run that completes ends with one
    [message_delta] followed by [message_stop], and its stop reason is the
    mapping of the finish reason of the last chunk that was decoded before
    the terminator, whether that reason is present or not ([end_turn] when
    no chunk was decoded). *)
Theorem stop_reason_of_last_chunk :
  forall (random_part : string) (payload : list (string * json))
         (reply : stream_reply) (evs : list event),
    stream_generator random_part payload reply = (evs, inr tt) ->
    exists front stop_reason output_tokens,
      evs = front ++ [MessageDelta stop_reason output_tokens; MessageStop]
      /\ Forall (fun e => is_message_delta e = false) front
      /\ map_stop_reason (chunk_finish_reason (last_parsed_chunk (stream_lines reply)))
         = inr stop_reason.
Proof.
  intros random_part payload reply evs H.
  apply stream_generator_inr in H.
  destruct H as (model & body & st & stop_reason & output_tokens & -> & Hloop & Hstop).
  apply stream_loop_body in Hloop.
  destruct Hloop as (Hok & _ & _ & Hlast & _).
  exists (MessageStart (generate_message_id random_part) model :: Ping
            :: body ++ closing st), stop_reason, output_tokens.
  repeat split.
  - cbn [app]. rewrite <- app_assoc. reflexivity.
  - constructor; [reflexivity |]. constructor; [reflexivity |].
    apply Forall_app. split.
    + apply body_ok_events in Hok.
      eapply Forall_impl; [| exact Hok].
      intros e He. destruct e; try discriminate He; reflexivity.
    + unfold closing. destruct (tool_call_accumulators st) as [| entry rest].
      * destruct (text_block_started st); repeat constructor.
      * apply Forall_forall. intros e He. apply in_map_iff in He.
        destruct He as (i & <- & _). reflexivity.
  - unfold last_parsed_chunk. cbn [initial_state last_chunk] in Hlast.
    rewrite <- Hlast. exact Hstop.
Qed.

Lemma stop_reason_of_last_chunk_witness :
  exists front stop_reason output_tokens,
    [MessageStart "msg_r" (JStr "my-model"); Ping;
     TextBlockStart; TextDelta (JStr "Hi");
     BlockStop (JInt 0);
     MessageDelta "end_turn" (JInt 7); MessageStop]
    = front ++ [MessageDelta stop_reason output_tokens; MessageStop]
    /\ Forall (fun e => is_message_delta e = false) front
    /\ map_stop_reason (chunk_finish_reason
                          (last_parsed_chunk (stream_lines length_then_usage)))
       = inr stop_reason.
Proof.
  exact (stop_reason_of_last_chunk "r" sample_payload length_then_usage _ eq_refl).
Defined.

(** ** The life of a tool-use block (C2) *)

(** Once a key is open, the only tool events that carry it are deltas. *)
Lemma body_ok_opened (k : pykey) (evs : list event) :
  forall started opened,
    body_ok started opened evs ->
    In k opened ->
    Forall (fun e => text_event e = false -> for_index k e = true -> is_delta e = true) evs.
Proof.
  induction evs as [| e evs IH]; intros started opened H Hin; [constructor |].
  destruct e; cbn [body_ok] in H; try contradiction.
  - destruct H as [_ H]. constructor; [discriminate | exact (IH _ _ H Hin)].
  - destruct H as [_ H]. constructor; [discriminate | exact (IH _ _ H Hin)].
  - destruct H as (k' & Hk' & Hnew & H). constructor.
    + intros _ Hfor. change (has_key k idx = true) in Hfor.
      apply has_key_iff in Hfor. rewrite Hfor in Hk'. inversion Hk'; subst k'.
      contradiction.
    + apply (IH _ _ H). apply in_or_app. left. exact Hin.
  - destruct H as (k' & _ & _ & H). constructor; [reflexivity | exact (IH _ _ H Hin)].
Qed.

(** A key that gets opened in [evs]: the events split at its start; no
    tool event before it carries the key, and after it only deltas do. *)
Lemma body_ok_split (k : pykey) (evs : list event) :
  forall started opened,
    body_ok started opened evs ->
    ~ In k opened ->
    In k (keys_of (tool_start_indices evs)) ->
    exists pre idx id name post,
      evs = pre ++ ToolBlockStart idx id name :: post
      /\ key_of idx = Some k
      /\ Forall (fun e => text_event e = false -> for_index k e = false) pre
      /\ Forall (fun e => text_event e = false -> for_index k e = true -> is_delta e = true)
           post.
Proof.
  induction evs as [| e evs IH]; intros started opened H Hnew Hin; [contradiction |].
  destruct e; cbn [body_ok] in H; try contradiction.
  - destruct H as [_ H].
    destruct (IH _ _ H Hnew Hin) as (pre & idx & id & name & post & -> & Hk & Hpre & Hpost).
    exists (TextBlockStart :: pre), idx, id, name, post.
    repeat split; try assumption. constructor; [discriminate | exact Hpre].
  - destruct H as [_ H].
    destruct (IH _ _ H Hnew Hin) as (pre & idx & id & name & post & -> & Hk & Hpre & Hpost).
    exists (TextDelta text :: pre), idx, id, name, post.
    repeat split; try assumption. constructor; [discriminate | exact Hpre].
  - destruct H as (k' & Hk' & Hfresh & H).
    destruct (pykey_eqb k k') eqn:Heq.
    + apply pykey_eqb_eq in Heq. subst k'.
      exists [], idx, id, name, evs. repeat split; [exact Hk' | constructor |].
      apply (body_ok_opened k evs _ _ H). apply in_or_app. right. left. reflexivity.
    + assert (Hne : k <> k').
      { intros ->. rewrite (proj2 (pykey_eqb_eq k' k') eq_refl) in Heq. discriminate. }
      change (tool_start_indices (ToolBlockStart idx id name :: evs))
        with (idx :: tool_start_indices evs) in Hin.
      change (keys_of (idx :: tool_start_indices evs))
        with (match key_of idx with Some x => [x] | None => [] end
                ++ keys_of (tool_start_indices evs)) in Hin.
      rewrite Hk' in Hin. destruct Hin as [Hin | Hin]; [congruence |].
      assert (Hnew' : ~ In k (opened ++ [k'])).
      { intros Hx. apply in_app_or in Hx. destruct Hx as [Hx | [Hx | []]];
          [contradiction | congruence]. }
      destruct (IH _ _ H Hnew' Hin)
        as (pre & idx' & id' & name' & post & -> & Hk & Hpre & Hpost).
      exists (ToolBlockStart idx id name :: pre), idx', id', name', post.
      repeat split; try assumption. constructor; [| exact Hpre].
      intros _. change (has_key k idx = false). unfold has_key. rewrite Hk'. exact Heq.
  - destruct H as (k' & Hk' & Hold & H).
    destruct (IH _ _ H Hnew Hin) as (pre & idx' & id' & name' & post & -> & Hk & Hpre & Hpost).
    exists (InputJsonDelta idx partial_json :: pre), idx', id', name', post.
    repeat split; try assumption. constructor; [| exact Hpre].
    intros _. change (has_key k idx = false). unfold has_key. rewrite Hk'.
    destruct (pykey_eqb k k') eqn:Heq; [| reflexivity].
    apply pykey_eqb_eq in Heq. subst k'. contradiction.
Qed.

(** If the text block is never started, the loop yields no text event. *)
Lemma body_ok_no_text (evs : list event) :
  forall opened,
    body_ok false opened evs ->
    ~ In TextBlockStart evs ->
    Forall (fun e => text_event e = false) evs.
Proof.
  induction evs as [| e evs IH]; intros opened H Hnone; [constructor |].
  assert (Hrest : ~ In TextBlockStart evs) by (intros Hx; apply Hnone; right; exact Hx).
  destruct e; cbn [body_ok] in H; try contradiction.
  - exfalso. apply Hnone. left. reflexivity.
  - destruct H as [Hs _]. discriminate Hs.
  - destruct H as (k & _ & _ & H). constructor; [reflexivity | exact (IH _ H Hrest)].
  - destruct H as (k & _ & _ & H). constructor; [reflexivity | exact (IH _ H Hrest)].
Qed.

Lemma start_indices_not_for (k : pykey) (evs : list event) :
  Forall (fun e => for_index k e = true -> is_delta e = true) evs ->
  Forall (fun i => has_key k i = false) (tool_start_indices evs).
Proof.
  induction 1 as [| e evs He _ IH]; [constructor |].
  destruct e; try exact IH.
  change (tool_start_indices (ToolBlockStart idx id name :: evs))
    with (idx :: tool_start_indices evs).
  constructor; [| exact IH].
  destruct (has_key k idx) eqn:Hk; [| reflexivity].
  specialize (He Hk). discriminate He.
Qed.

Lemma stops_not_for (k : pykey) (indices : list json) :
  Forall (fun i => has_key k i = false) indices ->
  Forall (fun e => for_index k e = false) (map BlockStop indices).
Proof.
  induction 1 as [| i indices Hi _ IH]; [constructor |].
  constructor; [exact Hi | exact IH].
Qed.

(** C2 (as the code has it): on a run that completes, take a tool-call
    index of the consumed fragments, with key [k], that does not collide
    with a started text block (either [k] is not 0, or no text block was
    started).  Then the events split as [pre ++ s :: mid ++ t :: post]
    where [s] is a [content_block_start] for [k], [t] a
    [content_block_stop] for [k], no event of [pre] or [post] carries [k],
    and every event of [mid] that carries [k] is a [content_block_delta]:
    one start, then the deltas, then one stop. *)
Theorem tool_block_start_deltas_stop :
  forall (random_part : string) (payload : list (string * json))
         (reply : stream_reply) (evs : list event) (idx : json) (k : pykey),
    stream_generator random_part payload reply = (evs, inr tt) ->
    In idx (stream_tool_indices (stream_lines reply)) ->
    key_of idx = Some k ->
    (k = KInt 0 -> ~ In TextBlockStart evs) ->
    exists pre s mid t post,
      evs = pre ++ s :: mid ++ t :: post
      /\ is_start s = true /\ for_index k s = true /\ is_tool_event s = true
      /\ is_stop t = true /\ for_index k t = true
      /\ Forall (fun e => for_index k e = false) pre
      /\ Forall (fun e => for_index k e = true -> is_delta e = true) mid
      /\ Forall (fun e => for_index k e = false) post.
Proof.
  intros random_part payload reply evs idx k H Hidx Hkey Hzero.
  apply stream_generator_inr in H.
  destruct H as (model & body & st & stop_reason & output_tokens & -> & Hloop & _).
  apply stream_loop_body in Hloop.
  destruct Hloop as (Hok & Hfst & _ & _ & Hall).
  cbn [initial_state text_block_started tool_call_accumulators map app keys_of flat_map]
    in Hok, Hfst.
  destruct (Hall idx Hidx) as (k' & Hk' & Hin).
  rewrite Hkey in Hk'. inversion Hk'; subst k'. clear Hk'.
  rewrite Hfst in Hin.
  destruct (body_ok_split k body false [] Hok (fun x => x) Hin)
    as (bpre & i & id & name & bpost & Hbody & Hi & Hpre & Hpost).
  assert (Htext : Forall (fun e => text_event e = true -> for_index k e = false) body).
  { destruct (pykey_eqb k (KInt 0)) eqn:Hz.
    - apply pykey_eqb_eq in Hz.
      assert (Hnone : ~ In TextBlockStart body).
      { intros Hx. apply (Hzero Hz). right. right. apply in_or_app. left. exact Hx. }
      eapply Forall_impl; [| exact (body_ok_no_text body [] Hok Hnone)].
      intros e He Ht. rewrite He in Ht. discriminate.
    - apply Forall_forall. intros e _ Ht.
      destruct e; try discriminate Ht; exact Hz. }
  rewrite Hbody in Htext. apply Forall_app in Htext. destruct Htext as [Htpre Htpost].
  apply Forall_cons_iff in Htpost. destruct Htpost as [_ Htpost].
  assert (Hbpre : Forall (fun e => for_index k e = false) bpre).
  { apply Forall_forall. intros e He.
    rewrite Forall_forall in Hpre, Htpre.
    destruct (text_event e) eqn:Ht; [apply Htpre | apply Hpre]; assumption. }
  assert (Hbpost : Forall (fun e => for_index k e = true -> is_delta e = true) bpost).
  { apply Forall_forall. intros e He Hfor.
    rewrite Forall_forall in Hpost, Htpost.
    destruct (text_event e) eqn:Ht.
    - rewrite (Htpost e He Ht) in Hfor. discriminate.
    - apply Hpost; assumption. }
  assert (Hclosing : closing st
                     = map BlockStop (tool_start_indices bpre)
                         ++ BlockStop i :: map BlockStop (tool_start_indices bpost)).
  { unfold closing. rewrite Hfst.
    destruct (tool_call_accumulators st) as [| entry rest].
    - rewrite <- Hfst in Hin. contradiction.
    - rewrite Hbody, tool_start_indices_app, map_app. reflexivity. }
  assert (Hipre : Forall (fun e => for_index k e = false)
                    (map BlockStop (tool_start_indices bpre))).
  { apply stops_not_for. apply start_indices_not_for.
    eapply Forall_impl; [| exact Hbpre].
    intros e He Hfor. rewrite He in Hfor. discriminate. }
  assert (Hipost : Forall (fun e => for_index k e = false)
                     (map BlockStop (tool_start_indices bpost))).
  { apply stops_not_for. apply start_indices_not_for. exact Hbpost. }
  exists (MessageStart (generate_message_id random_part) model :: Ping :: bpre),
    (ToolBlockStart i id name),
    (bpost ++ map BlockStop (tool_start_indices bpre)),
    (BlockStop i),
    (map BlockStop (tool_start_indices bpost)
       ++ [MessageDelta stop_reason output_tokens; MessageStop]).
  assert (Hki : has_key k i = true) by (apply has_key_iff; exact Hi).
  split.
  { rewrite Hclosing, Hbody. cbn [app]. do 2 f_equal.
    repeat (rewrite <- app_assoc; cbn [app]). reflexivity. }
  split; [reflexivity |]. split; [exact Hki |]. split; [reflexivity |].
  split; [reflexivity |]. split; [exact Hki |].
  split; [| split].
  - constructor; [reflexivity |]. constructor; [reflexivity | exact Hbpre].
  - apply Forall_app. split; [exact Hbpost |].
    eapply Forall_impl; [| exact Hipre].
    intros e He Hfor. rewrite He in Hfor. discriminate.
  - apply Forall_app. split; [exact Hipost |].
    constructor; [reflexivity |]. constructor; [reflexivity | constructor].
Qed.

Lemma tool_block_start_deltas_stop_witness :
  exists pre s mid t post,
    [MessageStart "msg_r" (JStr "my-model"); Ping;
     TextBlockStart; TextDelta (JStr "Hi");
     ToolBlockStart (JInt 1) (JStr "call_a") (JStr "first");
     InputJsonDelta (JInt 1) "{";
     ToolBlockStart (JInt 2) (JStr "call_b") (JStr "second");
     InputJsonDelta (JInt 2) "{}";
     InputJsonDelta (JInt 1) "}";
     BlockStop (JInt 1); BlockStop (JInt 2);
     MessageDelta "end_turn" (JInt 0); MessageStop]
    = pre ++ s :: mid ++ t :: post
    /\ is_start s = true /\ for_index (KInt 1) s = true /\ is_tool_event s = true
    /\ is_stop t = true /\ for_index (KInt 1) t = true
    /\ Forall (fun e => for_index (KInt 1) e = false) pre
    /\ Forall (fun e => for_index (KInt 1) e = true -> is_delta e = true) mid
    /\ Forall (fun e => for_index (KInt 1) e = false) post.
Proof.
  refine (tool_block_start_deltas_stop "r" sample_payload text_and_two_tools _
            (JInt 1) (KInt 1) eq_refl _ eq_refl _).
  - left. reflexivity.
  - intros H. discriminate H.
Defined.

(** ** Tool events keep the backend's index (C4) *)

Lemma Forall_gbind {A B} (P : event -> Prop) (m : gen A) (f : A -> gen B) :
  Forall P (fst m) ->
  (forall a, snd m = inr a -> Forall P (fst (f a))) ->
  Forall P (fst (gbind m f)).
Proof.
  intros Hm Hf. rewrite gbind_fst. apply Forall_app. split; [exact Hm |].
  destruct (snd m) as [e | a]; [constructor | apply Hf; reflexivity].
Qed.

(** Whatever the outcome, the events of one fragment are tool events that
    carry the fragment's own index. *)
Lemma tool_call_step_events (accs : accumulators) (fragment : json) :
  Forall (fun e => is_tool_event e = true
                   /\ exists i, event_index e = Some i
                                /\ py_getitem fragment "index" = inr i)
    (fst (tool_call_step accs fragment)).
Proof.
  unfold tool_call_step.
  apply Forall_gbind; [apply Forall_nil | intros idx Hidx]. cbn [lift snd] in Hidx.
  apply Forall_gbind; [apply Forall_nil | intros k _].
  apply Forall_gbind.
  - destruct (negb (accs_has k accs)); [| apply Forall_nil].
    apply Forall_gbind; [apply Forall_nil | intros func_info _].
    apply Forall_gbind; [apply Forall_nil | intros id _].
    apply Forall_gbind; [apply Forall_nil | intros name _].
    apply Forall_gbind; [| intros; apply Forall_nil].
    constructor; [| constructor].
    split; [reflexivity |]. exists idx. split; [reflexivity | exact Hidx].
  - intros accs1 _.
    apply Forall_gbind; [apply Forall_nil | intros func _].
    apply Forall_gbind; [apply Forall_nil | intros arg_chunk _].
    destruct (truthy arg_chunk); [| apply Forall_nil].
    destruct arg_chunk; try apply Forall_nil.
    apply Forall_gbind; [| intros; apply Forall_nil].
    constructor; [| constructor].
    split; [reflexivity |]. exists idx. split; [reflexivity | exact Hidx].
Qed.

Lemma tool_calls_loop_events (fragments : list json) :
  forall accs : accumulators,
    Forall (fun e => is_tool_event e = true
                     /\ exists i, event_index e = Some i
                                  /\ In i (fragment_indices fragments))
      (fst (tool_calls_loop accs fragments)).
Proof.
  induction fragments as [| fragment fragments IH]; intros accs; [constructor |].
  cbn [tool_calls_loop]. apply Forall_gbind.
  - eapply Forall_impl; [| apply tool_call_step_events].
    intros e (Htool & i & Hi & Hidx). split; [exact Htool |].
    exists i. split; [exact Hi |].
    cbn [fragment_indices flat_map]. rewrite Hidx. left. reflexivity.
  - intros accs' _. eapply Forall_impl; [| apply IH].
    intros e (Htool & i & Hi & Hin). split; [exact Htool |].
    exists i. split; [exact Hi |].
    cbn [fragment_indices flat_map]. apply in_or_app. right. exact Hin.
Qed.

Lemma chunk_step_events (st : stream_state) (chunk : json) :
  Forall (index_among (fragment_indices (chunk_tool_calls chunk)))
    (fst (chunk_step st chunk)).
Proof.
  unfold chunk_step.
  apply Forall_gbind; [apply Forall_nil | intros u _].
  apply Forall_gbind; [apply Forall_nil | intros choices Hchoices].
  apply Forall_gbind; [apply Forall_nil | intros choice Hchoice].
  apply Forall_gbind; [apply Forall_nil | intros delta Hdelta].
  cbn [lift snd] in Hchoices, Hchoice, Hdelta.
  rewrite (chunk_tool_calls_read chunk choices choice delta Hchoices Hchoice Hdelta).
  destruct (truthy delta); cbn [negb]; [| apply Forall_nil].
  apply Forall_gbind; [apply Forall_nil | intros text _].
  apply Forall_gbind.
  - destruct (truthy text); [| apply Forall_nil].
    apply Forall_gbind.
    + destruct (negb (text_block_started st)); [| apply Forall_nil].
      constructor; [| constructor]. intros Htool. discriminate Htool.
    + intros _ _. apply Forall_gbind; [| intros; apply Forall_nil].
      constructor; [| constructor]. intros Htool. discriminate Htool.
  - intros started _.
    apply Forall_gbind; [apply Forall_nil | intros tool_calls Htools].
    cbn [lift snd] in Htools. rewrite Htools.
    apply Forall_gbind; [| intros; apply Forall_nil].
    destruct (truthy tool_calls); [| apply Forall_nil].
    apply Forall_gbind; [apply Forall_nil | intros items Hitems].
    cbn [lift snd] in Hitems. rewrite Hitems.
    eapply Forall_impl; [| apply tool_calls_loop_events].
    intros e (_ & i & Hi & Hin) _. exists i. split; assumption.
Qed.

Lemma stream_loop_events (lines : list line) :
  forall st : stream_state,
    Forall (index_among (stream_tool_indices lines)) (fst (stream_loop st lines)).
Proof.
  induction lines as [| l lines IH]; intros st; [constructor |].
  destruct l as [| | | chunk | raised]; cbn [stream_loop].
  - apply IH.
  - constructor.
  - apply IH.
  - unfold stream_tool_indices. cbn [consumed flat_map].
    apply Forall_gbind.
    + eapply Forall_impl; [| apply chunk_step_events].
      intros e He Htool. destruct (He Htool) as (i & Hi & Hin).
      exists i. split; [exact Hi |]. apply in_or_app. left. exact Hin.
    + intros st' _. eapply Forall_impl; [| apply IH].
      intros e He Htool. destruct (He Htool) as (i & Hi & Hin).
      exists i. split; [exact Hi |]. apply in_or_app. right. exact Hin.
  - destruct raised; try apply IH; constructor.
Qed.

(** ** Each tool event carries the index of its own fragment (C4) *)

Lemma tool_event_tags_app (a b : list event) :
  tool_event_tags (a ++ b) = tool_event_tags a ++ tool_event_tags b.
Proof. apply flat_map_app. Qed.

Lemma tool_event_tags_none (evs : list event) :
  Forall (fun e => is_tool_event e = false) evs -> tool_event_tags evs = [].
Proof.
  induction 1 as [| e evs He _ IH]; [reflexivity |].
  cbn [tool_event_tags flat_map]. rewrite He. exact IH.
Qed.

Lemma accs_has_opened (k : pykey) (accs : accumulators) :
  existsb (has_key k) (map fst accs) = accs_has k accs.
Proof.
  unfold accs_has. induction accs as [| entry accs IH]; [reflexivity |].
  cbn [map existsb]. rewrite IH. reflexivity.
Qed.

Lemma tags_follow_raises {A} (r : gen A) (opened_of : A -> list json)
  (opened fragments : list json) (e : exn) :
  snd r = inl e -> tool_event_tags (fst r) = [] ->
  tags_follow r opened_of opened fragments.
Proof.
  intros Hr Hevs rest. rewrite Hr, Hevs. eexists. reflexivity.
Qed.

Lemma tags_follow_quiet {A} (r : gen A) (opened_of : A -> list json)
  (opened : list json) :
  tool_event_tags (fst r) = [] ->
  (forall a, snd r = inr a -> opened_of a = opened) ->
  tags_follow r opened_of opened [].
Proof.
  intros Hevs Hopened rest. rewrite Hevs. cbn [app].
  destruct (snd r) as [e | a].
  - eexists. reflexivity.
  - rewrite (Hopened a eq_refl). reflexivity.
Qed.

Lemma tags_follow_gbind {A B} (m : gen A) (f : A -> gen B)
  (of1 : A -> list json) (of2 : B -> list json) (opened f1 f2 : list json) :
  tags_follow m of1 opened f1 ->
  (forall a, snd m = inr a -> tags_follow (f a) of2 (of1 a) f2) ->
  tags_follow (gbind m f) of2 opened (f1 ++ f2).
Proof.
  intros Hm Hf rest. specialize (Hm (f2 ++ rest)).
  rewrite <- app_assoc. unfold gbind.
  destruct (snd m) as [e | a]; cbn [fst snd].
  - exact Hm.
  - specialize (Hf a eq_refl rest). rewrite tool_event_tags_app, Hm.
    destruct (snd (f a)) as [e | b].
    + destruct Hf as [tail ->]. eexists. rewrite <- app_assoc. reflexivity.
    + rewrite Hf, <- app_assoc. reflexivity.
Qed.

Lemma tool_call_step_tags (accs : accumulators) (fragment : json) :
  tags_follow (tool_call_step accs fragment) (map fst) (map fst accs) [fragment].
Proof.
  intros rest. cbn [app expected_tool_tags]. unfold tool_call_step.
  destruct fragment as [| b | z | x | s | l | d];
    try (eexists; reflexivity).
  unfold fragment_arguments. cbn [flat_map py_getitem py_get_default rbind ok].
  destruct (dict_get "index" d) as [idx |]; [| eexists; reflexivity].
  unfold ok. rewrite gbind_lift_ok. unfold py_hash.
  destruct (key_of idx) as [k |]; [| eexists; reflexivity].
  unfold ok. rewrite gbind_lift_ok, accs_has_opened.
  destruct (match dict_get "function" d with Some v => v | None => JObj [] end)
    as [| b | z | x | s | l | f];
    try (destruct (accs_has k accs); eexists; reflexivity).
  destruct (accs_has k accs);
    unfold gbind, lift, yield, gret, throw, py_get_default, ok;
    cbn [fst snd negb app];
    (destruct (match dict_get "arguments" f with Some v => v | None => JStr "" end)
      as [| b | z | x | s | l | o]);
    cbn [truthy]; try destruct (String.eqb s ""); cbn [negb];
    try destruct b; try destruct (z =? 0); try destruct x; try destruct l; try destruct o;
    cbn [fst snd app negb map tool_event_tags flat_map];
    rewrite ?accs_append_indices, ?map_app; cbn [map fst app].
  all: try reflexivity.
  all: try (eexists; reflexivity).
Qed.

Lemma tool_calls_loop_tags (fragments : list json) :
  forall accs : accumulators,
    tags_follow (tool_calls_loop accs fragments) (map fst) (map fst accs) fragments.
Proof.
  induction fragments as [| fragment fragments IH]; intros accs.
  - apply tags_follow_quiet; [reflexivity |].
    intros a Ha. inversion Ha. reflexivity.
  - cbn [tool_calls_loop].
    apply (tags_follow_gbind _ _ (map fst) (map fst) _ [fragment] fragments).
    + apply tool_call_step_tags.
    + intros accs' _. apply IH.
Qed.

Lemma chunk_step_tags (st : stream_state) (chunk : json) :
  tags_follow (chunk_step st chunk) opened_in (opened_in st) (chunk_tool_calls chunk).
Proof.
  unfold chunk_step.
  destruct (py_get chunk "usage") as [e | u];
    [apply (tags_follow_raises _ _ _ _ e); reflexivity | rewrite gbind_lift_ok].
  destruct (py_get_default chunk "choices" (JArr [JObj []])) as [e | choices] eqn:Hchoices;
    [apply (tags_follow_raises _ _ _ _ e); reflexivity | rewrite gbind_lift_ok].
  destruct (py_getitem0 choices) as [e | choice] eqn:Hchoice;
    [apply (tags_follow_raises _ _ _ _ e); reflexivity | rewrite gbind_lift_ok].
  destruct (py_get_default choice "delta" (JObj [])) as [e | delta] eqn:Hdelta;
    [apply (tags_follow_raises _ _ _ _ e); reflexivity | rewrite gbind_lift_ok].
  rewrite (chunk_tool_calls_read chunk choices choice delta Hchoices Hchoice Hdelta).
  destruct (truthy delta); cbn [negb].
  2: { apply tags_follow_quiet; [reflexivity |].
       intros a Ha. inversion Ha. reflexivity. }
  destruct (py_get delta "content") as [e | content];
    [apply (tags_follow_raises _ _ _ _ e); reflexivity | rewrite gbind_lift_ok].
  match goal with
  | |- tags_follow _ _ _ ?fs => change fs with ([] ++ fs)
  end.
  apply (tags_follow_gbind _ _ (fun _ : bool => opened_in st) opened_in).
  { apply tags_follow_quiet; [| intros; reflexivity].
    destruct (truthy content); [| reflexivity].
    destruct (text_block_started st); reflexivity. }
  intros started _.
  destruct (py_get delta "tool_calls") as [e | tool_calls];
    [apply (tags_follow_raises _ _ _ _ e); reflexivity | rewrite gbind_lift_ok].
  destruct (truthy tool_calls).
  - destruct (py_iter tool_calls) as [e | items].
    + apply (tags_follow_raises _ _ _ _ e); reflexivity.
    + rewrite gbind_lift_ok. rewrite <- (app_nil_r items) at 2.
      apply (tags_follow_gbind _ _ (map fst) opened_in).
      * apply tool_calls_loop_tags.
      * intros accs _. apply tags_follow_quiet; [reflexivity |].
        intros a Ha. inversion Ha. reflexivity.
  - rewrite gbind_ret. apply tags_follow_quiet; [reflexivity |].
    intros a Ha. inversion Ha. reflexivity.
Qed.

Lemma stream_loop_tags (lines : list line) :
  forall st : stream_state,
    tags_follow (stream_loop st lines) opened_in (opened_in st) (stream_fragments lines).
Proof.
  induction lines as [| l lines IH]; intros st.
  - apply tags_follow_quiet; [reflexivity |].
    intros a Ha. inversion Ha. reflexivity.
  - destruct l as [| | | chunk | raised]; cbn [stream_loop].
    + apply IH.
    + apply tags_follow_quiet; [reflexivity |].
      intros a Ha. inversion Ha. reflexivity.
    + apply IH.
    + unfold stream_fragments. cbn [consumed flat_map].
      apply (tags_follow_gbind _ _ opened_in opened_in).
      * apply (chunk_step_tags (set_last_chunk chunk st) chunk).
      * intros st' _. apply IH.
    + destruct raised; try apply IH; eapply tags_follow_raises; reflexivity.
Qed.

Lemma stream_finish_no_tool_events (st : stream_state) :
  Forall (fun e => is_tool_event e = false) (fst (stream_finish st)).
Proof.
  unfold stream_finish.
  apply Forall_gbind; [apply Forall_nil | intros choices _].
  apply Forall_gbind; [apply Forall_nil | intros choice _].
  apply Forall_gbind; [apply Forall_nil | intros finish_reason _].
  apply Forall_gbind; [apply Forall_nil | intros stop_reason _].
  apply Forall_gbind.
  - rewrite close_blocks_run. cbn [fst]. unfold closing.
    destruct (tool_call_accumulators st) as [| entry rest].
    + destruct (text_block_started st); repeat constructor.
    + apply Forall_forall. intros x Hx. apply in_map_iff in Hx.
      destruct Hx as (i & <- & _). reflexivity.
  - intros _ _.
    apply Forall_gbind; [apply Forall_nil | intros output_tokens _].
    apply Forall_gbind; [repeat constructor | intros _ _].
    repeat constructor.
Qed.

Lemma stream_generator_tags (random_part : string) (payload : list (string * json))
  (reply : stream_reply) :
  match snd (stream_generator random_part payload reply) with
  | inr _ =>
      expected_tool_tags [] (stream_fragments (stream_lines reply))
      = tool_event_tags (fst (stream_generator random_part payload reply))
  | inl _ =>
      exists tail,
        expected_tool_tags [] (stream_fragments (stream_lines reply))
        = tool_event_tags (fst (stream_generator random_part payload reply)) ++ tail
  end.
Proof.
  unfold stream_generator. cbv zeta.
  destruct (py_getitem (JObj payload) "model") as [e | model];
    [rewrite gbind_lift_throw; eexists; reflexivity | rewrite gbind_lift_ok].
  rewrite !gbind_yield. cbn [fst snd].
  change (tool_event_tags (MessageStart (generate_message_id random_part) model
                             :: Ping :: ?evs))
    with (tool_event_tags evs).
  destruct (stream_ok reply);
    [rewrite gbind_ret | rewrite gbind_lift_throw; eexists; reflexivity].
  pose proof (stream_loop_tags (stream_lines reply) initial_state []) as Hloop.
  rewrite app_nil_r in Hloop.
  change (opened_in initial_state) with (@nil json) in Hloop.
  destruct (stream_loop initial_state (stream_lines reply)) as [body [e | st]];
    cbn [fst snd] in Hloop.
  - exact Hloop.
  - rewrite gbind_run. cbn [fst snd expected_tool_tags] in *.
    rewrite tool_event_tags_app,
      (tool_event_tags_none _ (stream_finish_no_tool_events st)), Hloop.
    destruct (snd (stream_finish st)); [exists [] |]; rewrite ?app_nil_r; reflexivity.
Qed.

(** C4 (as the code has it): the translator never renumbers.  The tool
    events of a run ([tool_use] starts and [input_json_delta]s) are, in
    order, the ones its consumed tool-call fragments call for, each
    carrying the index of its own fragment: a start for a fragment whose
    index is new, then a delta for a fragment with a non-empty argument
    string.  A run that completes yields all of them, a run that an
    exception cuts short an initial segment.  So every tool event carries
    the index that a consumed fragment was tagged with, and when no
    consumed fragment is tagged with an index equal to 0, no tool event is
    emitted with index 0; while in a run that completes, every index that
    a consumed fragment is tagged with, 0 included, is the index of a
    [tool_use] start. *)
Theorem tool_events_carry_backend_index :
  forall (random_part : string) (payload : list (string * json))
         (reply : stream_reply),
    (exists tail,
        expected_tool_tags [] (stream_fragments (stream_lines reply))
        = tool_event_tags (fst (stream_generator random_part payload reply)) ++ tail)
    /\ (snd (stream_generator random_part payload reply) = inr tt ->
        tool_event_tags (fst (stream_generator random_part payload reply))
        = expected_tool_tags [] (stream_fragments (stream_lines reply)))
    /\ (forall e : event,
           In e (fst (stream_generator random_part payload reply)) ->
           is_tool_event e = true ->
           (exists i, event_index e = Some i
                      /\ In i (stream_tool_indices (stream_lines reply)))
           /\ (Forall (fun i => has_key (KInt 0) i = false)
                 (stream_tool_indices (stream_lines reply)) ->
               for_index (KInt 0) e = false))
    /\ (snd (stream_generator random_part payload reply) = inr tt ->
        forall idx : json,
          In idx (stream_tool_indices (stream_lines reply)) ->
          exists k i id name,
            key_of idx = Some k
            /\ key_of i = Some k
            /\ In (ToolBlockStart i id name)
                 (fst (stream_generator random_part payload reply))).
Proof.
  intros random_part payload reply.
  pose proof (stream_generator_tags random_part payload reply) as Htags.
  split; [| split; [| split]].
  4: { clear Htags. intros Hdone idx Hidx.
       destruct (stream_generator random_part payload reply) as [evs out] eqn:Hrun.
       cbn [fst snd] in *. subst out.
       apply stream_generator_inr in Hrun.
       destruct Hrun as (model & body & st & stop_reason & output_tokens & -> & Hloop & _).
       apply stream_loop_body in Hloop.
       destruct Hloop as (_ & Hfst & _ & _ & Hall).
       destruct (Hall idx Hidx) as (k & Hk & Hin).
       rewrite Hfst in Hin. cbn [initial_state tool_call_accumulators map app] in Hin.
       apply in_keys_of in Hin. destruct Hin as (i & Hi & Hki).
       unfold tool_start_indices in Hi. apply in_flat_map in Hi.
       destruct Hi as (e & He & Hie).
       destruct e; try contradiction. destruct Hie as [-> | []].
       exists k, i, id, name. split; [exact Hk |]. split; [exact Hki |].
       right. right. apply in_or_app. left. exact He. }
  - destruct (snd (stream_generator random_part payload reply)) as [e | u].
    + exact Htags.
    + exists []. rewrite app_nil_r. exact Htags.
  - intros Hdone. rewrite Hdone in Htags. symmetry. exact Htags.
  - clear Htags. intros e Hin Htool.
    assert (Hall : Forall (index_among (stream_tool_indices (stream_lines reply)))
                     (fst (stream_generator random_part payload reply))).
    { unfold stream_generator. cbv zeta.
      apply Forall_gbind; [apply Forall_nil | intros model _].
      apply Forall_gbind;
        [constructor; [intros Hx; discriminate Hx | constructor] | intros _ _].
      apply Forall_gbind;
        [constructor; [intros Hx; discriminate Hx | constructor] | intros _ _].
      apply Forall_gbind;
        [destruct (stream_ok reply); apply Forall_nil | intros _ _].
      apply Forall_gbind; [apply stream_loop_events | intros st _].
      unfold stream_finish.
      apply Forall_gbind; [apply Forall_nil | intros choices _].
      apply Forall_gbind; [apply Forall_nil | intros choice _].
      apply Forall_gbind; [apply Forall_nil | intros finish_reason _].
      apply Forall_gbind; [apply Forall_nil | intros stop_reason _].
      apply Forall_gbind.
      - rewrite close_blocks_run. cbn [fst]. unfold closing.
        destruct (tool_call_accumulators st) as [| entry rest].
        + destruct (text_block_started st); repeat constructor.
          intros Hx. discriminate Hx.
        + apply Forall_forall. intros x Hx Hxt. apply in_map_iff in Hx.
          destruct Hx as (i & <- & _). discriminate Hxt.
      - intros _ _.
        apply Forall_gbind; [apply Forall_nil | intros output_tokens _].
        apply Forall_gbind;
          [constructor; [intros Hx; discriminate Hx | constructor] | intros _ _].
        constructor; [intros Hx; discriminate Hx | constructor]. }
    rewrite Forall_forall in Hall.
    destruct (Hall e Hin Htool) as (i & Hi & Hini).
    split.
    + exists i. split; assumption.
    + intros Hzero. rewrite Forall_forall in Hzero.
      unfold for_index. rewrite Hi. apply Hzero. exact Hini.
Qed.

Lemma tool_events_carry_backend_index_witness :
  tool_event_tags (fst (stream_generator "r" sample_payload text_and_two_tools))
  = [(true, JInt 1); (false, JInt 1); (true, JInt 2); (false, JInt 2); (false, JInt 1)]
  /\ expected_tool_tags [] (stream_fragments (stream_lines text_and_two_tools))
     = [(true, JInt 1); (false, JInt 1); (true, JInt 2); (false, JInt 2); (false, JInt 1)]
  /\ In (ToolBlockStart (JInt 1) (JStr "call_a") (JStr "first"))
       (fst (stream_generator "r" sample_payload text_and_two_tools))
  /\ Forall (fun i => has_key (KInt 0) i = false)
       (stream_tool_indices (stream_lines text_and_two_tools))
  /\ for_index (KInt 0) (ToolBlockStart (JInt 1) (JStr "call_a") (JStr "first")) = false.
Proof.
  split; [| split; [reflexivity |]].
  - rewrite (proj1 (proj2 (tool_events_carry_backend_index "r" sample_payload
                             text_and_two_tools)) eq_refl).
    reflexivity.
  - split; [right; right; right; right; left; reflexivity |].
    split; [repeat constructor |].
    refine (proj2 (proj1 (proj2 (proj2 (tool_events_carry_backend_index "r"
                                          sample_payload text_and_two_tools)))
                     (ToolBlockStart (JInt 1) (JStr "call_a") (JStr "first")) _ eq_refl) _).
    + right. right. right. right. left. reflexivity.
    + repeat constructor.
Defined.

(** C10, as stated, fails: a fragment with a new index and neither id
    nor name whose [function] is [null] raises [AttributeError] before
    any [content_block_start], and the stream it arrives in ends there;
    one whose [arguments] are a number gets its start and then raises
    [TypeError]. *)
Lemma nameless_fragment_raises :
  dict_get "id" fragment_with_null_function = None
  /\ accs_has (KInt 1) [] = false
  /\ tool_call_step [] (JObj fragment_with_null_function) = ([], inl AttributeError)
  /\ stream_generator "r" sample_payload stream_with_null_function
     = ([MessageStart "msg_r" (JStr "my-model"); Ping], inl AttributeError)
  /\ dict_get "id" fragment_with_integer_arguments = None
  /\ tool_call_step [] (JObj fragment_with_integer_arguments)
     = ([ToolBlockStart (JInt 1) (JStr "") (JStr "")], inl TypeError).
Proof. repeat split. Qed.

(** * Further properties *)

(** ** Induction on JSON trees *)

Lemma json_induction (P : json -> Prop) :
  P JNull ->
  (forall b, P (JBool b)) ->
  (forall z, P (JInt z)) ->
  (forall f, P (JFloat f)) ->
  (forall s, P (JStr s)) ->
  (forall l, Forall P l -> P (JArr l)) ->
  (forall d, Forall (fun kv => P (snd kv)) d -> P (JObj d)) ->
  forall t, P t.
Proof.
  intros Hnull Hbool Hint Hfloat Hstr Harr Hobj.
  refine (fix F (t : json) : P t :=
            match t with
            | JNull => Hnull
            | JBool b => Hbool b
            | JInt z => Hint z
            | JFloat f => Hfloat f
            | JStr s => Hstr s
            | JArr l =>
                Harr l ((fix G (l : list json) : Forall P l :=
                           match l with
                           | [] => Forall_nil _
                           | x :: r => Forall_cons _ (F x) (G r)
                           end) l)
            | JObj d =>
                Hobj d ((fix G (d : list (string * json))
                           : Forall (fun kv => P (snd kv)) d :=
                           match d with
                           | [] => Forall_nil _
                           | kv :: r => Forall_cons _ (F (snd kv)) (G r)
                           end) d)
            end).
Qed.

(** ** The schema sanitizer beyond the failing case *)

Lemma map_fixes_all {A} (f : A -> A) (l : list A) :
  map f l = l <-> Forall (fun x => f x = x) l.
Proof.
  induction l as [| x l IH]; cbn [map].
  - split; [constructor | reflexivity].
  - split.
    + intros H. inversion H as [[Hx Hl]]. rewrite Hx, Hl.
      constructor; [exact Hx | apply IH; exact Hl].
    + intros H. inversion H as [| ? ? Hx Hl]; subst.
      rewrite Hx. f_equal. apply IH. exact Hl.
Qed.

Lemma dict_get_in (k : string) (d : list (string * json)) (v : json) :
  dict_get k d = Some v -> In (k, v) d.
Proof.
  induction d as [| [k' v'] d IH]; cbn [dict_get]; [discriminate |].
  destruct (String.eqb_spec k k') as [-> | Hne].
  - intros H. inversion H. left. reflexivity.
  - intros H. right. apply IH. exact H.
Qed.

Lemma filter_not_format_shorter (d : list (string * json)) (v : json) :
  dict_get "format" d = Some v -> filter not_format d <> d.
Proof.
  intros Hget Heq. apply dict_get_in in Hget.
  assert (Hin : In ("format", v) (filter not_format d)) by (rewrite Heq; exact Hget).
  apply filter_In in Hin. destruct Hin as [_ Hkeep]. discriminate Hkeep.
Qed.

Lemma dict_get_filter_format (d : list (string * json)) :
  dict_get "format" (filter not_format d) = None.
Proof.
  induction d as [| [k v] d IH]; [reflexivity |].
  cbn [filter]. unfold not_format at 1. cbn [fst].
  destruct (String.eqb_spec k "format") as [-> | Hne]; cbn [negb].
  - exact IH.
  - cbn [dict_get]. destruct (String.eqb_spec "format" k) as [<- | _];
      [contradiction | exact IH].
Qed.

Lemma uri_node_matches (d : list (string * json)) :
  uri_node d = true -> dict_get "format" d = Some (JStr "uri").
Proof.
  unfold uri_node. intros H. apply andb_true_iff in H. destruct H as [_ H].
  destruct (dict_get "format" d) as [[| | | |s| |] |]; try discriminate H.
  cbn [is_str] in H. apply String.eqb_eq in H. subst. reflexivity.
Qed.

(** The sanitizer keeps strings and makes no new ones. *)
Lemma is_str_remove_uri_format (s : string) (v : json) :
  is_str s (remove_uri_format v) = is_str s v.
Proof.
  destruct v as [| | | | | l | d]; try reflexivity.
  cbn [remove_uri_format]. destruct (_ && _); reflexivity.
Qed.

Lemma dict_get_map_values (f : json -> json) (k : string) (d : list (string * json)) :
  dict_get k (map (fun kv => (fst kv, f (snd kv))) d)
  = match dict_get k d with
    | Some v => Some (f v)
    | None => None
    end.
Proof.
  induction d as [| [k' v] d IH]; [reflexivity |].
  cbn [map dict_get fst snd]. destruct (String.eqb k k'); [reflexivity | exact IH].
Qed.

Lemma uri_node_map_sanitized (d : list (string * json)) :
  uri_node (map (fun kv => (fst kv, remove_uri_format (snd kv))) d) = uri_node d.
Proof.
  unfold uri_node. rewrite !dict_get_map_values.
  destruct (dict_get "type" d) as [t |], (dict_get "format" d) as [f |];
    rewrite ?is_str_remove_uri_format; reflexivity.
Qed.

Lemma remove_uri_format_object (d : list (string * json)) :
  remove_uri_format (JObj d)
  = if uri_node d then JObj (filter not_format d)
    else JObj (map (fun kv => (fst kv, remove_uri_format (snd kv))) d).
Proof. reflexivity. Qed.

(** A schema without any string/uri node is returned as it is. *)
Lemma remove_uri_format_clean (t : json) :
  has_uri_node t = false -> remove_uri_format t = t.
Proof.
  induction t as [| | | | | l IH | d IH] using json_induction; try reflexivity.
  - cbn [has_uri_node remove_uri_format]. intros H. f_equal.
    apply map_fixes_all. rewrite Forall_forall in *. intros x Hx.
    apply IH; [exact Hx |].
    destruct (has_uri_node x) eqn:Hu; [| reflexivity].
    assert (Hex : existsb has_uri_node l = true)
      by (apply existsb_exists; exists x; split; assumption).
    rewrite Hex in H. discriminate.
  - cbn [has_uri_node]. rewrite remove_uri_format_object. intros H.
    apply orb_false_iff in H. destruct H as [Hnode Hkids]. rewrite Hnode. f_equal.
    apply map_fixes_all. rewrite Forall_forall in *. intros [k v] Hkv.
    cbn [fst snd]. f_equal. apply (IH (k, v) Hkv). cbn [snd].
    destruct (has_uri_node v) eqn:Hu; [| reflexivity].
    assert (Hex : existsb (fun kv => has_uri_node (snd kv)) d = true)
      by (apply existsb_exists; exists (k, v); split; assumption).
    rewrite Hex in Hkids. discriminate.
Qed.

(** X1: the sanitizer changes a schema exactly when the schema holds a
    mapping node with [type == "string"] and [format == "uri"] somewhere;
    every other schema comes back unchanged. *)
Theorem remove_uri_format_changes_iff_uri_node :
  forall t : json, remove_uri_format t = t <-> has_uri_node t = false.
Proof.
  intros t. split; [| apply remove_uri_format_clean].
  induction t as [| | | | | l IH | d IH] using json_induction; try reflexivity.
  - cbn [has_uri_node remove_uri_format]. intros H. injection H as Hmap.
    apply map_fixes_all in Hmap.
    destruct (existsb has_uri_node l) eqn:Hex; [| reflexivity].
    apply existsb_exists in Hex. destruct Hex as (x & Hx & Hu).
    rewrite Forall_forall in IH, Hmap.
    rewrite (IH x Hx (Hmap x Hx)) in Hu. discriminate.
  - cbn [has_uri_node]. rewrite remove_uri_format_object. intros H.
    destruct (uri_node d) eqn:Hnode.
    + exfalso. injection H as Hfilter.
      apply (filter_not_format_shorter d (JStr "uri")); [| exact Hfilter].
      apply uri_node_matches. exact Hnode.
    + cbn [orb]. injection H as Hmap. apply map_fixes_all in Hmap.
      destruct (existsb (fun kv => has_uri_node (snd kv)) d) eqn:Hex; [| reflexivity].
      apply existsb_exists in Hex. destruct Hex as ([k v] & Hkv & Hu).
      rewrite Forall_forall in IH, Hmap. cbn [snd] in Hu.
      specialize (Hmap (k, v) Hkv). cbn [fst snd] in Hmap. injection Hmap as Hv.
      pose proof (IH (k, v) Hkv Hv) as Hclean. cbn [snd] in Hclean.
      rewrite Hclean in Hu. discriminate.
Qed.

Lemma remove_uri_format_outermost_clean (t : json) :
  uri_nodes_outermost t = true -> has_uri_node (remove_uri_format t) = false.
Proof.
  induction t as [| | | | | l IH | d IH] using json_induction; try reflexivity.
  - cbn [uri_nodes_outermost remove_uri_format has_uri_node]. intros H.
    rewrite forallb_forall in H.
    destruct (existsb has_uri_node (map remove_uri_format l)) eqn:Hex; [| reflexivity].
    apply existsb_exists in Hex. destruct Hex as (y & Hy & Hu).
    apply in_map_iff in Hy. destruct Hy as (x & <- & Hx).
    rewrite Forall_forall in IH. rewrite (IH x Hx (H x Hx)) in Hu. discriminate.
  - cbn [uri_nodes_outermost]. rewrite remove_uri_format_object.
    destruct (uri_node d) eqn:Hnode; intros H; rewrite forallb_forall in H;
      cbn [has_uri_node].
    + assert (Hn : uri_node (filter not_format d) = false).
      { unfold uri_node. rewrite dict_get_filter_format. cbn [is_str].
        apply andb_false_r. }
      rewrite Hn. cbn [orb].
      destruct (existsb (fun kv => has_uri_node (snd kv)) (filter not_format d)) eqn:Hex;
        [| reflexivity].
      apply existsb_exists in Hex. destruct Hex as (kv & Hkv & Hu).
      apply filter_In in Hkv. destruct Hkv as [Hkv _].
      specialize (H kv Hkv). rewrite Hu in H. discriminate.
    + rewrite uri_node_map_sanitized, Hnode. cbn [orb].
      destruct (existsb (fun kv => has_uri_node (snd kv))
                  (map (fun kv => (fst kv, remove_uri_format (snd kv))) d)) eqn:Hex;
        [| reflexivity].
      apply existsb_exists in Hex. destruct Hex as (y & Hy & Hu).
      apply in_map_iff in Hy. destruct Hy as (kv & <- & Hkv). cbn [snd] in Hu.
      rewrite Forall_forall in IH. rewrite (IH kv Hkv (H kv Hkv)) in Hu. discriminate.
Qed.

(** X2: on a schema in which no string/uri node lies below another one,
    a single pass leaves no string/uri node at any depth, and a second
    pass changes nothing. *)
Theorem remove_uri_format_idempotent_on_outermost :
  forall t : json,
    uri_nodes_outermost t = true ->
    has_uri_node (remove_uri_format t) = false
    /\ remove_uri_format (remove_uri_format t) = remove_uri_format t.
Proof.
  intros t H. pose proof (remove_uri_format_outermost_clean t H) as Hclean.
  split; [exact Hclean |]. apply remove_uri_format_clean. exact Hclean.
Qed.

Lemma remove_uri_format_idempotent_on_outermost_witness :
  has_uri_node (remove_uri_format schema_with_uri_property) = false
  /\ remove_uri_format (remove_uri_format schema_with_uri_property)
     = remove_uri_format schema_with_uri_property.
Proof.
  exact (remove_uri_format_idempotent_on_outermost schema_with_uri_property eq_refl).
Defined.

(** ** [normalize_content] and [map_stop_reason] as functions *)

Lemma text_items_texts (l : list json) :
  forallb text_block_ok l = true -> text_items l = inr (map JStr (block_texts l)).
Proof.
  induction l as [| item l IH]; [reflexivity |].
  cbn [forallb]. intros H. apply andb_true_iff in H. destruct H as [Hitem Hl].
  destruct item as [| | | | | |d]; try discriminate Hitem.
  cbn [text_items block_texts text_block_ok py_get rbind ok] in *.
  destruct (is_str "text" _); [| exact (IH Hl)].
  cbn [py_get_default rbind ok]. rewrite (IH Hl). cbn [rbind ok].
  destruct (dict_get "text" d) as [[| | | |s| |] |]; try discriminate Hitem; reflexivity.
Qed.

Lemma join_space_strings (ss : list string) :
  join_space (map JStr ss) = inr (String.concat " " ss).
Proof.
  induction ss as [| s ss IH]; [reflexivity |].
  destruct ss as [| s' ss]; [reflexivity |].
  change (join_space (map JStr (s :: s' :: ss)))
    with (match join_space (map JStr (s' :: ss)) with
          | inr t => ok (s ++ " " ++ t)%string
          | inl e => inl e
          end).
  rewrite IH. reflexivity.
Qed.

(** X3: on a block list, [normalize_content] returns exactly when every
    item is a dict and every [text] block's [text] is a string or missing,
    and then it returns the texts of the [text] blocks, in order, joined by
    single spaces; blocks of other types contribute nothing. *)
Theorem normalize_content_joins_text_blocks :
  forall (l : list json) (v : json),
    normalize_content (JArr l) = inr v
    <-> forallb text_block_ok l = true
        /\ v = JStr (String.concat " " (block_texts l)).
Proof.
  intros l v.
  assert (Hrun : forallb text_block_ok l = true ->
                 normalize_content (JArr l)
                 = inr (JStr (String.concat " " (block_texts l)))).
  { intros Hok. cbn [normalize_content]. rewrite (text_items_texts l Hok).
    cbn [rbind]. rewrite join_space_strings. reflexivity. }
  split.
  - intros H.
    assert (Hok : forallb text_block_ok l = true).
    { change (content_text_ok (JArr l) = true).
      rewrite <- normalize_content_succeeds, H. reflexivity. }
    split; [exact Hok |]. rewrite (Hrun Hok) in H. inversion H. reflexivity.
  - intros [Hok ->]. apply Hrun. exact Hok.
Qed.

(** X4: [map_stop_reason] raises exactly on a non-empty list or dict (an
    unhashable lookup key); a string follows the table ([tool_calls] to
    [tool_use], [length] to [max_tokens], anything else, [stop] included,
    to [end_turn]); every other value gives [end_turn]. *)
Theorem map_stop_reason_table :
  forall v : json,
    map_stop_reason v
    = match v with
      | JArr (_ :: _) | JObj (_ :: _) => inl TypeError
      | JStr s =>
          inr (if String.eqb s "tool_calls" then "tool_use"
               else if String.eqb s "length" then "max_tokens"
               else "end_turn")
      | _ => inr "end_turn"
      end.
Proof.
  intros [| [|] | z | f | s | [| x l] | [| kv d]]; try reflexivity.
  - unfold map_stop_reason. cbn [truthy]. destruct (z =? 0); reflexivity.
  - destruct f; reflexivity.
  - do 11 (try (destruct s as [| [[|] [|] [|] [|] [|] [|] [|] [|]] s];
                try reflexivity)).
Qed.

(** ** Request translation as a whole *)

Lemma rbind_assoc {A B C} (m : result A) (f : A -> result B) (g : B -> result C) :
  rbind (rbind m f) g = rbind m (fun a => rbind (f a) g).
Proof. destruct m; reflexivity. Qed.

(** X5: the inbound messages are translated one by one and the results
    concatenated in conversation order: the translation of [a ++ b] is the
    translation of [a] followed by that of [b], and it raises what the
    first failing part raises. *)
Theorem translate_messages_concatenates :
  forall (json_dumps : json -> string) (a b : list json),
    translate_messages json_dumps (a ++ b)
    = rbind (translate_messages json_dumps a)
        (fun xs => rbind (translate_messages json_dumps b)
                     (fun ys => ok (xs ++ ys))).
Proof.
  intros json_dumps a b. induction a as [| msg a IH].
  - cbn [app translate_messages rbind ok].
    destruct (translate_messages json_dumps b); reflexivity.
  - cbn [app translate_messages]. rewrite IH.
    destruct (translate_message json_dumps msg) as [e | out]; [reflexivity |].
    cbn [rbind].
    destruct (translate_messages json_dumps a) as [e | xs]; [reflexivity |].
    cbn [rbind ok].
    destruct (translate_messages json_dumps b) as [e | ys]; [reflexivity |].
    cbn [rbind ok]. rewrite app_assoc. reflexivity.
Qed.

(** X6: tool-call round trip.  Take a block list whose [tool_use] blocks
    all have [id], [name] and [input], and suppose [json.loads] gives back
    each input from its [json.dumps] encoding.  Then the request direction
    turns the blocks into tool calls, and the response direction turns
    those tool calls back into the same [tool_use] blocks (type, id, name
    and input), in the same order. *)
Theorem tool_use_round_trip :
  forall (json_dumps : json -> string) (json_loads : string -> option json)
         (content : list json),
    forallb tool_use_ok content = true ->
    Forall (fun input => json_loads (json_dumps input) = Some input)
      (tool_inputs content) ->
    exists calls,
      tool_use_calls json_dumps content = inr calls
      /\ tool_use_blocks json_loads calls = inr (tool_use_fields content).
Proof.
  intros json_dumps json_loads content.
  induction content as [| item content IH]; intros Hok Hrt.
  - exists []. split; reflexivity.
  - cbn [forallb] in Hok. apply andb_true_iff in Hok. destruct Hok as [Hitem Hok].
    destruct item as [| | | | | |d]; try discriminate Hitem.
    cbn [tool_inputs flat_map] in Hrt. apply Forall_app in Hrt.
    destruct Hrt as [Hrt1 Hrt].
    destruct (IH Hok Hrt) as (calls & Hcalls & Hblocks).
    cbn [tool_use_calls tool_use_fields flat_map tool_use_ok py_get rbind ok] in *.
    destruct (is_str "tool_use" _).
    + unfold dict_has in Hitem. unfold py_getitem at 1 2 3.
      destruct (dict_get "id" d) as [id |]; [| discriminate Hitem].
      destruct (dict_get "name" d) as [name |]; [| discriminate Hitem].
      destruct (dict_get "input" d) as [input |]; [| discriminate Hitem].
      cbn [rbind ok]. rewrite Hcalls. cbn [rbind ok].
      eexists. split; [reflexivity |].
      inversion Hrt1 as [| ? ? Hinput _]; subst.
      cbn [tool_use_blocks py_getitem dict_get String.eqb Ascii.eqb Bool.eqb rbind ok
             py_json_loads].
      rewrite Hinput. cbn [rbind ok].
      change (flat_map _ content) with (tool_use_fields content).
      rewrite Hblocks. reflexivity.
    + exists calls. split; [exact Hcalls | exact Hblocks].
Qed.

Lemma tool_use_round_trip_witness :
  exists calls,
    tool_use_calls dumps_empty_object tool_use_content = inr calls
    /\ tool_use_blocks loads_empty_object calls
       = inr [JObj [("type", JStr "tool_use"); ("id", JStr "call_1");
                    ("name", JStr "lookup"); ("input", JObj [])]].
Proof.
  refine (tool_use_round_trip dumps_empty_object loads_empty_object tool_use_content
            eq_refl _).
  repeat constructor.
Defined.

Lemma translate_tools_forwarded (tools out : list json) :
  translate_tools tools = inr out -> Forall2 forwarded_tool tools out.
Proof.
  revert out. induction tools as [| tool tools IH]; intros out H.
  - inversion H. constructor.
  - cbn [translate_tools] in H.
    rinv H as name Hname. rinv H as description Hdescription.
    rinv H as input_schema Hschema. rinv H as ts Hts.
    inversion H; subst out.
    constructor; [| apply IH; exact Hts].
    exists name, description, input_schema.
    repeat split; try assumption.
    apply remove_uri_format_outermost_clean.
Qed.

(** X7: when translation returns and the request lists at least one tool,
    the outbound [tools] holds one function tool per definition, in order,
    with the definition's name and description and with its input schema
    after one pass of the sanitizer; that schema holds no string/uri node
    when in the definition no such node lies below another one. *)
Theorem outbound_tools_are_sanitized :
  forall (json_dumps : json -> string) (cfg : config)
         (p out : list (string * json)) (def : json) (defs : list json),
    translate_request json_dumps cfg (JObj p) = inr out ->
    dict_get "tools" p = Some (JArr (def :: defs)) ->
    exists ts,
      dict_get "tools" out = Some (JArr ts)
      /\ Forall2 forwarded_tool (def :: defs) ts.
Proof.
  intros json_dumps cfg p out def defs H Htools.
  unfold translate_request in H.
  rinv H as is_stream His_stream. rinv H as sys Hsys. rinv H as msgs Hmsgs.
  rinv H as translated Htranslated. rinv H as items Hitems. rinv H as ts Hts.
  rewrite Htools in Hitems. cbn [py_iter ok] in Hitems. inversion Hitems; subst items.
  pose proof (translate_tools_forwarded _ _ Hts) as Hfw.
  exists ts. split; [| exact Hfw].
  destruct ts as [| t ts]; [inversion Hfw |].
  inversion H; subst out. reflexivity.
Qed.

Lemma outbound_tools_are_sanitized_witness :
  exists ts,
    dict_get "tools"
      [("model", JStr "my-model");
       ("messages", JArr [JObj [("role", JStr "user"); ("content", JStr "hi")]]);
       ("max_tokens", JInt 4096);
       ("temperature", JFloat float_one);
       ("stream", JBool false);
       ("tools",
        JArr [JObj [("type", JStr "function");
                    ("function",
                     JObj [("name", JStr "fetch");
                           ("description", JStr "fetches a page");
                           ("parameters",
                            JObj [("type", JStr "object");
                                  ("properties",
                                   JObj [("link", JObj [("type", JStr "string")])])])])]])]
    = Some (JArr ts)
    /\ Forall2 forwarded_tool
         [JObj [("name", JStr "fetch");
                ("description", JStr "fetches a page");
                ("input_schema", schema_with_uri_property)]] ts.
Proof.
  exact (outbound_tools_are_sanitized dumps_empty_object (load_config empty_env)
           request_with_tool _ _ [] eq_refl eq_refl).
Defined.

(** X8: a request body that does not decode, or a decoded request on
    which translation raises, gets the status-500 JSON error response,
    whatever the backend would answer; it never gets a streaming
    response. *)
Theorem untranslatable_request_gets_error_response :
  forall (json_dumps : json -> string) (json_loads : string -> option json)
         (str_exn : exn -> string) (cfg : config)
         (backend : http_request -> http_reply) (random_part : string)
         (request_body : option json),
    (request_body = None
     \/ exists payload, request_body = Some payload /\ request_ok payload = false) ->
    exists e,
      messages_proxy json_dumps json_loads str_exn cfg backend random_part request_body
      = Plain (error_response json_dumps str_exn e)
      /\ status_code (error_response json_dumps str_exn e) = 500.
Proof.
  intros json_dumps json_loads str_exn cfg backend random_part request_body
    [-> | (payload & -> & Hbad)].
  - exists JSONDecodeError. split; reflexivity.
  - rewrite <- translate_request_succeeds with (dumps := json_dumps) (cfg := cfg) in Hbad.
    apply succeeds_false in Hbad. destruct Hbad as [e He].
    unfold messages_proxy. cbn [rbind ok].
    destruct (py_get_default payload "stream" (JBool false)) as [e' | is_stream].
    + exists e'. split; reflexivity.
    + cbn [rbind]. rewrite He. exists e. split; reflexivity.
Qed.

Lemma untranslatable_request_gets_error_response_witness :
  exists e,
    messages_proxy dumps_empty_object loads_empty_object (fun _ => "error")
      (load_config empty_env) (fun _ => reply_with_bad_arguments) "r"
      (Some request_tool_use_without_id)
    = Plain (error_response dumps_empty_object (fun _ => "error") e)
    /\ status_code (error_response dumps_empty_object (fun _ => "error") e) = 500.
Proof.
  refine (untranslatable_request_gets_error_response dumps_empty_object
            loads_empty_object (fun _ => "error") (load_config empty_env)
            (fun _ => reply_with_bad_arguments) "r"
            (Some request_tool_use_without_id) _).
  right. exists request_tool_use_without_id. split; reflexivity.
Defined.

(** ** The stream depends on the lines the loop acts on *)

Lemma stream_loop_effective (lines : list line) :
  forall st : stream_state,
    stream_loop st lines = stream_loop st (effective lines).
Proof.
  induction lines as [| l lines IH]; intros st; [reflexivity |].
  destruct l as [| | | chunk | raised]; cbn [stream_loop effective].
  - apply IH.
  - reflexivity.
  - apply IH.
  - destruct (chunk_step (set_last_chunk chunk st) chunk) as [evs [e | st']].
    + reflexivity.
    + unfold gbind. cbn [fst snd]. rewrite IH. reflexivity.
  - destruct raised; first [apply IH | reflexivity].
Qed.

Lemma stream_loop_returns (lines : list line) :
  forall (st st' : stream_state) (evs : list event) (e : exn),
    stream_loop st lines = (evs, inr st') -> ~ In (RaisingLine e) (effective lines).
Proof.
  induction lines as [| l lines IH]; intros st st' evs e H; [intros [] |].
  destruct l as [| | | chunk | raised]; cbn [stream_loop effective] in *.
  - exact (IH _ _ _ e H).
  - intros [].
  - exact (IH _ _ _ e H).
  - ginv H as evs1 st1 Hstep evs2.
    intros [Heq | Hin]; [discriminate Heq | exact (IH _ _ _ e H Hin)].
  - destruct raised; cbn [caught] in *; try discriminate H.
    exact (IH _ _ _ e H).
Qed.

(** X9: the run is determined by the lines the loop acts on.  Lines
    without the [data:] prefix, data lines on which [json.loads] raises
    [JSONDecodeError], everything from the [[DONE]] line on, and
    everything after a data line on which [json.loads] raises another
    exception have no effect: the generator yields the same events and
    ends the same way on the remaining lines alone.  A data line on
    which [json.loads] raises an exception other than [JSONDecodeError]
    is not skipped: when the loop reaches such a line, the run ends in
    an exception. *)
Theorem stream_depends_on_effective_lines :
  forall (random_part : string) (payload : list (string * json)) (reply : stream_reply),
    stream_generator random_part payload reply
    = stream_generator random_part payload
        {| stream_ok := stream_ok reply;
           stream_lines := effective (stream_lines reply) |}
    /\ forall e : exn,
         In (RaisingLine e) (effective (stream_lines reply)) ->
         exists e', snd (stream_generator random_part payload reply) = inl e'.
Proof.
  intros random_part payload reply. split.
  - unfold stream_generator.
    cbn [stream_ok stream_lines]. rewrite stream_loop_effective. reflexivity.
  - intros e Hin.
    destruct (stream_generator random_part payload reply) as [evs [e' | u]] eqn:H.
    + exists e'. reflexivity.
    + exfalso. apply stream_generator_inr in H.
      destruct H as (model & body & st & stop_reason & output_tokens & _ & Hloop & _).
      exact (stream_loop_returns _ _ _ _ e Hloop Hin).
Qed.

Lemma stream_depends_on_effective_lines_witness :
  In (RaisingLine ValueError) (effective (stream_lines stream_with_huge_integer))
  /\ exists e',
       snd (stream_generator "r" sample_payload stream_with_huge_integer) = inl e'.
Proof.
  split; [right; left; reflexivity |].
  apply (proj2 (stream_depends_on_effective_lines "r" sample_payload
                  stream_with_huge_integer) ValueError).
  right. left. reflexivity.
Defined.

(** ** Runs that an exception cuts short *)

Lemma tool_event_is_body_event (e : event) :
  is_tool_event e = true -> body_event e = true.
Proof. destruct e; intros H; try discriminate H; reflexivity. Qed.

Lemma chunk_step_body_events (st : stream_state) (chunk : json) :
  Forall (fun e => body_event e = true) (fst (chunk_step st chunk)).
Proof.
  unfold chunk_step.
  apply Forall_gbind; [apply Forall_nil | intros u _].
  apply Forall_gbind; [apply Forall_nil | intros choices _].
  apply Forall_gbind; [apply Forall_nil | intros choice _].
  apply Forall_gbind; [apply Forall_nil | intros delta _].
  destruct (truthy delta); cbn [negb]; [| apply Forall_nil].
  apply Forall_gbind; [apply Forall_nil | intros text _].
  apply Forall_gbind.
  - destruct (truthy text); [| apply Forall_nil].
    apply Forall_gbind.
    + destruct (negb (text_block_started st)); [| apply Forall_nil].
      constructor; [reflexivity | constructor].
    + intros _ _. apply Forall_gbind; [| intros; apply Forall_nil].
      constructor; [reflexivity | constructor].
  - intros started _.
    apply Forall_gbind; [apply Forall_nil | intros tool_calls _].
    apply Forall_gbind; [| intros; apply Forall_nil].
    destruct (truthy tool_calls); [| apply Forall_nil].
    apply Forall_gbind; [apply Forall_nil | intros items _].
    eapply Forall_impl; [| apply tool_calls_loop_events].
    intros e (Htool & _). apply tool_event_is_body_event. exact Htool.
Qed.

Lemma stream_loop_body_events (lines : list line) :
  forall st : stream_state,
    Forall (fun e => body_event e = true) (fst (stream_loop st lines)).
Proof.
  induction lines as [| l lines IH]; intros st; [constructor |].
  destruct l as [| | | chunk | raised]; cbn [stream_loop].
  - apply IH.
  - constructor.
  - apply IH.
  - apply Forall_gbind; [apply chunk_step_body_events | intros st' _; apply IH].
  - destruct raised; try apply IH; constructor.
Qed.

Lemma closing_not_closing_events (st : stream_state) :
  Forall (fun e => is_closing_event e = false) (closing st).
Proof.
  unfold closing. destruct (tool_call_accumulators st) as [| entry rest].
  - destruct (text_block_started st); repeat constructor.
  - apply Forall_forall. intros e He. apply in_map_iff in He.
    destruct He as (i & <- & _). reflexivity.
Qed.

Lemma stream_finish_aborted (st : stream_state) (e : exn) :
  snd (stream_finish st) = inl e ->
  Forall (fun ev => is_closing_event ev = false) (fst (stream_finish st)).
Proof.
  unfold stream_finish.
  destruct (py_get_default (last_chunk st) "choices" (JArr [JObj []])) as [e0 | choices];
    [intros _; constructor | rewrite gbind_lift_ok].
  destruct (py_getitem0 choices) as [e0 | choice];
    [intros _; constructor | rewrite gbind_lift_ok].
  destruct (py_get choice "finish_reason") as [e0 | finish_reason];
    [intros _; constructor | rewrite gbind_lift_ok].
  destruct (map_stop_reason finish_reason) as [e0 | stop_reason];
    [intros _; constructor | rewrite gbind_lift_ok].
  rewrite close_blocks_run, gbind_run. cbn [fst snd].
  destruct (py_get_default (usage st) "completion_tokens" (JInt 0)) as [e0 | tokens].
  - intros _. rewrite gbind_lift_throw. cbn [fst]. rewrite app_nil_r.
    apply closing_not_closing_events.
  - rewrite gbind_lift_ok, gbind_yield. cbn [fst snd yield]. intros H. discriminate H.
Qed.

(** X10: the generator yields a [message_delta] or a [message_stop]
    exactly when it runs to completion: a run that an exception cuts
    short (failing backend status, ill-formed chunk) holds neither, and a
    run that completes holds both. *)
Theorem closing_events_iff_run_completes :
  forall (random_part : string) (payload : list (string * json)) (reply : stream_reply),
    existsb is_closing_event (fst (stream_generator random_part payload reply)) = true
    <-> snd (stream_generator random_part payload reply) = inr tt.
Proof.
  intros random_part payload reply. split.
  - intros Hex.
    destruct (snd (stream_generator random_part payload reply)) as [e | []] eqn:Hout;
      [| reflexivity].
    exfalso. apply existsb_exists in Hex. destruct Hex as (ev & Hin & Hev).
    assert (Hall : Forall (fun ev => is_closing_event ev = false)
                     (fst (stream_generator random_part payload reply))).
    { revert Hout. clear. unfold stream_generator. cbv zeta.
      destruct (py_getitem (JObj payload) "model") as [e0 | model];
        [intros _; constructor | rewrite gbind_lift_ok].
      rewrite !gbind_yield. cbn [fst snd].
      destruct (stream_ok reply).
      - rewrite gbind_ret.
        pose proof (stream_loop_body_events (stream_lines reply) initial_state) as Hbody.
        destruct (stream_loop initial_state (stream_lines reply)) as [body [e0 | st]].
        + intros _. cbn [gbind fst snd]. constructor; [reflexivity |].
          constructor; [reflexivity |].
          eapply Forall_impl; [| exact Hbody].
          intros x Hx. destruct x; try discriminate Hx; reflexivity.
        + rewrite !gbind_run. cbn [fst snd]. intros Hfin.
          constructor; [reflexivity |]. constructor; [reflexivity |].
          apply Forall_app. split.
          * eapply Forall_impl; [| exact Hbody].
            intros x Hx. destruct x; try discriminate Hx; reflexivity.
          * apply (stream_finish_aborted st e). exact Hfin.
      - intros _. rewrite gbind_lift_throw. cbn [fst]. repeat constructor. }
    rewrite Forall_forall in Hall. rewrite (Hall ev Hin) in Hev. discriminate.
  - intros Hout.
    destruct (stream_generator random_part payload reply) as [evs out] eqn:Hrun.
    cbn [fst snd] in *. subst out.
    apply stream_generator_inr in Hrun.
    destruct Hrun as (model & body & st & stop_reason & output_tokens & -> & _).
    apply existsb_exists. exists MessageStop. split; [| reflexivity].
    right. right. apply in_or_app. right. apply in_or_app. right.
    right. left. reflexivity.
Qed.

(** X11: for a request that translates and asks for streaming, a failing
    backend status is not turned into the JSON error response: the reply
    is a streaming response whose body is [message_start] and [ping] and
    nothing more, cut off by the status error. *)
Theorem failing_backend_truncates_stream :
  forall (json_dumps : json -> string) (json_loads : string -> option json)
         (str_exn : exn -> string) (cfg : config)
         (backend : http_request -> http_reply) (random_part : string)
         (p out : list (string * json)),
    translate_request json_dumps cfg (JObj p) = inr out ->
    truthy (match dict_get "stream" p with Some v => v | None => JBool false end) = true ->
    reply_ok (backend {| req_url := (OPENAI_API_BASE cfg ++ "/chat/completions")%string;
                         req_json := out;
                         req_headers := request_headers cfg |}) = false ->
    messages_proxy json_dumps json_loads str_exn cfg backend random_part (Some (JObj p))
    = Streaming
        [sse_pack json_dumps
           (MessageStart (generate_message_id random_part)
              (JStr (if truthy (match dict_get "thinking" p with
                                | Some v => v | None => JNull end)
                     then REASONING_MODEL cfg else COMPLETION_MODEL cfg)));
         sse_pack json_dumps Ping]
        (inl HTTPStatusError).
Proof.
  intros json_dumps json_loads str_exn cfg backend random_part p out Hout Hflag Hstatus.
  pose proof (translate_request_model _ _ _ _ Hout) as Hmodel.
  unfold messages_proxy. cbn [rbind py_get_default ok].
  rewrite Hout. cbn [rbind]. rewrite Hflag. cbn [negb].
  unfold stream_generator. cbv zeta. cbn [stream_ok py_getitem].
  rewrite Hmodel, Hstatus. reflexivity.
Qed.

Lemma failing_backend_truncates_stream_witness :
  messages_proxy dumps_empty_object loads_empty_object (fun _ => "error")
    (load_config empty_env)
    (fun _ => {| reply_ok := false; reply_json := None; reply_lines := [] |}) "r"
    (Some (JObj streaming_request))
  = Streaming
      [sse_pack dumps_empty_object (MessageStart (generate_message_id "r") (JStr "my-model"));
       sse_pack dumps_empty_object Ping]
      (inl HTTPStatusError).
Proof.
  exact (failing_backend_truncates_stream dumps_empty_object loads_empty_object
           (fun _ => "error") (load_config empty_env)
           (fun _ => {| reply_ok := false; reply_json := None; reply_lines := [] |}) "r"
           streaming_request _ eq_refl eq_refl eq_refl).
Defined.

(** ** What the deltas carry *)

Lemma text_deltas_app (a b : list event) :
  text_deltas (a ++ b) = text_deltas a ++ text_deltas b.
Proof. apply flat_map_app. Qed.

Lemma json_deltas_app (a b : list event) :
  json_deltas (a ++ b) = json_deltas a ++ json_deltas b.
Proof. apply flat_map_app. Qed.

Lemma tool_call_step_deltas (accs accs' : accumulators) (fragment : json)
  (evs : list event) :
  tool_call_step accs fragment = (evs, inr accs') ->
  json_deltas evs = fragment_arguments [fragment] /\ text_deltas evs = [].
Proof.
  intros H. unfold tool_call_step in H.
  linv H as idx Hidx. linv H as k Hk.
  ginv H as starts base Hstarts rest.
  linv H as func Hfunc. linv H as arg_chunk Harg.
  assert (Hs : json_deltas starts = [] /\ text_deltas starts = []).
  { destruct (negb (accs_has k accs)).
    - linv Hstarts as func_info Hinfo. linv Hstarts as id Hid.
      linv Hstarts as name Hname.
      rewrite gbind_yield in Hstarts. cbn [gret fst snd] in Hstarts.
      inversion Hstarts. split; reflexivity.
    - inversion Hstarts. split; reflexivity. }
  destruct Hs as [Hsj Hst].
  rewrite json_deltas_app, text_deltas_app, Hsj, Hst. cbn [app].
  cbn [fragment_arguments flat_map]. rewrite Hidx, Hfunc. cbn [rbind].
  rewrite Harg, app_nil_r.
  destruct (truthy arg_chunk) eqn:Ht.
  - destruct arg_chunk as [| | | |s| |]; try discriminate H.
    rewrite gbind_yield in H. cbn [gret fst snd] in H. inversion H.
    cbn [truthy] in Ht. apply negb_true_iff in Ht. rewrite Ht.
    split; reflexivity.
  - inversion H. destruct arg_chunk as [| | | |s| |]; try (split; reflexivity).
    cbn [truthy] in Ht. apply negb_false_iff in Ht. rewrite Ht. split; reflexivity.
Qed.

Lemma fragment_arguments_cons (fragment : json) (fragments : list json) :
  fragment_arguments (fragment :: fragments)
  = fragment_arguments [fragment] ++ fragment_arguments fragments.
Proof. cbn [fragment_arguments flat_map]. rewrite app_nil_r. reflexivity. Qed.

Lemma tool_calls_loop_deltas (fragments : list json) :
  forall (accs accs' : accumulators) (evs : list event),
    tool_calls_loop accs fragments = (evs, inr accs') ->
    json_deltas evs = fragment_arguments fragments /\ text_deltas evs = [].
Proof.
  induction fragments as [| fragment fragments IH]; intros accs accs' evs H.
  - inversion H. split; reflexivity.
  - cbn [tool_calls_loop] in H.
    ginv H as evs1 accs1 Hstep evs2.
    apply tool_call_step_deltas in Hstep. destruct Hstep as [Hj1 Ht1].
    apply IH in H. destruct H as [Hj2 Ht2].
    rewrite json_deltas_app, text_deltas_app, Hj1, Hj2, Ht1, Ht2,
      (fragment_arguments_cons fragment fragments).
    split; reflexivity.
Qed.

(** One decoded chunk: its deltas and what it does to [usage]. *)
Lemma chunk_step_deltas (st st' : stream_state) (chunk : json) (evs : list event) :
  chunk_step st chunk = (evs, inr st') ->
  json_deltas evs = fragment_arguments (chunk_tool_calls chunk)
  /\ text_deltas evs = chunk_text chunk
  /\ usage st' = last_usage_from (usage st) [chunk].
Proof.
  intros H. unfold chunk_step in H.
  linv H as u Hu. linv H as choices Hchoices. linv H as choice Hchoice.
  linv H as delta Hdelta.
  rewrite (chunk_tool_calls_read chunk choices choice delta Hchoices Hchoice Hdelta).
  unfold chunk_text. rewrite Hchoices. cbn [rbind]. rewrite Hchoice. cbn [rbind].
  rewrite Hdelta. cbn [rbind last_usage_from fold_left]. rewrite Hu.
  destruct (truthy delta); cbn [negb] in H.
  - linv H as text Htext.
    ginv H as text_evs started' Hstarted rest.
    linv H as tool_calls Htools.
    ginv H as tool_evs accs Haccs tail.
    inversion H; subst tail st'. clear H.
    cbn [usage]. rewrite app_nil_r, Htext, Htools. cbn [rbind ok].
    assert (Htextpart : json_deltas text_evs = []
                        /\ text_deltas text_evs = if truthy text then [text] else []).
    { destruct (truthy text).
      - destruct (negb (text_block_started st));
          rewrite ?gbind_ret, ?gbind_yield in Hstarted;
          cbn [fst snd gret yield gbind app] in Hstarted; inversion Hstarted;
          split; reflexivity.
      - inversion Hstarted. split; reflexivity. }
    destruct Htextpart as [Hj1 Ht1].
    assert (Htoolpart : json_deltas tool_evs
                        = fragment_arguments
                            (if truthy tool_calls
                             then match py_iter tool_calls with
                                  | inr l => l
                                  | inl _ => []
                                  end
                             else [])
                        /\ text_deltas tool_evs = []).
    { destruct (truthy tool_calls).
      - linv Haccs as items Hitems. rewrite Hitems.
        apply tool_calls_loop_deltas in Haccs. exact Haccs.
      - inversion Haccs. split; reflexivity. }
    destruct Htoolpart as [Hj2 Ht2].
    rewrite json_deltas_app, text_deltas_app, Hj1, Hj2, Ht1, Ht2, app_nil_r.
    repeat split.
  - inversion H; subst evs st'. cbn [usage]. repeat split.
Qed.

Lemma stream_loop_deltas (lines : list line) :
  forall (st st' : stream_state) (evs : list event),
    stream_loop st lines = (evs, inr st') ->
    json_deltas evs
    = flat_map (fun chunk => fragment_arguments (chunk_tool_calls chunk)) (consumed lines)
    /\ text_deltas evs = flat_map chunk_text (consumed lines)
    /\ usage st' = last_usage_from (usage st) (consumed lines).
Proof.
  induction lines as [| l lines IH]; intros st st' evs H.
  - inversion H; subst. repeat split.
  - destruct l as [| | | chunk | raised]; cbn [stream_loop] in H.
    + apply IH in H. exact H.
    + inversion H; subst. repeat split.
    + apply IH in H. exact H.
    + ginv H as evs1 st1 Hstep evs2.
      apply chunk_step_deltas in Hstep. destruct Hstep as (Hj1 & Ht1 & Hu1).
      apply IH in H. destruct H as (Hj2 & Ht2 & Hu2).
      cbn [set_last_chunk usage] in Hu1.
      cbn [consumed flat_map].
      rewrite json_deltas_app, text_deltas_app, Hj1, Hj2, Ht1, Ht2, Hu2, Hu1.
      repeat split.
    + destruct raised; cbn [caught] in H; try discriminate H.
      apply IH in H. exact H.
Qed.

Lemma closing_deltas (st : stream_state) :
  json_deltas (closing st) = [] /\ text_deltas (closing st) = [].
Proof.
  unfold closing. destruct (tool_call_accumulators st) as [| entry rest].
  - destruct (text_block_started st); split; reflexivity.
  - generalize (map fst (entry :: rest)). intros l.
    induction l as [| i l [IHj IHt]]; split; try reflexivity; assumption.
Qed.

(** A completed run, with the token count of its [message_delta]. *)
Lemma stream_generator_inr_tokens (random_part : string)
  (payload : list (string * json)) (reply : stream_reply) (evs : list event) :
  stream_generator random_part payload reply = (evs, inr tt) ->
  exists model body st stop_reason output_tokens,
    evs = MessageStart (generate_message_id random_part) model :: Ping
            :: body ++ closing st ++ [MessageDelta stop_reason output_tokens; MessageStop]
    /\ stream_loop initial_state (stream_lines reply) = (body, inr st)
    /\ py_get_default (usage st) "completion_tokens" (JInt 0) = inr output_tokens.
Proof.
  intros H. unfold stream_generator in H. cbv zeta in H.
  linv H as model Hmodel.
  ginv H as e1 u1 Hstart e2. inversion Hstart; subst e1.
  ginv H as e3 u3 Hping e4. inversion Hping; subst e3.
  ginv H as e5 u5 Hstatus e6.
  assert (e5 = []) as -> by (destruct (stream_ok reply); inversion Hstatus; reflexivity).
  ginv H as body st Hloop e7.
  unfold stream_finish in H.
  linv H as choices Hchoices. linv H as choice Hchoice.
  linv H as finish_reason Hfinish. linv H as stop_reason Hstop.
  ginv H as e8 u8 Hclose e9. rewrite close_blocks_run in Hclose.
  inversion Hclose; subst e8.
  linv H as output_tokens Htokens.
  rewrite gbind_yield in H. cbn [yield fst snd] in H. inversion H; subst e9.
  exists model, body, st, stop_reason, output_tokens. repeat split; assumption.
Qed.

(** X12: on a run that completes, the [input_json_delta] events are, in
    order, exactly the non-empty argument strings of the tool-call
    fragments consumed, each passed through verbatim under the index of
    its fragment; a fragment without arguments yields no delta. *)
Theorem argument_fragments_pass_through :
  forall (random_part : string) (payload : list (string * json))
         (reply : stream_reply) (evs : list event),
    stream_generator random_part payload reply = (evs, inr tt) ->
    json_deltas evs
    = flat_map (fun chunk => fragment_arguments (chunk_tool_calls chunk))
        (consumed (stream_lines reply)).
Proof.
  intros random_part payload reply evs H.
  apply stream_generator_inr_tokens in H.
  destruct H as (model & body & st & stop_reason & output_tokens & -> & Hloop & _).
  apply stream_loop_deltas in Hloop. destruct Hloop as (Hj & _ & _).
  change (json_deltas (MessageStart (generate_message_id random_part) model :: Ping
                         :: body ++ closing st
                              ++ [MessageDelta stop_reason output_tokens; MessageStop]))
    with (json_deltas (body ++ closing st
                         ++ [MessageDelta stop_reason output_tokens; MessageStop])).
  rewrite !json_deltas_app, (proj1 (closing_deltas st)), Hj.
  cbn [json_deltas flat_map app]. rewrite app_nil_r. reflexivity.
Qed.

Lemma argument_fragments_pass_through_witness :
  json_deltas
    [MessageStart "msg_r" (JStr "my-model"); Ping;
     TextBlockStart; TextDelta (JStr "Hi");
     ToolBlockStart (JInt 1) (JStr "call_a") (JStr "first");
     InputJsonDelta (JInt 1) "{";
     ToolBlockStart (JInt 2) (JStr "call_b") (JStr "second");
     InputJsonDelta (JInt 2) "{}";
     InputJsonDelta (JInt 1) "}";
     BlockStop (JInt 1); BlockStop (JInt 2);
     MessageDelta "end_turn" (JInt 0); MessageStop]
  = flat_map (fun chunk => fragment_arguments (chunk_tool_calls chunk))
      (consumed (stream_lines text_and_two_tools)).
Proof.
  exact (argument_fragments_pass_through "r" sample_payload text_and_two_tools _ eq_refl).
Defined.

(** X13: on a run that completes, the text deltas are, in order, exactly
    the truthy [content] values of the consumed chunks' first-choice
    deltas; nothing is merged, dropped or added. *)
Theorem text_fragments_pass_through :
  forall (random_part : string) (payload : list (string * json))
         (reply : stream_reply) (evs : list event),
    stream_generator random_part payload reply = (evs, inr tt) ->
    text_deltas evs = flat_map chunk_text (consumed (stream_lines reply)).
Proof.
  intros random_part payload reply evs H.
  apply stream_generator_inr_tokens in H.
  destruct H as (model & body & st & stop_reason & output_tokens & -> & Hloop & _).
  apply stream_loop_deltas in Hloop. destruct Hloop as (_ & Ht & _).
  change (text_deltas (MessageStart (generate_message_id random_part) model :: Ping
                         :: body ++ closing st
                              ++ [MessageDelta stop_reason output_tokens; MessageStop]))
    with (text_deltas (body ++ closing st
                         ++ [MessageDelta stop_reason output_tokens; MessageStop])).
  rewrite !text_deltas_app, (proj2 (closing_deltas st)), Ht.
  cbn [text_deltas flat_map app]. rewrite app_nil_r. reflexivity.
Qed.

Lemma text_fragments_pass_through_witness :
  text_deltas
    [MessageStart "msg_r" (JStr "my-model"); Ping;
     TextBlockStart; TextDelta (JStr "He"); TextDelta (JStr "llo");
     BlockStop (JInt 0);
     MessageDelta "end_turn" (JInt 0); MessageStop]
  = flat_map chunk_text (consumed (stream_lines noisy_stream)).
Proof.
  exact (text_fragments_pass_through "r" sample_payload noisy_stream _ eq_refl).
Defined.

(** X14: on a run that completes, the [output_tokens] of the final
    [message_delta] is the [completion_tokens] of the last truthy [usage]
    among the consumed chunks (last writer wins), and 0 when no chunk
    carried one or that one has no [completion_tokens]. *)
Theorem output_tokens_from_last_usage :
  forall (random_part : string) (payload : list (string * json))
         (reply : stream_reply) (evs : list event),
    stream_generator random_part payload reply = (evs, inr tt) ->
    exists front stop_reason output_tokens,
      evs = front ++ [MessageDelta stop_reason output_tokens; MessageStop]
      /\ py_get_default (last_usage_from (JObj []) (consumed (stream_lines reply)))
           "completion_tokens" (JInt 0)
         = inr output_tokens.
Proof.
  intros random_part payload reply evs H.
  apply stream_generator_inr_tokens in H.
  destruct H as (model & body & st & stop_reason & output_tokens & -> & Hloop & Htokens).
  apply stream_loop_deltas in Hloop. destruct Hloop as (_ & _ & Hu).
  cbn [initial_state usage] in Hu.
  exists (MessageStart (generate_message_id random_part) model :: Ping
            :: body ++ closing st), stop_reason, output_tokens.
  split.
  - cbn [app]. rewrite <- app_assoc. reflexivity.
  - rewrite <- Hu. exact Htokens.
Qed.

Lemma output_tokens_from_last_usage_witness :
  exists front stop_reason output_tokens,
    [MessageStart "msg_r" (JStr "my-model"); Ping;
     TextBlockStart; TextDelta (JStr "Hi");
     BlockStop (JInt 0);
     MessageDelta "end_turn" (JInt 7); MessageStop]
    = front ++ [MessageDelta stop_reason output_tokens; MessageStop]
    /\ py_get_default (last_usage_from (JObj []) (consumed (stream_lines length_then_usage)))
         "completion_tokens" (JInt 0)
       = inr output_tokens.
Proof.
  exact (output_tokens_from_last_usage "r" sample_payload length_then_usage _ eq_refl).
Defined.

(** ** The text block *)

Lemma body_ok_started_no_start (evs : list event) :
  forall opened, body_ok true opened evs -> ~ In TextBlockStart evs.
Proof.
  induction evs as [| e evs IH]; intros opened H Hin; [contradiction |].
  destruct e; cbn [body_ok] in H; try contradiction.
  - destruct H as [Hs _]. discriminate Hs.
  - destruct H as [_ H]. destruct Hin as [Hx | Hin]; [discriminate Hx |].
    exact (IH _ H Hin).
  - destruct H as (k & _ & _ & H). destruct Hin as [Hx | Hin]; [discriminate Hx |].
    exact (IH _ H Hin).
  - destruct H as (k & _ & _ & H). destruct Hin as [Hx | Hin]; [discriminate Hx |].
    exact (IH _ H Hin).
Qed.

Lemma body_ok_text_split (evs : list event) :
  forall opened,
    body_ok false opened evs ->
    text_deltas evs <> [] ->
    exists pre post,
      evs = pre ++ TextBlockStart :: post
      /\ Forall (fun e => text_event e = false) pre
      /\ ~ In TextBlockStart post.
Proof.
  induction evs as [| e evs IH]; intros opened H Hne; [contradiction Hne; reflexivity |].
  destruct e; cbn [body_ok] in H; try contradiction.
  - destruct H as [_ H]. exists [], evs. repeat split; [constructor |].
    apply (body_ok_started_no_start evs opened H).
  - destruct H as [Hs _]. discriminate Hs.
  - destruct H as (k & _ & _ & H).
    destruct (IH _ H Hne) as (pre & post & -> & Hpre & Hpost).
    exists (ToolBlockStart idx id name :: pre), post.
    repeat split; [constructor; [reflexivity | exact Hpre] | exact Hpost].
  - destruct H as (k & _ & _ & H).
    destruct (IH _ H Hne) as (pre & post & -> & Hpre & Hpost).
    exists (InputJsonDelta idx partial_json :: pre), post.
    repeat split; [constructor; [reflexivity | exact Hpre] | exact Hpost].
Qed.

(** Without a text delta the loop has yielded no text start either. *)
Lemma chunk_step_text_start (st st' : stream_state) (chunk : json) (evs : list event) :
  chunk_step st chunk = (evs, inr st') ->
  text_deltas evs = [] -> existsb is_text_start evs = false.
Proof.
  intros H. unfold chunk_step in H.
  linv H as u Hu. linv H as choices Hchoices. linv H as choice Hchoice.
  linv H as delta Hdelta.
  destruct (truthy delta); cbn [negb] in H.
  - linv H as text Htext.
    ginv H as text_evs started' Hstarted rest.
    linv H as tool_calls Htools.
    ginv H as tool_evs accs Haccs tail.
    inversion H; subst tail st'. clear H.
    rewrite app_nil_r, text_deltas_app, existsb_app.
    assert (Htool : existsb is_text_start tool_evs = false).
    { destruct (truthy tool_calls).
      - linv Haccs as items Hitems.
        apply tool_calls_loop_body with (started := started') in Haccs.
        destruct Haccs as (_ & _ & Hnone & _). exact Hnone.
      - inversion Haccs. reflexivity. }
    rewrite Htool, orb_false_r.
    destruct (truthy text).
    + destruct (negb (text_block_started st));
        rewrite ?gbind_ret, ?gbind_yield in Hstarted;
        cbn [fst snd gret yield gbind app] in Hstarted; inversion Hstarted;
        intros Hx; discriminate Hx.
    + inversion Hstarted. reflexivity.
  - inversion H. reflexivity.
Qed.

Lemma stream_loop_text_start (lines : list line) :
  forall (st st' : stream_state) (evs : list event),
    stream_loop st lines = (evs, inr st') ->
    text_deltas evs = [] -> existsb is_text_start evs = false.
Proof.
  induction lines as [| l lines IH]; intros st st' evs H.
  - inversion H. reflexivity.
  - destruct l as [| | | chunk | raised]; cbn [stream_loop] in H.
    + exact (IH _ _ _ H).
    + inversion H. reflexivity.
    + exact (IH _ _ _ H).
    + ginv H as evs1 st1 Hstep evs2.
      rewrite text_deltas_app, existsb_app. intros Hnil.
      apply app_eq_nil in Hnil. destruct Hnil as [H1 H2].
      rewrite (chunk_step_text_start _ _ _ _ Hstep H1), (IH _ _ _ H H2). reflexivity.
    + destruct raised; cbn [caught] in H; try discriminate H.
      exact (IH _ _ _ H).
Qed.

(** X15: on a run that completes, the text block is started exactly when
    some consumed chunk carries text: with no such chunk the run holds no
    text start and no text delta; with one, the events split at a single
    text start that comes before every text delta and is never repeated. *)
Theorem text_block_started_once :
  forall (random_part : string) (payload : list (string * json))
         (reply : stream_reply) (evs : list event),
    stream_generator random_part payload reply = (evs, inr tt) ->
    (flat_map chunk_text (consumed (stream_lines reply)) = [] ->
     Forall (fun e => text_event e = false) evs)
    /\ (flat_map chunk_text (consumed (stream_lines reply)) <> [] ->
        exists pre post,
          evs = pre ++ TextBlockStart :: post
          /\ Forall (fun e => text_event e = false) pre
          /\ ~ In TextBlockStart post).
Proof.
  intros random_part payload reply evs H.
  apply stream_generator_inr_tokens in H.
  destruct H as (model & body & st & stop_reason & output_tokens & -> & Hloop & _).
  pose proof (stream_loop_deltas _ _ _ _ Hloop) as (_ & Ht & _).
  pose proof (stream_loop_text_start _ _ _ _ Hloop) as Hstart.
  apply stream_loop_body in Hloop. destruct Hloop as (Hok & _ & _ & _ & _).
  cbn [initial_state text_block_started tool_call_accumulators map keys_of flat_map] in Hok.
  rewrite <- Ht.
  assert (Hclosing : Forall (fun e => text_event e = false) (closing st)).
  { unfold closing. destruct (tool_call_accumulators st) as [| entry rest].
    - destruct (text_block_started st); repeat constructor.
    - apply Forall_forall. intros e He. apply in_map_iff in He.
      destruct He as (i & <- & _). reflexivity. }
  split.
  - intros Hnil. specialize (Hstart Hnil).
    constructor; [reflexivity |]. constructor; [reflexivity |].
    apply Forall_app. split.
    + apply (body_ok_no_text body [] Hok).
      intros Hin.
      assert (Hex : existsb is_text_start body = true)
        by (apply existsb_exists; exists TextBlockStart; split; [exact Hin | reflexivity]).
      rewrite Hex in Hstart. discriminate.
    + apply Forall_app. split; [exact Hclosing | repeat constructor].
  - intros Hne.
    destruct (body_ok_text_split body [] Hok Hne) as (pre & post & -> & Hpre & Hpost).
    exists (MessageStart (generate_message_id random_part) model :: Ping :: pre),
      (post ++ closing st ++ [MessageDelta stop_reason output_tokens; MessageStop]).
    repeat split.
    + cbn [app]. rewrite <- app_assoc. reflexivity.
    + constructor; [reflexivity |]. constructor; [reflexivity | exact Hpre].
    + intros Hin. apply in_app_or in Hin. destruct Hin as [Hin | Hin];
        [exact (Hpost Hin) |].
      apply in_app_or in Hin. destruct Hin as [Hin | Hin].
      * rewrite Forall_forall in Hclosing. specialize (Hclosing _ Hin). discriminate.
      * destruct Hin as [Hx | [Hx | []]]; discriminate Hx.
Qed.

Lemma text_block_started_once_witness :
  exists pre post,
    [MessageStart "msg_r" (JStr "my-model"); Ping;
     TextBlockStart; TextDelta (JStr "He"); TextDelta (JStr "llo");
     BlockStop (JInt 0);
     MessageDelta "end_turn" (JInt 0); MessageStop]
    = pre ++ TextBlockStart :: post
    /\ Forall (fun e => text_event e = false) pre
    /\ ~ In TextBlockStart post.
Proof.
  refine (proj2 (text_block_started_once "r" sample_payload noisy_stream _ eq_refl) _).
  intros H. discriminate H.
Defined.

(** ** Backend answers that the non-streaming path cannot use *)

Lemma anthropic_response_needs_choices_and_usage (json_loads : string -> option json)
  (random_part : string) (payload : list (string * json)) (data : json) :
  match data with
  | JObj d => dict_get "choices" d = None \/ dict_get "usage" d = None
  | _ => True
  end ->
  succeeds (anthropic_response json_loads random_part payload data) = false.
Proof.
  intros H. unfold anthropic_response.
  destruct data as [| | | | | |d]; try reflexivity.
  cbn [py_getitem].
  destruct (dict_get "choices" d) as [choices |] eqn:Hchoices; [| reflexivity].
  destruct H as [H | Husage]; [discriminate H |]. rewrite Husage.
  cbn [rbind ok].
  repeat (rewrite succeeds_rbind;
          first [ reflexivity
                | match goal with
                  | |- match ?r with _ => _ end = false => destruct r; [reflexivity |]
                  end ]).
Qed.

(** X16: for a request that translates and does not ask for streaming,
    the handler answers with the status-500 JSON error response whenever
    the backend's status fails, its body does not decode, or the decoded
    document is not an object or lacks [choices] or [usage]. *)
Theorem unusable_reply_gets_error_response :
  forall (json_dumps : json -> string) (json_loads : string -> option json)
         (str_exn : exn -> string) (cfg : config)
         (backend : http_request -> http_reply) (random_part : string)
         (p out : list (string * json)),
    translate_request json_dumps cfg (JObj p) = inr out ->
    truthy (match dict_get "stream" p with Some v => v | None => JBool false end) = false ->
    unusable_reply (backend {| req_url := (OPENAI_API_BASE cfg ++ "/chat/completions")%string;
                               req_json := out;
                               req_headers := request_headers cfg |}) ->
    exists e,
      messages_proxy json_dumps json_loads str_exn cfg backend random_part (Some (JObj p))
      = Plain (error_response json_dumps str_exn e).
Proof.
  intros json_dumps json_loads str_exn cfg backend random_part p out Hout Hflag Hbad.
  unfold messages_proxy. cbn [rbind py_get_default ok].
  rewrite Hout. cbn [rbind]. rewrite Hflag. cbn [negb].
  unfold handle_non_stream.
  destruct (reply_ok _) eqn:Hok.
  - destruct Hbad as [Hbad | Hbad]; [rewrite Hok in Hbad; discriminate Hbad |].
    cbn [rbind ok].
    destruct (reply_json _) as [data |]; [| exists JSONDecodeError; reflexivity].
    cbn [rbind ok].
    assert (Hfail : succeeds (anthropic_response json_loads random_part out data) = false).
    { apply anthropic_response_needs_choices_and_usage.
      destruct data; try exact I. exact Hbad. }
    apply succeeds_false in Hfail. destruct Hfail as [e He].
    rewrite He. exists e. reflexivity.
  - exists HTTPStatusError. reflexivity.
Qed.

Lemma unusable_reply_gets_error_response_witness :
  exists e,
    messages_proxy dumps_empty_object loads_empty_object (fun _ => "error")
      (load_config empty_env) (fun _ => reply_without_usage) "r"
      (Some (JObj sample_request))
    = Plain (error_response dumps_empty_object (fun _ => "error") e).
Proof.
  refine (unusable_reply_gets_error_response dumps_empty_object loads_empty_object
            (fun _ => "error") (load_config empty_env) (fun _ => reply_without_usage)
            "r" sample_request _ eq_refl eq_refl _).
  right. right. reflexivity.
Defined.
